(** * InSAR pipeline orchestrator (main_parallel.py): a shallow embedding

    The orchestrator parses a list of scene pairs, provisions the shared
    terrain model and orbit files, stages one sandbox directory per pair with
    symbolic links and drives the external processor with retries.

    Conventions of the embedding:
    - Python [str] values are [string]s (sequences of 8-bit characters);
      identifiers and file contents are taken to be ASCII.
    - [None] / a value is [option]; a call that may raise returns a [result].
    - The external collaborators (terrain download, orbit download, the
      [topsApp.py] processor run through [subprocess.run]) are oracles over
      the file-system state: Section variables.
    - Wall-clock readings ([time.time()]) are left out. *)

From Stdlib Require Import String Ascii List ZArith Lia OrdersEx.
From stdpp Require Import base option list gmap strings sorting.

Local Open Scope string_scope.
Local Open Scope list_scope.

(** ** Strings *)

Module Str.

(** [s.split(...)] with the separators given by a predicate: every separator
    ends a field, so the result always has at least one field. *)
Fixpoint split_by (is_sep : ascii → bool) (s : string) : list string :=
  match s with
  | EmptyString => [EmptyString]
  | String c s' =>
      if is_sep c then EmptyString :: split_by is_sep s'
      else match split_by is_sep s' with
           | f :: fs => String c f :: fs
           | [] => [String c EmptyString]
           end
  end.

(** [s.split(sep)] for a one-character separator *)
Definition split_on (sep : ascii) (s : string) : list string :=
  split_by (λ c, Ascii.eqb c sep) s.

(** [s[:n]] *)
Definition take (n : nat) (s : string) : string := substring 0 n s.

Definition code_in (lo hi : nat) (c : ascii) : bool :=
  (lo <=? nat_of_ascii c)%nat && (nat_of_ascii c <=? hi)%nat.

(** [\d] on ASCII text *)
Definition is_digit (c : ascii) : bool := code_in 48 57 c.

(** The ASCII characters for which [str.isspace] holds: tab to carriage
    return, the four separators 28 to 31, and the space. *)
Definition is_space (c : ascii) : bool := code_in 9 13 c || code_in 28 32 c.

(** [n] digits at the head of [s]: the digits and what follows them. *)
Fixpoint digits (n : nat) (s : string) : option (string * string) :=
  match n with
  | O => Some (EmptyString, s)
  | S n' =>
      match s with
      | String c s' =>
          if is_digit c
          then match digits n' s' with
               | Some (d, rest) => Some (String c d, rest)
               | None => None
               end
          else None
      | EmptyString => None
      end
  end.

(** The longest prefix of [s] whose characters satisfy [f], and the rest. *)
Fixpoint span (f : ascii → bool) (s : string) : string * string :=
  match s with
  | String c s' =>
      if f c then let '(run, rest) := span f s' in (String c run, rest)
      else (EmptyString, s)
  | EmptyString => (EmptyString, EmptyString)
  end.

(** [s] without its prefix [p], when it starts with [p]. *)
Fixpoint drop_prefix (p s : string) : option string :=
  match p, s with
  | EmptyString, _ => Some s
  | String a p', String b s' => if Ascii.eqb a b then drop_prefix p' s' else None
  | String _ _, EmptyString => None
  end.

(** [s.lstrip(chars)], [s.rstrip(chars)], [s.strip(chars)] with the set of
    characters given by a predicate. *)
Definition lstrip_by (f : ascii → bool) (s : string) : string := (span f s).2.

Definition rev (s : string) : string :=
  string_of_list_ascii (reverse (list_ascii_of_string s)).

Definition rstrip_by (f : ascii → bool) (s : string) : string :=
  rev (lstrip_by f (rev s)).

Definition strip_by (f : ascii → bool) (s : string) : string :=
  rstrip_by f (lstrip_by f s).

(** [s.strip()] *)
Definition strip (s : string) : string := strip_by is_space s.

(** [s.split()]: the fields between runs of white space, none of them empty *)
Definition split_ws (s : string) : list string :=
  filter (λ f, f ≠ EmptyString) (split_by is_space s).

(** [c in s] for a character [c] *)
Definition contains (c : ascii) (s : string) : bool :=
  existsb (Ascii.eqb c) (list_ascii_of_string s).

(** [s.replace(a, b)] for characters [a] and [b] *)
Definition replace_char (a b : ascii) (s : string) : string :=
  string_of_list_ascii
    ((λ c, if Ascii.eqb c a then b else c) <$> list_ascii_of_string s).

(** [s.endswith(suffix)] *)
Definition ends_with (suffix s : string) : bool :=
  String.prefix (rev suffix) (rev s).

(** The lines of a text read with universal newlines, without their
    terminators.  A carriage return followed by a line feed gives one more,
    empty, line here, which no reader in this program looks at. *)
Definition lines (s : string) : list string :=
  split_by (λ c, Ascii.eqb c "010" || Ascii.eqb c "013") s.

(** The double quote, the single quote *)
Definition dquote : ascii := ascii_of_nat 34.
Definition squote : ascii := ascii_of_nat 39.

(** Lexical order of [str]: comparison of code points, left to right. *)
Definition le (a b : string) : Prop := String.leb a b = true.

Definition le_dec (a b : string) : Decision (le a b) :=
  decide (String.leb a b = true).

End Str.

#[global] Existing Instance Str.le_dec.

(** ** Scene identifiers and dates *)

(** [get_s1_date]: the pattern [(\d{8})T\d{6}] anchored at the head of [s];
    the result is group 1. *)
Definition match_date_at (s : string) : option string :=
  match Str.digits 8 s with
  | Some (d, String "T" rest) =>
      match Str.digits 6 rest with
      | Some _ => Some d
      | None => None
      end
  | _ => None
  end.

(** [re.search]: the leftmost position where the pattern matches. *)
Fixpoint search_date (s : string) : option string :=
  match match_date_at s with
  | Some d => Some d
  | None =>
      match s with
      | EmptyString => None
      | String _ s' => search_date s'
      end
  end.

Definition get_s1_date (safe_name : string) : string :=
  match search_date safe_name with
  | Some d => d
  | None => "UnknownDate"
  end.

(** [name.split('_')[5][:8]]; [None] stands for the [IndexError] of a name
    with fewer than six fields. *)
Definition date_field (name : string) : option string :=
  Str.take 8 <$> (Str.split_on "_" name !! 5%nat).

(** The loop of [get_date_range_from_pairs]: both fields are read before
    either is appended, so an [IndexError] on one name skips the pair. *)
Fixpoint collect_dates (pairs : list (string * string)) (dates : list string)
  : list string :=
  match pairs with
  | [] => dates
  | (ref, sec) :: rest =>
      match date_field ref with
      | None => collect_dates rest dates
      | Some d1 =>
          match date_field sec with
          | None => collect_dates rest dates
          | Some d2 => collect_dates rest (dates ++ [d1; d2])
          end
      end
  end.

(** The dates of the positional rule, pair by pair: what the loop has
    appended when it ends. *)
Definition positional_dates (pairs : list (string * string)) : list string :=
  flat_map
    (λ p, match date_field p.1, date_field p.2 with
          | Some d1, Some d2 => [d1; d2]
          | _, _ => []
          end)
    pairs.

(** The pairs for which the loop prints its warning. *)
Definition unparsed_pairs (pairs : list (string * string))
  : list (string * string) :=
  filter (λ p, ¬ (is_Some (date_field p.1) ∧ is_Some (date_field p.2))) pairs.

(** [dates.sort()] is the sorted permutation of [dates]; [dates[0]] and
    [dates[-1]] are its first and last elements.  The result [None] stands
    for the tuple [(None, None)]. *)
Definition get_date_range_from_pairs (pairs : list (string * string))
  : option (string * string) :=
  let dates := collect_dates pairs [] in
  match dates with
  | [] => None
  | d :: _ =>
      let sorted := merge_sort Str.le dates in
      Some (List.hd d sorted, List.last sorted d)
  end.

(** ** Lines of the pair list *)

(** The character class [[0-9A-Za-zT_\-]] *)
Definition is_safe_char (c : ascii) : bool :=
  Str.is_digit c || Str.code_in 65 90 c || Str.code_in 97 122 c
  || Ascii.eqb c "_" || Ascii.eqb c "-".

(** The pattern [S1[AB]_IW_SLC__[0-9A-Za-zT_\-]+\.SAFE] anchored at the head
    of [s]: the match and what follows it.  The dot is outside the class, so
    the run of class characters is the longest one. *)
Definition match_safe_at (s : string) : option (string * string) :=
  match Str.drop_prefix "S1" s with
  | Some (String c rest) =>
      if Ascii.eqb c "A" || Ascii.eqb c "B"
      then match Str.drop_prefix "_IW_SLC__" rest with
           | Some rest =>
               let '(run, rest) := Str.span is_safe_char rest in
               match run, Str.drop_prefix ".SAFE" rest with
               | String _ _, Some rest =>
                   Some ("S1" +:+ String c "_IW_SLC__" +:+ run +:+ ".SAFE", rest)
               | _, _ => None
               end
           | None => None
           end
      else None
  | _ => None
  end.

(** [re.findall]: the matches from left to right, each search resuming
    where the last match ended.  [fuel] bounds the positions tried. *)
Fixpoint findall_safe_fuel (fuel : nat) (s : string) : list string :=
  match fuel with
  | O => []
  | S fuel' =>
      match match_safe_at s with
      | Some (m, rest) => m :: findall_safe_fuel fuel' rest
      | None =>
          match s with
          | EmptyString => []
          | String _ s' => findall_safe_fuel fuel' s'
          end
      end
  end.

Definition findall_safe (s : string) : list string :=
  findall_safe_fuel (S (String.length s)) s.

(** [p.strip()], then the double quotes stripped, then the single quotes *)
Definition clean_token (p : string) : string :=
  Str.strip_by (Ascii.eqb Str.squote)
    (Str.strip_by (Ascii.eqb Str.dquote) (Str.strip p)).

(** What one line of the pair list contributes. *)
Inductive line_kind :=
| Ignored
| Parsed (ref sec : string)
| Malformed (line : string).

(** The body of the loop of [load_pairs_from_file] for one line.  The
    [replace] of the double quote by itself leaves [cleaned] as it is. *)
Definition read_line (raw : string) : line_kind :=
  let line := Str.strip raw in
  if bool_decide (line = EmptyString) || String.prefix "#" line then Ignored
  else
    match findall_safe line with
    | [ref; sec] => Parsed ref sec
    | _ =>
        let cleaned :=
          Str.strip (Str.rstrip_by (Ascii.eqb ")")
                       (Str.lstrip_by (Ascii.eqb "(") (Str.strip line))) in
        let fields :=
          if Str.contains "," cleaned then Str.split_on "," cleaned
          else Str.split_ws cleaned in
        let parts :=
          clean_token <$> filter (λ p, Str.strip p ≠ EmptyString) fields in
        match parts with
        | [ref; sec] => Parsed ref sec
        | _ => Malformed line
        end
    end.

(** ** Configuration read from the environment *)

(** A [str] used as a condition: [None] and the empty string are false. *)
Definition truthy (o : option string) : bool :=
  match o with
  | Some (String _ _) => true
  | _ => false
  end.

(** ** Paths and the file system

    A path is the list of the components of a normalised absolute path
    ([/a/b] is [["a"; "b"]], the root is [[]]).  The state of the file system
    maps every visible path to its node.  Symbolic links are followed at the
    last component only: the directories above an entry are taken not to be
    links themselves. *)

Abbreviation path := (list string).

Module Fs.

(** A link holds the relative target that [os.path.relpath] computes:
    [up] times [..], then the components [down]. *)
Inductive node :=
| File (content : string)
| Dir
| Link (up : nat) (down : path).

#[global] Instance node_eq_dec : EqDecision node.
Proof. solve_decision. Defined.

Abbreviation state := (gmap path node).

Definition dirname (p : path) : path := removelast p.

Definition basename (p : path) : string := List.last p "".

(** [os.path.join(d, name)] for a one-component [name] *)
Definition join (d : path) (name : string) : path := d ++ [name].

(** [p + ext] on the text of the path: the suffix goes to the last component *)
Definition add_ext (p : path) (ext : string) : path :=
  match p, ext with
  | _, EmptyString => p
  | [], _ => [ext]
  | _ :: _, _ => dirname p ++ [basename p +:+ ext]
  end.

(** [os.path.relpath(src, start)]: drop the common prefix, climb out of
    what is left of [start], descend what is left of [src]. *)
Definition relpath (src start : path) : nat * path :=
  let '(rest_start, rest_src, _) := max_prefix start src in
  (length rest_start, rest_src).

(** Where the relative target ([up], [down]) of a link in [dir] leads;
    [..] at the root stays at the root. *)
Definition follow (dir : path) (up : nat) (down : path) : path :=
  take (length dir - up) dir ++ down.

(** Linux follows at most 40 links before it gives up with [ELOOP]. *)
Definition MAXSYMLINKS : nat := 40.

Fixpoint resolve_fuel (fuel : nat) (s : state) (p : path) : option path :=
  match s !! p with
  | Some (Link up down) =>
      match fuel with
      | O => None
      | S fuel' => resolve_fuel fuel' s (follow (dirname p) up down)
      end
  | _ => Some p
  end.

Definition resolve (s : state) (p : path) : option path :=
  resolve_fuel MAXSYMLINKS s p.

(** [os.stat]: the node the path leads to, links followed. *)
Definition stat (s : state) (p : path) : option node :=
  match resolve s p with
  | Some q => s !! q
  | None => None
  end.

(** [os.path.exists], [os.path.lexists], [os.path.islink], [os.path.isdir] *)
Definition exists_ (s : state) (p : path) : bool :=
  bool_decide (is_Some (stat s p)).

Definition lexists (s : state) (p : path) : bool :=
  bool_decide (is_Some (s !! p)).

Definition islink (s : state) (p : path) : bool :=
  match s !! p with
  | Some (Link _ _) => true
  | _ => false
  end.

Definition isdir (s : state) (p : path) : bool :=
  bool_decide (stat s p = Some Dir).

(** The names in directory [d], in the order of the map's keys. *)
Definition listdir (s : state) (d : path) : list string :=
  omap (λ p, if bool_decide (p ≠ [] ∧ dirname p = d) then Some (basename p) else None)
       (map_to_list s).*1.

(** [glob.glob(os.path.join(d, "*" + suffix))]: the entries of [d] whose
    name ends in [suffix] and does not start with a dot; nothing when [d]
    cannot be listed. *)
Definition glob_suffix (s : state) (d : path) (suffix : string) : list path :=
  if isdir s d
  then join d <$>
       filter (λ name, String.prefix "." name = false ∧
                       Str.ends_with suffix name = true)
              (listdir s d)
  else [].

End Fs.

Export Fs(node(..)).

(** ** Exceptions, output and results *)

Inductive exn :=
| CalledProcessError (cmd : string)
| OSError (errno : string)
| NameError (name : string)
| PyException (msg : string).

#[global] Instance exn_eq_dec : EqDecision exn.
Proof. solve_decision. Defined.

Definition is_CalledProcessError (e : exn) : bool :=
  match e with
  | CalledProcessError _ => true
  | _ => false
  end.

(** What the program prints, one constructor per message. *)
Inductive message :=
| LinkSourceMissing (src : path)
| LinkCreated (dst : path) (up : nat) (down : path)
| LinkNotSymlink (dst : path)
| LinkException (e : exn)
| WarnMalformedLine (line : string)
| WarnUnparsedDate (ref sec : string)
| RoiNotFourValues (roi_env : string)
| RoiParseError
| CheckDem
| DemExists (p : path)
| DemDownloading (name : string)
| DemUsingRoi
| DemReady (p : path)
| DemMetadataMissing
| DemDirEntry (name : string)
| WarnDemDownloadFailed (e : exn)
| WarnNoRoi
| WarnNoApiKey
| CheckOrbits
| WarnNoDates
| DateRange (start_date end_date : string)
| WarnFewOrbits
| OrbitsReady (n : nat)
| WorkerStart (folder : string)
| WarnDemFileMissing (src : path)
| WarnDemLinkError (e : exn)
| Linked (folder : string)
| StepStart (folder step : string)
| StepDone (folder step : string)
| Phase2Start (folder : string)
| Phase2Done (folder : string)
| ErrNoApiKey
| TaskList
| TaskLine (i : nat) (m_date s_date : string)
| PreparingResources
| ErrResourcePrep (e : exn)
| StartingPool.

#[global] Instance message_eq_dec : EqDecision message.
Proof. solve_decision. Defined.

Inductive event :=
| Print (m : message)
| LogRetry (attempt retries : Z) (cmd : string)
| Sleep (seconds : Z)
| Run (cmd : string) (cwd : path)
| CallDownloadDem (out_dir : path)
| CallDownloadOrbit (start_date end_date : string) (out_dir : path).

#[global] Instance event_eq_dec : EqDecision event.
Proof. solve_decision. Defined.

Inductive result (A : Type) :=
| Ret (a : A)
| Raise (e : exn).

Arguments Ret {A} a.
Arguments Raise {A} e.

#[global] Instance result_eq_dec {A} `{EqDecision A} : EqDecision (result A).
Proof. solve_decision. Defined.

(** ** The world and its effects *)

Section Orchestrator.

(** [E] is the state of everything outside the file system that the
    external programs depend on: the network, the remote servers, the
    processes.  [F] is the type of Python floats. *)
Context {E F : Type}.

Record world := World { fs : Fs.state; ext : E; out : list event }.

#[global] Instance world_eq_dec `{EqDecision E} : EqDecision world.
Proof. solve_decision. Defined.

(** A computation reads and changes the world, and returns or raises. *)
Definition M (A : Type) : Type := world → result A * world.

#[global] Instance M_ret : MRet M := λ A a w, (Ret a, w).

#[global] Instance M_bind : MBind M := λ A B f m w,
  match m w with
  | (Ret a, w') => f a w'
  | (Raise e, w') => (Raise e, w')
  end.

Definition raise {A} (e : exn) : M A := λ w, (Raise e, w).

(** [try: body  except Exception as e: handler e] *)
Definition try_except {A} (body : M A) (handler : exn → M A) : M A := λ w,
  match body w with
  | (Ret a, w') => (Ret a, w')
  | (Raise e, w') => handler e w'
  end.

Definition emit (ev : event) : M unit := λ w,
  (Ret (), World (fs w) (ext w) (out w ++ [ev])).

Definition print (m : message) : M unit := emit (Print m).

Definition get_fs : M Fs.state := λ w, (Ret (fs w), w).

Definition set_fs (s : Fs.state) : M unit := λ w,
  (Ret (), World s (ext w) (out w)).

(** *** The [os] calls *)

(** [os.remove] unlinks a file or a link and refuses a directory. *)
Definition os_remove (p : path) : M unit :=
  s ← get_fs;
  match s !! p with
  | None => raise (OSError "ENOENT")
  | Some Dir => raise (OSError "EISDIR")
  | Some _ => set_fs (delete p s)
  end.

(** [os.symlink(target, dst)]: [dst] must be free and sit in a directory. *)
Definition os_symlink (up : nat) (down : path) (dst : path) : M unit :=
  s ← get_fs;
  match s !! dst with
  | Some _ => raise (OSError "EEXIST")
  | None =>
      match s !! Fs.dirname dst with
      | Some Dir => set_fs (<[dst := Link up down]> s)
      | Some _ => raise (OSError "ENOTDIR")
      | None => raise (OSError "ENOENT")
      end
  end.

(** ** [atomic_link] *)

Definition atomic_link (src dst : path) : M bool :=
  s ← get_fs;
  if negb (Fs.exists_ s src)
  then print (LinkSourceMissing src);; mret false
  else
    (if Fs.lexists s dst then os_remove dst else mret ());;
    try_except
      (let '(up, down) := Fs.relpath src (Fs.dirname dst) in
       os_symlink up down dst;;
       s' ← get_fs;
       if Fs.islink s' dst
       then print (LinkCreated dst up down);; mret true
       else print (LinkNotSymlink dst);; mret false)
      (λ e, print (LinkException e);; mret false).

(** ** [run_with_retry] *)

(** The outcome of [subprocess.run(cmd, shell=True, check=True, cwd=cwd)]:
    [None] when the command exits with status 0, otherwise the exception
    ([CalledProcessError] for another status). *)
Context (shell : string → path → Fs.state → E → option exn * Fs.state * E).

Definition subprocess_run (cmd : string) (cwd : path) : M unit := λ w,
  let '(o, s', x') := shell cmd cwd (fs w) (ext w) in
  let w' := World s' x' (out w ++ [Run cmd cwd]) in
  match o with
  | None => (Ret (), w')
  | Some e => (Raise e, w')
  end.

(** The body of [for attempt in range(1, retries + 1)], with [todo]
    iterations left; falling out of the loop returns [None]. *)
Fixpoint retry_loop (cmd : string) (cwd : path) (retries delay : Z)
  (todo : nat) (attempt : Z) : M (option bool) :=
  match todo with
  | O => mret None
  | S todo' =>
      try_except
        (subprocess_run cmd cwd;; mret (Some true))
        (λ e,
          if is_CalledProcessError e
          then if (attempt <? retries)%Z
               then emit (LogRetry attempt retries cmd);;
                    emit (Sleep delay);;
                    retry_loop cmd cwd retries delay todo' (attempt + 1)
               else raise e
          else raise e)
  end.

Definition run_with_retry (cmd : string) (cwd : path) (retries delay : Z)
  : M (option bool) :=
  retry_loop cmd cwd retries delay (Z.to_nat retries) 1.

(** ** More [os] calls *)

(** [try: body  except FileExistsError: pass] *)
Definition ignore_EEXIST (body : M unit) : M unit :=
  try_except body
    (λ e, if bool_decide (e = OSError "EEXIST") then mret () else raise e).

(** [os.mkdir] *)
Definition os_mkdir (p : path) : M unit :=
  s ← get_fs;
  match s !! p with
  | Some _ => raise (OSError "EEXIST")
  | None =>
      match s !! Fs.dirname p with
      | Some Dir => set_fs (<[p := Dir]> s)
      | Some _ => raise (OSError "ENOTDIR")
      | None => raise (OSError "ENOENT")
      end
  end.

(** [os.makedirs(p)]: make the missing directories above [p], then [p]
    itself, which must not exist yet.  [depth] bounds the recursion by the
    number of components. *)
Fixpoint makedirs_depth (depth : nat) (p : path) : M unit :=
  match depth with
  | O => os_mkdir p
  | S depth' =>
      s ← get_fs;
      (if bool_decide (p ≠ []) && negb (Fs.exists_ s (Fs.dirname p))
       then ignore_EEXIST (makedirs_depth depth' (Fs.dirname p))
       else mret ());;
      os_mkdir p
  end.

Definition os_makedirs (p : path) : M unit := makedirs_depth (length p) p.

(** [os.listdir] *)
Definition os_listdir (d : path) : M (list string) :=
  s ← get_fs;
  if Fs.isdir s d then mret (Fs.listdir s d) else raise (OSError "ENOENT").

(** [open(p, 'r')] and reading the whole text *)
Definition read_text (p : path) : M string :=
  s ← get_fs;
  match Fs.stat s p with
  | Some (File content) => mret content
  | Some _ => raise (OSError "EISDIR")
  | None => raise (OSError "ENOENT")
  end.

(** [open(p, 'w')] and writing [content]: the file a link leads to is
    written, a missing file is created in its directory. *)
Definition write_text (p : path) (content : string) : M unit :=
  s ← get_fs;
  match Fs.resolve s p with
  | None => raise (OSError "ELOOP")
  | Some q =>
      match s !! q with
      | Some Dir => raise (OSError "EISDIR")
      | Some _ => set_fs (<[q := File content]> s)
      | None =>
          match s !! Fs.dirname q with
          | Some Dir => set_fs (<[q := File content]> s)
          | Some _ => raise (OSError "ENOTDIR")
          | None => raise (OSError "ENOENT")
          end
      end
  end.

(** [shutil.rmtree(p)]: a directory goes with everything below it; a link
    or a file is refused. *)
Definition shutil_rmtree (p : path) : M unit :=
  s ← get_fs;
  match s !! p with
  | Some Dir => set_fs (filter (λ kv, ¬ (p `prefix_of` kv.1)) s)
  | Some (Link _ _) => raise (OSError "rmtree on a symbolic link")
  | Some (File _) => raise (OSError "ENOTDIR")
  | None => raise (OSError "ENOENT")
  end.

(** ** [cleanup_pickles] *)

Definition cleanup_pickles (target_dir : path) : M unit :=
  try_except
    (s ← get_fs;
     if Fs.exists_ s (Fs.join target_dir "pickle")
     then shutil_rmtree (Fs.join target_dir "pickle")
     else mret ())
    (λ _, mret ()).

(** ** [load_pairs_from_file] *)

Fixpoint load_pairs_loop (lines : list string)
  (pairs_list : list (string * string)) : M (list (string * string)) :=
  match lines with
  | [] => mret pairs_list
  | raw :: rest =>
      match read_line raw with
      | Ignored => load_pairs_loop rest pairs_list
      | Parsed ref sec => load_pairs_loop rest (pairs_list ++ [(ref, sec)])
      | Malformed line =>
          print (WarnMalformedLine line);; load_pairs_loop rest pairs_list
      end
  end.

Definition load_pairs_from_file (file_path : path)
  : M (list (string * string)) :=
  s ← get_fs;
  if negb (Fs.exists_ s file_path) then mret []
  else
    text ← read_text file_path;
    load_pairs_loop (Str.lines text) [].

(** ** The module-level configuration *)

(** [float(x)]; [None] stands for its [ValueError]. *)
Context (py_float : string → option F).

(** The global names the functions read.  [ROI] is [None] when the module
    never binds the name.  [WORKERS] only sizes the pool and is left out. *)
Record config := Config {
  PROJECT_ROOT : path;
  API_KEY : option string;
  DEM_BASE_NAME : string;
  ROI : option (F * F * F * F)
}.

Definition RAW_DIR (cfg : config) : path := PROJECT_ROOT cfg ++ ["data"; "raw"].
Definition DEM_DIR (cfg : config) : path := PROJECT_ROOT cfg ++ ["data"; "dem"].
Definition ORBIT_DIR (cfg : config) : path :=
  PROJECT_ROOT cfg ++ ["data"; "orbit_data"].
Definition RUNS_DIR (cfg : config) : path := PROJECT_ROOT cfg ++ ["data"; "runs"].
Definition DEFAULT_PAIRS_FILE (cfg : config) : path :=
  PROJECT_ROOT cfg ++ ["data"; "pairs.txt"].

(** The statements that bind [ROI]: only a value of the environment
    variable that splits into four numbers binds the name.  The second
    component is what the statements print. *)
Definition parse_roi (roi_env : option string)
  : option (F * F * F * F) * list message :=
  match roi_env with
  | Some (String _ _ as roi_env) =>
      let cleaned :=
        Str.strip (Str.rstrip_by (Ascii.eqb "]")
                     (Str.lstrip_by (Ascii.eqb "[") (Str.strip roi_env))) in
      let cleaned := Str.replace_char " " "," (Str.replace_char ";" "," cleaned) in
      let parts := filter (λ p, p ≠ EmptyString) (Str.split_on "," cleaned) in
      match parts with
      | [a; b; c; d] =>
          match py_float a, py_float b, py_float c, py_float d with
          | Some a, Some b, Some c, Some d => (Some (a, b, c, d), [])
          | _, _, _, _ => (None, [RoiParseError])
          end
      | _ => (None, [RoiNotFourValues roi_env])
      end
  | _ => (None, [])
  end.

(** [os.environ.get] of the three variables, at import. *)
Definition load_config (project_root : path) (environ : gmap string string)
  : config :=
  {| PROJECT_ROOT := project_root;
     API_KEY := environ !! "OPENTOPO_API_KEY";
     DEM_BASE_NAME := default "dem_standard" (environ !! "DEM_BASENAME");
     ROI := (parse_roi (environ !! "ROI")).1 |}.

(** ** The download collaborators *)

(** [download_dem(south, north, west, east, DEM_DIR, api_key=API_KEY)]
    returns the path of the terrain raster or raises;
    [download_orbit(start_date, end_date, ORBIT_DIR)] fills the orbit
    directory as far as it can. *)
Context
  (download_dem :
     F * F * F * F → path → option string → Fs.state → E →
     result path * Fs.state * E)
  (download_orbit :
     string → string → path → Fs.state → E → result path * Fs.state * E).

Definition call_download_dem (roi : F * F * F * F) (out_dir : path)
  (api_key : option string) : M path := λ w,
  let '(r, s', x') := download_dem roi out_dir api_key (fs w) (ext w) in
  (r, World s' x' (out w ++ [CallDownloadDem out_dir])).

Definition call_download_orbit (start_date end_date : string)
  (out_dir : path) : M path := λ w,
  let '(r, s', x') := download_orbit start_date end_date out_dir (fs w) (ext w) in
  (r, World s' x' (out w ++ [CallDownloadOrbit start_date end_date out_dir])).

Fixpoint for_each {A} (l : list A) (body : A → M unit) : M unit :=
  match l with
  | [] => mret ()
  | x :: rest => body x;; for_each rest body
  end.

(** ** [prepare_shared_resources] *)

(** A tuple of four values used as a condition *)
Definition roi_truthy (roi : F * F * F * F) : bool := true.

Definition dem_metadata_error : exn :=
  PyException
    ("The DEM file is missing supporting metadata (.xml/.vrt). Please check "
     +:+ "that GDAL(gdal_translate) and the osgeo Python bindings are "
     +:+ "installed in the container, or view the download log for get_dem.py.").

(** The verification that follows the download, inside the same [try]. *)
Definition verify_dem_metadata (cfg : config) (target_dem : path) : M unit :=
  s ← get_fs;
  if negb (Fs.exists_ s (Fs.add_ext target_dem ".xml"))
     || negb (Fs.exists_ s (Fs.add_ext target_dem ".vrt"))
  then
    print DemMetadataMissing;;
    names ← os_listdir (DEM_DIR cfg);
    for_each (merge_sort Str.le names) (λ fn, print (DemDirEntry fn));;
    raise dem_metadata_error
  else mret ().

(** The orbit files the orchestrator counts: both spellings of the suffix. *)
Definition eof_files (cfg : config) (s : Fs.state) : list path :=
  Fs.glob_suffix s (ORBIT_DIR cfg) ".EOF" ++ Fs.glob_suffix s (ORBIT_DIR cfg) ".eof".

(** Part 2 of the function: the orbit files.  The warnings that
    [get_date_range_from_pairs] prints while it collects the dates come
    first. *)
Definition prepare_orbits (cfg : config) : M unit :=
  print CheckOrbits;;
  pairs ← load_pairs_from_file (DEFAULT_PAIRS_FILE cfg);
  for_each (unparsed_pairs pairs) (λ p, print (WarnUnparsedDate p.1 p.2));;
  match get_date_range_from_pairs pairs with
  | Some (String _ _ as start_date, end_date) =>
      print (DateRange start_date end_date);;
      call_download_orbit start_date end_date (ORBIT_DIR cfg);;
      mret ()
  | _ => print WarnNoDates
  end;;
  s ← get_fs;
  if (length (eof_files cfg s) <? 2)%nat
  then print WarnFewOrbits
  else print (OrbitsReady (length (eof_files cfg s))).

(** The [try] block of part 1 has one [except] clause; it is entered here
    either from the download, with [target_dem] still the expected name, or
    from the verification, after [target_dem] has been rebound to the
    downloaded path. *)
Definition prepare_shared_resources (cfg : config) (custom_name : string)
  : M path :=
  print CheckDem;;
  let target_dem := Fs.join (DEM_DIR cfg) (custom_name +:+ ".wgs84") in
  s ← get_fs;
  if Fs.exists_ s target_dem
     && Fs.exists_ s (Fs.add_ext target_dem ".xml")
     && Fs.exists_ s (Fs.add_ext target_dem ".vrt")
  then print (DemExists target_dem);; mret target_dem
  else
    print (DemDownloading custom_name);;
    target_dem ←
      match ROI cfg with
      | None => raise (NameError "ROI")
      | Some roi =>
          if roi_truthy roi && truthy (API_KEY cfg)
          then
            let failed := λ e, print (WarnDemDownloadFailed e) in
            got ← try_except
                    (print DemUsingRoi;;
                     downloaded ← call_download_dem roi (DEM_DIR cfg) (API_KEY cfg);
                     mret (Some downloaded))
                    (λ e, failed e;; mret None);
            match got with
            | None => mret target_dem
            | Some downloaded =>
                try_except
                  (print (DemReady downloaded);;
                   verify_dem_metadata cfg downloaded)
                  failed;;
                mret downloaded
            end
          else
            (if negb (roi_truthy roi) then print WarnNoRoi else mret ());;
            (if negb (truthy (API_KEY cfg)) then print WarnNoApiKey else mret ());;
            mret target_dem
      end;
    prepare_orbits cfg;;
    mret target_dem.

(** ** [generate_xml] *)

Definition xml_attr (tag name : string) : string :=
  "<" +:+ tag +:+ " name=" +:+ String Str.dquote name +:+ String Str.dquote ">".

Definition xml_property (name value : string) : string :=
  xml_attr "property" name +:+ value +:+ "</property>".

Definition topsApp_xml (dem_basename ref_name sec_name : string) : string :=
  let q := String Str.dquote EmptyString in
  String.concat (String "010" EmptyString)
    [ "<?xml version=" +:+ q +:+ "1.0" +:+ q +:+ " encoding=" +:+ q +:+ "UTF-8" +:+ q +:+ "?>";
      "<topsApp>";
      xml_attr "component" "topsinsar";
      xml_property "sensor name" "SENTINEL1";
      xml_property "swaths" "[1,2,3]";
      xml_property "do unwrap" "True";
      xml_property "unwrapper name" "snaphu_mcf";
      xml_property "demFilename" dem_basename;
      xml_attr "component" "reference";
      xml_property "output directory" "master";
      xml_property "safe" ref_name;
      "</component>";
      xml_attr "component" "secondary";
      xml_property "output directory" "slave";
      xml_property "safe" sec_name;
      "</component>";
      "</component>";
      "</topsApp>";
      "" ].

Definition generate_xml (run_dir : path) (ref_name sec_name : string)
  (dem_full_path : path) : M unit :=
  write_text (Fs.join run_dir "topsApp.xml")
    (topsApp_xml (Fs.basename dem_full_path) ref_name sec_name).

(** ** [worker_task] *)

(** The string a unit returns, as a value: the sandbox name and, for a
    failure, the exception whose text the string carries. *)
Inductive task_result :=
| Success (folder : string)
| Failure (folder : string) (e : exn).

#[global] Instance task_result_eq_dec : EqDecision task_result.
Proof. solve_decision. Defined.

Definition START_STEP : string := "startup".

Definition PHASE_1 : list string :=
  [ "startup"; "preprocess"; "computeBaselines"; "verifyDEM"; "topo";
    "subsetoverlaps"; "coarseoffsets"; "coarseresamp"; "overlapifg";
    "prepesd"; "esd"; "rangecoreg"; "fineoffsets" ].

Definition PHASE_2_START : string := "fineresamp".
Definition PHASE_2_END : string := "geocode".

Definition steps_cmd (start_step end_step : string) : string :=
  "topsApp.py topsApp.xml --steps --start=" +:+ start_step
  +:+ " --end=" +:+ end_step.

(** [PHASE_1[PHASE_1.index(START_STEP):]] when the step is in the list *)
Fixpoint steps_from (step : string) (steps : list string) : list string :=
  match steps with
  | [] => []
  | x :: rest => if String.eqb x step then steps else steps_from step rest
  end.

Definition folder_name_of (ref_name sec_name : string) : string :=
  match date_field ref_name, date_field sec_name with
  | Some ref_date, Some sec_date => "run_" +:+ ref_date +:+ "_" +:+ sec_date
  | _, _ => "run_" +:+ Str.take 10 ref_name +:+ "_" +:+ Str.take 10 sec_name
  end.

(** Step 1 of the worker: every [*.EOF] entry of the orbit directory *)
Definition link_orbits (cfg : config) (run_dir : path) : M unit :=
  s ← get_fs;
  for_each (Fs.glob_suffix s (ORBIT_DIR cfg) ".EOF")
    (λ eof, atomic_link eof (Fs.join run_dir (Fs.basename eof));; mret ()).

(** The terrain raster and its two sidecars.  [dem_path] is the text
    [prepare_shared_resources] returned, which is never empty, so the test
    [if dem_path] is passed. *)
Definition link_dem (run_dir dem_path : path) : M unit :=
  try_except
    (for_each [""; ".xml"; ".vrt"]
       (λ ext,
          let src := Fs.add_ext dem_path ext in
          s ← get_fs;
          if Fs.exists_ s src
          then atomic_link src (Fs.join run_dir (Fs.basename src));; mret ()
          else print (WarnDemFileMissing src)))
    (λ e, print (WarnDemLinkError e)).

(** Everything the worker does before it starts the clock *)
Definition stage_sandbox (cfg : config) (folder_name : string)
  (ref_name sec_name : string) (dem_path : path) : M unit :=
  let run_dir := Fs.join (RUNS_DIR cfg) folder_name in
  s ← get_fs;
  (if negb (Fs.exists_ s run_dir) then os_makedirs run_dir else mret ());;
  print (WorkerStart folder_name);;
  link_orbits cfg run_dir;;
  link_dem run_dir dem_path;;
  atomic_link (Fs.join (RAW_DIR cfg) ref_name) (Fs.join run_dir ref_name);;
  atomic_link (Fs.join (RAW_DIR cfg) sec_name) (Fs.join run_dir sec_name);;
  print (Linked folder_name);;
  generate_xml run_dir ref_name sec_name dem_path;;
  (if String.eqb START_STEP "startup" then cleanup_pickles run_dir else mret ()).

(** One turn of the loop over the steps of phase 1 *)
Definition phase1_step (folder_name : string) (run_dir : path) (step : string)
  : M unit :=
  print (StepStart folder_name step);;
  run_with_retry (steps_cmd step step) run_dir 2 3;;
  print (StepDone folder_name step).

(** Phase 2: one call for the whole range of steps, tried once *)
Definition phase2 (folder_name : string) (run_dir : path) : M unit :=
  print (Phase2Start folder_name);;
  run_with_retry (steps_cmd PHASE_2_START PHASE_2_END) run_dir 1 5;;
  print (Phase2Done folder_name).

(** The two phases, inside the worker's [try] *)
Definition run_phases (folder_name : string) (run_dir : path) : M task_result :=
  let current_steps := steps_from START_STEP PHASE_1 in
  for_each current_steps (phase1_step folder_name run_dir);;
  phase2 folder_name run_dir;;
  mret (Success folder_name).

Definition worker_task (cfg : config) (args : string * string * path)
  : M task_result :=
  let '(ref_name, sec_name, dem_path) := args in
  let folder_name := folder_name_of ref_name sec_name in
  let run_dir := Fs.join (RUNS_DIR cfg) folder_name in
  stage_sandbox cfg folder_name ref_name sec_name dem_path;;
  try_except
    (run_phases folder_name run_dir)
    (λ e, mret (Failure folder_name e)).

(** ** [main], up to the call of [pool.map] *)

(** How the main process goes on: [sys.exit(code)], or the call of
    [pool.map(worker_task, task_args)].  An exception that nothing catches
    is the [Raise] of the monad. *)
Inductive outcome :=
| Exit (code : Z)
| PoolMap (task_args : list (string * string * path)).

#[global] Instance outcome_eq_dec : EqDecision outcome.
Proof. solve_decision. Defined.

Fixpoint print_tasks (i : nat) (pairs : list (string * string)) : M unit :=
  match pairs with
  | [] => mret ()
  | (m, s) :: rest =>
      print (TaskLine (i + 1) (get_s1_date m) (get_s1_date s));;
      print_tasks (i + 1) rest
  end.

Definition main (cfg : config) : M outcome :=
  if negb (truthy (API_KEY cfg))
  then print ErrNoApiKey;; mret (Exit 1)
  else
    PAIRS ← load_pairs_from_file (DEFAULT_PAIRS_FILE cfg);
    print TaskList;;
    print_tasks 0 PAIRS;;
    prepared ← try_except
                 (print PreparingResources;;
                  dem_path ← prepare_shared_resources cfg (DEM_BASE_NAME cfg);
                  mret (Some dem_path))
                 (λ e, print (ErrResourcePrep e);; mret None);
    match prepared with
    | None => mret (Exit 1)
    | Some dem_path =>
        let task_args := (λ p : string * string, (p.1, p.2, dem_path)) <$> PAIRS in
        print StartingPool;;
        mret (PoolMap task_args)
    end.

End Orchestrator.
(** * The helper modules (modules/get_orbit.py, modules/get_dem.py)

    The two modules print their own messages and run their own commands.
    Their computations live in a world of the same shape as the
    orchestrator's, with the events of the module as its output.

    The directories the orchestrator hands to the modules are absolute and
    normalised paths, as the orchestrator builds them: for these
    [os.path.abspath] has nothing to do.  The names of scripts, which come
    from the environment and from the search path, are kept as the texts
    the source tests. *)

(** The text of a path: [/a/b] for [["a"; "b"]], [/] for the root *)
Definition path_text (p : path) : string :=
  match p with
  | [] => "/"
  | _ :: _ => String.concat "" ((λ c, "/" +:+ c) <$> p)
  end.

Section Helper.

Context {E Ev : Type}.

Record mworld := MWorld { mfs : Fs.state; mext : E; mout : list Ev }.

#[global] Instance mworld_eq_dec `{EqDecision E, EqDecision Ev} :
  EqDecision mworld.
Proof. solve_decision. Defined.

Definition MM (A : Type) : Type := mworld → result A * mworld.

#[global] Instance MM_ret : MRet MM := λ A a w, (Ret a, w).

#[global] Instance MM_bind : MBind MM := λ A B f m w,
  match m w with
  | (Ret a, w') => f a w'
  | (Raise e, w') => (Raise e, w')
  end.

Definition mraise {A} (e : exn) : MM A := λ w, (Raise e, w).

(** [try: body  except Exception as e: handler e] *)
Definition mtry {A} (body : MM A) (handler : exn → MM A) : MM A := λ w,
  match body w with
  | (Ret a, w') => (Ret a, w')
  | (Raise e, w') => handler e w'
  end.

(** [try: body  finally: final]: [final] runs however [body] ends, and an
    exception of [final] replaces the outcome of [body]. *)
Definition mfinally {A} (body : MM A) (final : MM unit) : MM A := λ w,
  let '(r, w1) := body w in
  match final w1 with
  | (Ret _, w2) => (r, w2)
  | (Raise e, w2) => (Raise e, w2)
  end.

Definition memit (ev : Ev) : MM unit := λ w,
  (Ret (), MWorld (mfs w) (mext w) (mout w ++ [ev])).

Definition mget_fs : MM Fs.state := λ w, (Ret (mfs w), w).

Definition mget_ext : MM E := λ w, (Ret (mext w), w).

(** A call of the [os] module, as the orchestrator has it *)
Definition os_call {A} (m : @M E A) : MM A := λ w,
  let '(r, w') := m (World (mfs w) (mext w) []) in
  (r, MWorld (fs w') (ext w') (mout w)).

(** A command given to the shell: [None] when it exits with status 0,
    [CalledProcessError] for another status, another exception when the
    command could not be started. *)
Context (run_shell : string → Fs.state → E → option exn * Fs.state * E).

Definition shell_outcome (ran : string → Ev) (cmd : string)
  : MM (option exn) := λ w,
  let '(o, s', x') := run_shell cmd (mfs w) (mext w) in
  (Ret o, MWorld s' x' (mout w ++ [ran cmd])).

(** [subprocess.run(cmd, shell=True, check=True)] and
    [subprocess.check_call(cmd, shell=True)] *)
Definition run_checked (ran : string → Ev) (cmd : string) : MM unit :=
  o ← shell_outcome ran cmd;
  match o with
  | None => mret ()
  | Some e => mraise e
  end.

(** [subprocess.run(cmd, shell=True)]: the exit status is not looked at. *)
Definition run_unchecked (ran : string → Ev) (cmd : string) : MM unit :=
  o ← shell_outcome ran cmd;
  match o with
  | Some e => if is_CalledProcessError e then mret () else mraise e
  | None => mret ()
  end.

End Helper.

Arguments mworld : clear implicits.
Arguments MM : clear implicits.

(** ** [get_orbit.py] *)

Module GetOrbit.

(** What the module prints, one constructor per occasion: the three lines
    printed when no script is found are [ScriptNotFound], the two lines
    printed after a failed command are [DownloadFailed]. *)
Inductive message :=
| SkipDownload (n : nat)
| Downloading (start_date end_date : string)
| EnvPathMissing (env_path : string)
| ScriptNotFound
| RunCommand (cmd : string)
| DownloadDone
| DownloadFailed (exc : exn).

#[global] Instance message_eq_dec : EqDecision message.
Proof. solve_decision. Defined.

Inductive event :=
| Print (m : message)
| Run (cmd : string).

#[global] Instance event_eq_dec : EqDecision event.
Proof. solve_decision. Defined.

Definition conda_common : list string :=
  [ "/opt/conda/envs/insar/share/isce2/topsStack/dloadOrbits.py";
    "/opt/conda/envs/isce/share/isce2/topsStack/dloadOrbits.py";
    "/usr/local/share/isce2/topsStack/dloadOrbits.py";
    "/usr/share/isce2/topsStack/dloadOrbits.py" ].

(** [names_to_try]: the candidate from the environment, if any, the two
    command names, the four places of an installation *)
Definition names_to_try (candidate : option string) : list string :=
  match candidate with
  | Some (String _ _ as name) => [name]
  | _ => []
  end
  ++ ["dloadOrbits.py"; "dloadOrbits"]
  ++ conda_common.

(** [name in ("dloadOrbits.py", "dloadOrbits")] *)
Definition is_command_name (name : string) : bool :=
  String.eqb name "dloadOrbits.py" || String.eqb name "dloadOrbits".

(** [os.path.isabs] *)
Definition isabs (text : string) : bool := String.prefix "/" text.

Section Functions.

Context {E : Type}.

(** [locate]: the path that the text of a path names from the current
    directory, [None] for a text that names none (the empty text).
    [which]: [shutil.which], the text of the path of a command on the
    search path, if any.  [sys_executable]: [sys.executable].
    [DLOADORBITS_PATH]: the variable of the environment. *)
Context (locate : string → option path).
Context (which : string → Fs.state → E → option string).
Context (run_shell : string → Fs.state → E → option exn * Fs.state * E).
Context (sys_executable : string).
Context (DLOADORBITS_PATH : option string).

Definition print (m : message) : MM E event unit := memit (Print m).

(** [os.path.exists] on the text of a path *)
Definition os_path_exists (s : Fs.state) (text : string) : bool :=
  match locate text with
  | Some p => Fs.exists_ s p
  | None => false
  end.

(** The loop over [names_to_try]: the first name that is found.  A command
    name is looked up on the search path, every other name is tested as a
    path. *)
Fixpoint find_executable (names : list string) (s : Fs.state) (x : E)
  : option string :=
  match names with
  | [] => None
  | name :: rest =>
      if is_command_name name
      then match which name s x with
           | Some (String _ _ as found) => Some found
           | _ => find_executable rest s x
           end
      else if os_path_exists s name then Some name
           else find_executable rest s x
  end.

(** The command line: an absolute path that ends in [.py] is given to the
    interpreter. *)
Definition command (executable : string) (start_date end_date : string)
  (output_dir : path) : string :=
  (if isabs executable && Str.ends_with ".py" executable
   then sys_executable +:+ " "
   else "")
  +:+ executable +:+ " --start " +:+ start_date
  +:+ " --end " +:+ end_date +:+ " --dir " +:+ path_text output_dir.

Definition download_orbit (start_date end_date : string) (output_dir : path)
  : MM E event path :=
  s ← mget_fs;
  (if negb (Fs.exists_ s output_dir)
   then os_call (os_makedirs output_dir)
   else mret ());;
  s ← mget_fs;
  let existing_files := Fs.glob_suffix s output_dir ".EOF" in
  if (2 <=? length existing_files)%nat
  then print (SkipDownload (length existing_files));; mret output_dir
  else
    print (Downloading start_date end_date);;
    candidate ←
      match DLOADORBITS_PATH with
      | Some (String _ _ as env_path) =>
          if os_path_exists s env_path then mret (Some env_path)
          else print (EnvPathMissing env_path);; mret None
      | _ => mret None
      end;
    x ← mget_ext;
    match find_executable (names_to_try candidate) s x with
    | None => print ScriptNotFound;; mret output_dir
    | Some executable =>
        let cmd := command executable start_date end_date output_dir in
        mtry
          (print (RunCommand cmd);;
           run_checked run_shell Run cmd;;
           print DownloadDone)
          (λ exc,
             if is_CalledProcessError exc
             then print (DownloadFailed exc)
             else mraise exc);;
        mret output_dir
    end.

End Functions.

End GetOrbit.

(** ** [get_dem.py] *)

Module GetDem.

Definition MAX_RETRIES : Z := 5.
Definition RETRY_DELAY : Z := 10.

(** What the module prints, one constructor per message; [ServerAnswer]
    stands for the line that shows the first 200 characters of a download
    that is too small. *)
Inductive message :=
| WritingXml (file_name : string)
| XmlWritten
| ResidueTooSmall
| DemExists (base_name : string)
| Attempt (attempt : Z)
| ServerAnswer
| AttemptFailed (attempt : Z) (e : exn)
| Waiting (wait : Z)
| Converting
| DemReady (dem_path : path).

#[global] Instance message_eq_dec : EqDecision message.
Proof. solve_decision. Defined.

(** [Get] is the request of [requests.get], [Sleep] is [time.sleep], [Run]
    a command given to the shell. *)
Inductive event :=
| Print (m : message)
| Get (demtype : string)
| Sleep (seconds : Z)
| Run (cmd : string).

#[global] Instance event_eq_dec : EqDecision event.
Proof. solve_decision. Defined.

(** What a request gives: an exception of [requests.get] or of
    [raise_for_status], before the file is opened; or the bytes that were
    written to the file, and the exception that broke the stream off, if
    any. *)
Inductive response :=
| NoBody (e : exn)
| Body (content : string) (broken : option exn).

(** The two exceptions of [download_dem] itself.  [ValueError] is an
    [Exception] with a message here: no handler of the program tells the
    two apart. *)
Definition no_api_key_error : exn :=
  PyException
    "❌ Error: DEM download required but OpenTopography API Key not provided!".

Definition download_failed_error : exn :=
  PyException
    ("❌ If you still cannot download the DEM after several attempts, "
     +:+ "please check the network or API Key validity.").

Section Functions.

(** [E]: the outside, as for the orchestrator.  [F]: Python floats.  [R]:
    what GDAL reports of a raster, the width, the length and the four
    coordinates that [generate_xml_metadata] computes from the geotransform. *)
Context {E F R : Type}.

(** The collaborators: the shell; the server behind [requests.get];
    [gdal.Open], [None] when the file cannot be opened; the text of
    [int(x)], or what [int] raises; the text of the XML for a file name and
    the values of a raster; [str(e)]; the size a directory reports. *)
Context (run_shell : string → Fs.state → E → option exn * Fs.state * E).
Context (http_get : string → F * F * F * F → string → E → response * E).
Context (gdal_open : path → Fs.state → E → option R).
Context (int_text : F → result string).
Context (isce_xml : string → R → string).
Context (str_exn : exn → string).
Context (dir_size : Z).

Definition print (m : message) : MM E event unit := memit (Print m).

(** [os.path.getsize], links followed *)
Definition getsize (s : Fs.state) (p : path) : option Z :=
  match Fs.stat s p with
  | Some (File content) => Some (Z.of_nat (String.length content))
  | Some _ => Some dir_size
  | None => None
  end.

Definition os_path_getsize (p : path) : MM E event Z :=
  s ← mget_fs;
  match getsize s p with
  | Some size => mret size
  | None => mraise (OSError "ENOENT")
  end.

(** [if os.path.exists(p): os.remove(p)] *)
Definition remove_if_exists (p : path) : MM E event unit :=
  s ← mget_fs;
  if Fs.exists_ s p then os_call (os_remove p) else mret ().

Definition write_isce_xml (dem_path : path) (raster : R) : MM E event unit :=
  let file_name := Fs.basename dem_path in
  let xml_path := Fs.add_ext dem_path ".xml" in
  print (WritingXml file_name);;
  os_call (write_text xml_path (isce_xml file_name raster));;
  print XmlWritten.

Definition generate_xml_metadata (dem_path : path) : MM E event unit :=
  s ← mget_fs;
  x ← mget_ext;
  match gdal_open dem_path s x with
  | None =>
      mraise (PyException ("Unable to open file for reading metadata: "
                           +:+ path_text dem_path))
  | Some raster => write_isce_xml dem_path raster
  end.

(** The two [with] blocks of an attempt: the request, then the file. *)
Definition fetch (demtype : string) (roi : F * F * F * F) (api_key : string)
  (tif_path : path) : MM E event unit :=
  resp ← (λ w, let '(resp, x') := http_get demtype roi api_key (mext w) in
               (Ret resp, MWorld (mfs w) x' (mout w ++ [Get demtype])));
  match resp with
  | NoBody e => mraise e
  | Body content broken =>
      os_call (write_text tif_path content);;
      match broken with
      | Some e => mraise e
      | None => mret ()
      end
  end.

(** The body of the [try] of one attempt *)
Definition attempt_download (demtype : string) (roi : F * F * F * F)
  (api_key : string) (tif_path : path) (attempt : Z) : MM E event unit :=
  print (Attempt attempt);;
  fetch demtype roi api_key tif_path;;
  size ← os_path_getsize tif_path;
  if (size <? 5000)%Z
  then print ServerAnswer;; mraise (PyException "Download file is invalid")
  else mret ().

(** [for attempt in range(1, MAX_RETRIES + 1)], with [todo] attempts left;
    the result is [success]. *)
Fixpoint download_loop (demtype : string) (roi : F * F * F * F)
  (api_key : string) (tif_path : path) (todo : nat) (attempt : Z)
  : MM E event bool :=
  match todo with
  | O => mret false
  | S todo' =>
      mtry
        (attempt_download demtype roi api_key tif_path attempt;; mret true)
        (λ e,
           print (AttemptFailed attempt e);;
           (if (attempt <? MAX_RETRIES)%Z
            then
              let wait := (attempt * RETRY_DELAY)%Z in
              print (Waiting wait);; memit (Sleep wait)
            else mret ());;
           download_loop demtype roi api_key tif_path todo' (attempt + 1))
  end.

(** Part 3, the conversion, with its [except] and [finally] clauses *)
Definition convert (tif_path dem_path vrt_path : path) : MM E event unit :=
  mfinally
    (mtry
       (run_checked run_shell Run
          ("gdal_translate -of ENVI -ot Float32 -a_nodata 0 "
           +:+ path_text tif_path +:+ " " +:+ path_text dem_path);;
        run_checked run_shell Run
          ("gdal_translate -of VRT " +:+ path_text dem_path +:+ " "
           +:+ path_text vrt_path);;
        generate_xml_metadata dem_path)
       (λ e,
          remove_if_exists dem_path;;
          mraise (PyException
                    ("❌ Format conversion or metadata generation failed: "
                     +:+ str_exn e))))
    (remove_if_exists tif_path;;
     remove_if_exists (Fs.add_ext dem_path ".hdr")).

Definition lift_result {A} (r : result A) : MM E event A := λ w, (r, w).

(** Part 2, the download, entered when no [temp_download.tif] is there *)
Definition download_tif (roi : F * F * F * F) (source : Z)
  (api_key : option string) (tif_path : path) : MM E event unit :=
  match api_key with
  | Some (String _ _ as key) =>
      let demtype := if (source =? 1)%Z then "SRTMGL1" else "SRTMGL3" in
      success ← download_loop demtype roi key tif_path
                  (Z.to_nat MAX_RETRIES) 1;
      if success : bool then mret () else mraise download_failed_error
  | _ => mraise no_api_key_error
  end.

Definition download_dem (roi : F * F * F * F) (output_dir : path)
  (source : Z) (api_key : option string) : MM E event path :=
  let '(south, north, west, east) := roi in
  s ← mget_fs;
  (if negb (Fs.exists_ s output_dir)
   then os_call (os_makedirs output_dir)
   else mret ());;
  n ← lift_result (int_text north);
  s_ ← lift_result (int_text south);
  w_ ← lift_result (int_text west);
  e_ ← lift_result (int_text east);
  let base_name :=
    "demLat_N" +:+ n +:+ "_S" +:+ s_ +:+ "_W" +:+ w_ +:+ "_E" +:+ e_ in
  let dem_path := Fs.join output_dir (base_name +:+ ".wgs84") in
  let tif_path := Fs.join output_dir "temp_download.tif" in
  let vrt_path := Fs.add_ext dem_path ".vrt" in
  s ← mget_fs;
  (if Fs.exists_ s tif_path
   then
     size ← os_path_getsize tif_path;
     if (size <? 1024 * 1024)%Z
     then print ResidueTooSmall;; os_call (os_remove tif_path)
     else mret ()
   else mret ());;
  s ← mget_fs;
  if Fs.exists_ s dem_path && Fs.exists_ s (Fs.add_ext dem_path ".xml")
  then
    print (DemExists base_name);;
    (if negb (Fs.exists_ s vrt_path)
     then run_unchecked run_shell Run
            ("gdal_translate -of VRT " +:+ path_text dem_path +:+ " "
             +:+ path_text vrt_path)
     else mret ());;
    mret dem_path
  else
    (if negb (Fs.exists_ s tif_path)
     then download_tif roi source api_key tif_path
     else mret ());;
    print Converting;;
    convert tif_path dem_path vrt_path;;
    print (DemReady dem_path);;
    mret dem_path.

End Functions.

End GetDem.
(** * Vocabulary of the statements *)

(** What running the command [k] times in a row gives: the outcomes in
    order, and the state the last run leaves. *)
Fixpoint outcomes {E : Type}
  (shell : string → path → Fs.state → E → option exn * Fs.state * E)
  (cmd : string) (cwd : path) (k : nat) (s : Fs.state) (x : E)
  : list (option exn) * Fs.state * E :=
  match k with
  | O => ([], s, x)
  | S k' =>
      let '(o, s1, x1) := shell cmd cwd s x in
      let '(os, s2, x2) := outcomes shell cmd cwd k' s1 x1 in
      (o :: os, s2, x2)
  end.

(** The command exited with a non-zero status. *)
Definition failed (o : option exn) : bool :=
  match o with
  | Some e => is_CalledProcessError e
  | None => false
  end.

Definition is_run_or_sleep (ev : event) : bool :=
  match ev with
  | Run _ _ | Sleep _ => true
  | _ => false
  end.

Definition is_run (ev : event) : bool :=
  match ev with
  | Run _ _ => true
  | _ => false
  end.

Definition count_runs (evs : list event) : nat := length (filter is_run evs).

(** [n] runs of the command with one sleep between two runs *)
Definition runs_with_sleeps (cmd : string) (cwd : path) (delay : Z) (n : nat)
  : list event :=
  match n with
  | O => []
  | S m => Run cmd cwd :: concat (replicate m [Sleep delay; Run cmd cwd])
  end.


(** Two states of the file system that differ at [dst] at most *)
Definition agree_off (dst : path) (s1 s2 : Fs.state) : Prop :=
  ∀ p, p ≠ dst → s1 !! p = s2 !! p.

(** * Concrete inputs *)

(** A project under [/srv] with one pair of scenes, two orbit files and no
    terrain model yet. *)
Definition ref_scene : string :=
  "S1A_IW_SLC__1SDV_20230203T034221_20230203T034248_047051_05A5D2_1A2B.SAFE".

Definition sec_scene : string :=
  "S1A_IW_SLC__1SDV_20230215T034221_20230215T034249_047226_05ABC1_3C4D.SAFE".

Definition project_fs : Fs.state :=
  list_to_map
    [ ([], Dir);
      (["srv"], Dir);
      (["srv"; "data"], Dir);
      (["srv"; "data"; "raw"], Dir);
      (["srv"; "data"; "raw"; ref_scene], Dir);
      (["srv"; "data"; "raw"; sec_scene], Dir);
      (["srv"; "data"; "dem"], Dir);
      (["srv"; "data"; "orbit_data"], Dir);
      (["srv"; "data"; "orbit_data"; "S1A_POEORB_20230202.EOF"], File "orbit");
      (["srv"; "data"; "orbit_data"; "S1A_POEORB_20230214.EOF"], File "orbit");
      (["srv"; "data"; "runs"], Dir);
      (["srv"; "data"; "pairs.txt"], File (ref_scene +:+ " " +:+ sec_scene)) ].

(** The same project with the terrain model and its two sidecars in place. *)
Definition project_fs_with_dem : Fs.state :=
  <[["srv"; "data"; "dem"; "dem_standard.wgs84"] := File "raster"]>
    (<[["srv"; "data"; "dem"; "dem_standard.wgs84.xml"] := File "xml"]>
       (<[["srv"; "data"; "dem"; "dem_standard.wgs84.vrt"] := File "vrt"]>
          project_fs)).

(** Credential and bounding box configured; bounding box left out. *)
Definition cfg_full : @config Z :=
  Config ["srv"] (Some "key") "dem_standard" (Some (0, 1, 0, 1)%Z).

Definition cfg_no_roi : @config Z :=
  Config ["srv"] (Some "key") "dem_standard" None.

(** A processor whose every step succeeds. *)
Definition always_ok (cmd : string) (cwd : path) (s : Fs.state) (x : unit)
  : option exn * Fs.state * unit :=
  (None, s, x).

(** A terrain download that writes the raster and neither sidecar. *)
Definition dem_without_metadata (roi : Z * Z * Z * Z) (out_dir : path)
  (api_key : option string) (s : Fs.state) (x : unit)
  : result path * Fs.state * unit :=
  let raster := out_dir ++ ["demLat_N1_S0_W0_E1.wgs84"] in
  (Ret raster, <[raster := File "raster"]> s, x).

(** An orbit download that finds nothing to fetch. *)
Definition orbit_noop (start_date end_date : string) (out_dir : path)
  (s : Fs.state) (x : unit) : result path * Fs.state * unit :=
  (Ret out_dir, s, x).

Definition cfg_run_dir : path :=
  ["srv"; "data"; "runs"; "run_20230203_20230215"].

Definition dem_standard_path : path :=
  ["srv"; "data"; "dem"; "dem_standard.wgs84"].

Definition step_cmd_verifyDEM : string :=
  "topsApp.py topsApp.xml --steps --start=verifyDEM --end=verifyDEM".

(** A processor that fails at the step [verifyDEM] every time. *)
Definition fails_at_verifyDEM (cmd : string) (cwd : path) (s : Fs.state)
  (x : unit) : option exn * Fs.state * unit :=
  if String.eqb cmd step_cmd_verifyDEM
  then (Some (CalledProcessError cmd), s, x)
  else (None, s, x).

(** [float] is not called when the environment has no [ROI]. *)
Definition no_float (x : string) : option Z := None.

(** The project with the terrain model in place and an empty orbit
    directory. *)
Definition project_fs_no_orbits : Fs.state :=
  delete ["srv"; "data"; "orbit_data"; "S1A_POEORB_20230202.EOF"]
    (delete ["srv"; "data"; "orbit_data"; "S1A_POEORB_20230214.EOF"]
       project_fs_with_dem).

(** The project with the terrain model and one orbit file of each spelling
    of the suffix. *)
Definition project_fs_mixed_case : Fs.state :=
  <[["srv"; "data"; "orbit_data"; "S1A_POEORB_20230214.eof"] := File "orbit"]>
    (delete ["srv"; "data"; "orbit_data"; "S1A_POEORB_20230214.EOF"]
       project_fs_with_dem).

(** The project with the terrain model and without the secondary scene. *)
Definition project_fs_no_secondary : Fs.state :=
  delete ["srv"; "data"; "raw"; sec_scene] project_fs_with_dem.

(** A project tree with one scene, one sandbox and no terrain model. *)
Definition small_fs : Fs.state :=
  list_to_map
    [ ([], Dir);
      (["data"], Dir);
      (["data"; "raw"], Dir);
      (["data"; "raw"; "scene.SAFE"], File "slc");
      (["data"; "runs"], Dir);
      (["data"; "runs"; "run_a_b"], Dir) ].

Definition small_world : @world unit := World small_fs () [].

(** A project at the root with two scenes named [a] and [b], whose sandbox
    is [run_a_b], and nothing else. *)
Definition tiny_fs : Fs.state :=
  list_to_map
    [ ([], Dir);
      (["data"], Dir);
      (["data"; "raw"], Dir);
      (["data"; "raw"; "a"], Dir);
      (["data"; "raw"; "b"], Dir);
      (["data"; "runs"], Dir) ].

Definition cfg_tiny : @config Z :=
  Config [] (Some "key") "dem" (Some (0, 1, 0, 1)%Z).

(** A command that fails as many times as the counter says, then succeeds. *)
Definition flaky_shell (cmd : string) (cwd : path) (s : Fs.state) (n : nat)
  : option exn * Fs.state * nat :=
  match n with
  | O => (None, s, O)
  | S k => (Some (CalledProcessError cmd), s, k)
  end.


(** * Vocabulary of the further properties *)



(** A text of digits only; a text without the character [c] *)
Definition all_digits (s : string) : bool :=
  forallb Str.is_digit (list_ascii_of_string s).

Definition free_of (c : ascii) (s : string) : bool :=
  forallb (λ a, negb (Ascii.eqb a c)) (list_ascii_of_string s).


(** The shape of a Sentinel-1 product name up to the sensing start: mission
    [S1] and a unit letter, [_IW_SLC__], a mode field, the date, [T], the
    time, and whatever follows. *)
Definition canonical_name (c : ascii) (m d time post : string) : string :=
  String "S" (String "1" (String c
    ("_IW_SLC__" +:+ m +:+ String "_" (d +:+ String "T" (time +:+ post))))).

(** The pairs and the malformed lines among the lines of a pair list, in
    the order of the lines *)
Definition parsed_pairs (lines : list string) : list (string * string) :=
  omap (λ raw, match read_line raw with
               | Parsed ref sec => Some (ref, sec)
               | _ => None
               end) lines.

Definition malformed_lines (lines : list string) : list string :=
  omap (λ raw, match read_line raw with
               | Malformed line => Some line
               | _ => None
               end) lines.

(** The lines of the task list that [main] prints, numbered from [i + 1] *)
Definition task_lines (i : nat) (pairs : list (string * string)) : list event :=
  imap (λ j p, Print (TaskLine (i + j + 1) (get_s1_date p.1) (get_s1_date p.2)))
       pairs.

(** What running the commands [cmds] one after the other gives: their
    outcomes in order, and the state the last one leaves. *)
Fixpoint run_all {E : Type}
  (shell : string → path → Fs.state → E → option exn * Fs.state * E)
  (cmds : list string) (cwd : path) (s : Fs.state) (x : E)
  : list (option exn) * Fs.state * E :=
  match cmds with
  | [] => ([], s, x)
  | cmd :: rest =>
      let '(o, s1, x1) := shell cmd cwd s x in
      let '(os, s2, x2) := run_all shell rest cwd s1 x1 in
      (o :: os, s2, x2)
  end.

Definition succeeded (o : option exn) : bool :=
  match o with
  | None => true
  | Some _ => false
  end.

(** The commands of one unit: a command for each step of phase 1, and the
    command of phase 2 *)
Definition unit_commands : list string :=
  ((λ step, steps_cmd step step) <$> PHASE_1)
  ++ [steps_cmd PHASE_2_START PHASE_2_END].

Definition is_orbit_call (ev : event) : bool :=
  match ev with
  | CallDownloadOrbit _ _ _ => true
  | _ => false
  end.


(** ** Vocabulary for [get_orbit.py] *)

(** The commands among the events of the module, in order *)
Definition orbit_runs (evs : list GetOrbit.event) : list string :=
  omap (λ ev, match ev with
              | GetOrbit.Run cmd => Some cmd
              | _ => None
              end) evs.


(** ** Vocabulary for [get_dem.py] *)

Definition is_request_or_sleep (ev : GetDem.event) : bool :=
  match ev with
  | GetDem.Get _ | GetDem.Sleep _ => true
  | _ => false
  end.

Definition is_request (ev : GetDem.event) : bool :=
  match ev with
  | GetDem.Get _ => true
  | _ => false
  end.

(** [k] failed requests, each followed by its pause: ten seconds times the
    number of the attempt *)
Fixpoint backoff (demtype : string) (k : nat) (attempt : Z)
  : list GetDem.event :=
  match k with
  | O => []
  | S k' =>
      GetDem.Get demtype :: GetDem.Sleep (attempt * 10)
      :: backoff demtype k' (attempt + 1)
  end.

(** What one attempt of the download gives on the file system [s] and the
    outside [x]: how the body of its [try] ends, and the state it leaves. *)
Definition attempt_result {E F : Type}
  (http_get : string → F * F * F * F → string → E → GetDem.response * E)
  (dir_size : Z) (demtype : string) (roi : F * F * F * F) (api_key : string)
  (tif_path : path) (s : Fs.state) (x : E) : result unit * Fs.state * E :=
  let '(r, w') :=
    GetDem.attempt_download http_get dir_size demtype roi api_key tif_path 1
      (MWorld s x []) in
  (r, mfs w', mext w').

(** What [k] attempts in a row give: how each ends, and the state the last
    one leaves. *)
Fixpoint attempt_results {E F : Type}
  (http_get : string → F * F * F * F → string → E → GetDem.response * E)
  (dir_size : Z) (demtype : string) (roi : F * F * F * F) (api_key : string)
  (tif_path : path) (k : nat) (s : Fs.state) (x : E)
  : list (result unit) * Fs.state * E :=
  match k with
  | O => ([], s, x)
  | S k' =>
      let '(r, s1, x1) :=
        attempt_result http_get dir_size demtype roi api_key tif_path s x in
      let '(rs, s2, x2) :=
        attempt_results http_get dir_size demtype roi api_key tif_path k' s1 x1 in
      (r :: rs, s2, x2)
  end.

Definition raised {A : Type} (r : result A) : bool :=
  match r with
  | Raise _ => true
  | Ret _ => false
  end.

(** Two worlds of [get_dem.py] between which no request was made *)
Definition same_requests {E : Type} (w w' : mworld E GetDem.event) : Prop :=
  filter is_request (mout w') = filter is_request (mout w).

(** * More concrete inputs *)


(** A command that cannot be started *)
Definition broken_shell (cmd : string) (cwd : path) (s : Fs.state) (x : unit)
  : option exn * Fs.state * unit :=
  (Some (OSError "ENOENT"), s, x).

(** A terrain download that cannot reach the server *)
Definition dem_unreachable (roi : Z * Z * Z * Z) (out_dir : path)
  (api_key : option string) (s : Fs.state) (x : unit)
  : result path * Fs.state * unit :=
  (Raise (PyException "timeout"), s, x).





Definition shell_ok (cmd : string) (s : Fs.state) (x : unit)
  : option exn * Fs.state * unit :=
  (None, s, x).

(** A directory with a terrain model for the box from 0 to 1 both ways,
    its XML and its VRT *)
Definition dem_fs : Fs.state :=
  list_to_map
    [ ([], Dir);
      (["dem"], Dir);
      (["dem"; "demLat_N1_S0_W0_E1.wgs84"], File "raster");
      (["dem"; "demLat_N1_S0_W0_E1.wgs84.xml"], File "xml");
      (["dem"; "demLat_N1_S0_W0_E1.wgs84.vrt"], File "vrt") ].

Definition dem_world : mworld unit GetDem.event := MWorld dem_fs () [].

(** Collaborators of [get_dem.py] for bounds that are 0 or 1: a server that
    is down, a raster library that opens nothing *)
Definition server_down (demtype : string) (roi : Z * Z * Z * Z)
  (api_key : string) (x : unit) : GetDem.response * unit :=
  (GetDem.NoBody (PyException "connection refused"), x).

(** A server that refuses as many requests as the counter says and then
    sends a raster of 5000 bytes; a directory for the download *)
Definition big_body : string :=
  string_of_list_ascii (replicate (50 * 100) "x"%char).

Definition server_flaky (demtype : string) (roi : Z * Z * Z * Z)
  (api_key : string) (n : nat) : GetDem.response * nat :=
  match n with
  | O => (GetDem.Body big_body None, O)
  | S m => (GetDem.NoBody (PyException "connection refused"), m)
  end.

Definition download_fs : Fs.state :=
  list_to_map [ ([], Dir); (["dem"], Dir) ].

Definition gdal_nothing (p : path) (s : Fs.state) (x : unit) : option unit :=
  None.

Definition int_text_01 (z : Z) : result string :=
  if (z =? 0)%Z then Ret "0"
  else if (z =? 1)%Z then Ret "1"
  else Raise (PyException "not a bound of the example").

Definition no_xml (file_name : string) (raster : unit) : string := "".

Definition exn_name (e : exn) : string :=
  match e with
  | CalledProcessError _ => "CalledProcessError"
  | OSError errno => errno
  | NameError name => name
  | PyException msg => msg
  end.

(** ** Vocabulary for what is never printed *)

(** From [w] to [w'] the output only grew, and by events that satisfy [P]. *)
Definition adds_only {E : Type} (P : event → Prop) (w w' : @world E) : Prop :=
  ∃ evs, out w' = out w ++ evs ∧ Forall P evs.

(** An event that is neither of the two warnings of the branch that skips
    the download of the terrain model *)
Definition no_skip_warning (ev : event) : Prop :=
  ev ≠ Print WarnNoRoi ∧ ev ≠ Print WarnNoApiKey.
(** * Properties *)

Section Properties.

Context {E F : Type}.
Context (shell : string → path → Fs.state → E → option exn * Fs.state * E).
Context
  (download_dem :
     F * F * F * F → path → option string → Fs.state → E →
     result path * Fs.state * E)
  (download_orbit :
     string → string → path → Fs.state → E → result path * Fs.state * E).

(** ** The lexical order *)

Lemma compare_as_OT a b : String.compare a b = String_as_OT.compare a b.
Proof. reflexivity. Qed.

Lemma str_le_lt_eq a b : Str.le a b ↔ String_as_OT.lt a b ∨ a = b.
Proof.
  unfold Str.le, String.leb, String_as_OT.lt. rewrite compare_as_OT.
  destruct (String_as_OT.compare_spec a b) as [Heq|Hlt|Hgt].
  - split; auto.
  - split; auto.
  - split; [discriminate|]. intros [Hlt| ->].
    + discriminate.
    + exfalso. exact (irreflexivity String_as_OT.lt _ Hgt).
Qed.

#[local] Instance str_le_refl : Reflexive Str.le.
Proof. intros a. apply str_le_lt_eq. right. reflexivity. Qed.

#[local] Instance str_le_trans : Transitive Str.le.
Proof.
  intros a b c Hab Hbc. apply str_le_lt_eq in Hab, Hbc. apply str_le_lt_eq.
  destruct Hab as [Hab| ->], Hbc as [Hbc| <-]; auto.
  left. exact (transitivity Hab Hbc).
Qed.

#[local] Instance str_le_total : Total Str.le.
Proof. intros a b. exact (String.leb_total a b). Qed.

(** ** The search for scene names never runs out of positions *)

Lemma drop_prefix_length p s r :
  Str.drop_prefix p s = Some r →
  String.length s = String.length p + String.length r.
Proof.
  revert s. induction p as [|a p IH]; intros [|b s] Hd; cbn in *;
    simplify_eq; try reflexivity.
  destruct (Ascii.eqb a b); [|discriminate].
  rewrite (IH s Hd). reflexivity.
Qed.

Lemma span_length f s :
  String.length s = String.length (Str.span f s).1 + String.length (Str.span f s).2.
Proof.
  induction s as [|c s IH]; [reflexivity|]. cbn [Str.span].
  destruct (f c); [|reflexivity].
  destruct (Str.span f s) as [run rest]. cbn in *. lia.
Qed.

Lemma match_safe_at_shorter s m rest :
  match_safe_at s = Some (m, rest) → String.length rest < String.length s.
Proof.
  unfold match_safe_at. intros Hm.
  destruct (Str.drop_prefix "S1" s) as [[|c r1]|] eqn:H1; try discriminate.
  destruct (Ascii.eqb c "A" || Ascii.eqb c "B"); [|discriminate].
  destruct (Str.drop_prefix "_IW_SLC__" r1) as [r2|] eqn:H2; [|discriminate].
  pose proof (span_length is_safe_char r2) as Hspan.
  destruct (Str.span is_safe_char r2) as [run r3]. cbn [fst snd] in Hspan.
  destruct run as [|c' run]; [discriminate|].
  destruct (Str.drop_prefix ".SAFE" r3) as [r4|] eqn:H4; [|discriminate].
  simplify_eq.
  apply drop_prefix_length in H1, H2, H4. cbn [String.length] in *. lia.
Qed.

Lemma findall_safe_fuel_enough n m s :
  String.length s < n → String.length s < m →
  findall_safe_fuel n s = findall_safe_fuel m s.
Proof.
  revert m s. induction n as [|n IH]; intros [|m] s Hn Hm; try lia.
  cbn [findall_safe_fuel].
  destruct (match_safe_at s) as [[found rest]|] eqn:Hmatch.
  - apply match_safe_at_shorter in Hmatch. f_equal. apply IH; lia.
  - destruct s as [|c s]; [reflexivity|]. cbn [String.length] in *.
    apply IH; lia.
Qed.

(** ** Sorted lists: the first and the last element *)

Lemma sorted_hd_least (l : list string) d x :
  StronglySorted Str.le l → x ∈ l → Str.le (List.hd d l) x.
Proof.
  intros Hs Hx. destruct Hs as [|y l Hs Hall]; [inversion Hx|].
  cbn. apply elem_of_cons in Hx as [->|Hx]; [reflexivity|].
  rewrite Forall_forall in Hall. apply Hall. exact Hx.
Qed.

Lemma sorted_last_greatest (l : list string) d x :
  StronglySorted Str.le l → x ∈ l → Str.le x (List.last l d).
Proof.
  intros Hs. revert x. induction Hs as [|y l Hs IH Hall]; intros x Hx.
  - inversion Hx.
  - destruct l as [|z l].
    + apply list_elem_of_singleton in Hx as ->. reflexivity.
    + change (List.last (y :: z :: l) d) with (List.last (z :: l) d).
      apply elem_of_cons in Hx as [->|Hx]; [|apply IH; exact Hx].
      transitivity z.
      * rewrite Forall_forall in Hall. apply Hall. left.
      * apply IH. left.
Qed.

Lemma hd_elem_of (l : list string) d : l ≠ [] → List.hd d l ∈ l.
Proof. destruct l; [done|]. intros _. left. Qed.

Lemma last_elem_of (l : list string) d : l ≠ [] → List.last l d ∈ l.
Proof.
  induction l as [|y l IH]; [done|]. intros _.
  destruct l as [|z l]; [left|].
  change (List.last (y :: z :: l) d) with (List.last (z :: l) d).
  right. apply IH. done.
Qed.

(** ** [get_date_range_from_pairs] *)

Lemma collect_dates_positional pairs dates :
  collect_dates pairs dates = dates ++ positional_dates pairs.
Proof.
  revert dates. induction pairs as [|[ref sec] pairs IH]; intros dates.
  - cbn. rewrite app_nil_r. reflexivity.
  - cbn [collect_dates positional_dates flat_map fst snd].
    destruct (date_field ref) as [d1|]; [destruct (date_field sec) as [d2|]|];
      rewrite IH; cbn [app]; rewrite <- ?app_assoc; reflexivity.
Qed.

(** C7, as the code has it: the range is taken over the dates of the
    positional rule (the first eight characters of the sixth field between
    underscores, for the pairs whose two identifiers both have six fields).
    The function returns [(None, None)] exactly when there is no such date,
    and otherwise the least and the greatest of them in the lexical order. *)
Theorem get_date_range_positional (pairs : list (string * string)) :
  match get_date_range_from_pairs pairs with
  | None => positional_dates pairs = []
  | Some (start_date, end_date) =>
      start_date ∈ positional_dates pairs
      ∧ end_date ∈ positional_dates pairs
      ∧ ∀ d, d ∈ positional_dates pairs →
             Str.le start_date d ∧ Str.le d end_date
  end.
Proof.
  unfold get_date_range_from_pairs.
  rewrite collect_dates_positional. cbn [app].
  destruct (positional_dates pairs) as [|d0 ds] eqn:HD; [reflexivity|].
  set (dates := d0 :: ds).
  pose proof (merge_sort_Permutation Str.le dates) as Hperm.
  pose proof (StronglySorted_merge_sort Str.le dates) as Hsorted.
  assert (Hne : merge_sort Str.le dates ≠ []).
  { intros Hnil. rewrite Hnil in Hperm.
    apply Permutation_nil_l in Hperm. discriminate. }
  assert (Hmem : ∀ x, x ∈ merge_sort Str.le dates ↔ x ∈ dates).
  { intros x. rewrite Hperm. reflexivity. }
  split; [|split].
  - apply Hmem, hd_elem_of. exact Hne.
  - apply Hmem, last_elem_of. exact Hne.
  - intros d Hd. apply Hmem in Hd. split.
    + apply sorted_hd_least; assumption.
    + apply sorted_last_greatest; assumption.
Qed.

(** ** The monad, unfolded *)

Ltac unfold_M :=
  unfold mbind, M_bind, mret, M_ret, try_except, raise, print, emit, get_fs,
    set_fs in *.

(** ** Paths *)



(** ** Following links in two states that differ at one path only *)

Lemma resolve_fuel_avoid (dst : path) (s s' : Fs.state) (fuel : nat) :
  agree_off dst (delete dst s) s' →
  ∀ p q n,
    Fs.resolve_fuel fuel (delete dst s) p = Some q →
    delete dst s !! q = Some n →
    Fs.resolve_fuel fuel s' p = Some q ∧ s' !! q = Some n.
Proof.
  intros Hagree. induction fuel as [|fuel IH]; intros p q n Hres Hq.
  - cbn [Fs.resolve_fuel] in *.
    destruct (decide (p = dst)) as [->|Hne].
    { rewrite lookup_delete_eq in Hres. simplify_eq.
      rewrite lookup_delete_eq in Hq. discriminate. }
    rewrite <- (Hagree p Hne).
    destruct (delete dst s !! p) as [[| |up down]|] eqn:Hp;
      simplify_eq; rewrite <- ?(Hagree q Hne); auto.
  - cbn [Fs.resolve_fuel] in *.
    destruct (decide (p = dst)) as [->|Hne].
    { rewrite lookup_delete_eq in Hres. simplify_eq.
      rewrite lookup_delete_eq in Hq. discriminate. }
    rewrite <- (Hagree p Hne).
    destruct (delete dst s !! p) as [[| |up down]|] eqn:Hp;
      simplify_eq; rewrite <- ?(Hagree q Hne); eauto.
Qed.

Lemma exists_avoid (dst : path) (s s' : Fs.state) (src : path) :
  agree_off dst (delete dst s) s' →
  Fs.exists_ (delete dst s) src = true →
  Fs.exists_ s' src = true.
Proof.
  intros Hagree Hex. unfold Fs.exists_, Fs.stat, Fs.resolve in *.
  apply bool_decide_eq_true in Hex. apply bool_decide_eq_true.
  destruct (Fs.resolve_fuel Fs.MAXSYMLINKS (delete dst s) src) as [q|] eqn:Hres;
    [|destruct Hex; discriminate].
  destruct Hex as [n Hq].
  destruct (resolve_fuel_avoid dst s s' _ Hagree src q n Hres Hq) as [-> Hq'].
  eauto.
Qed.

Lemma agree_off_delete (dst : path) (s : Fs.state) : agree_off dst (delete dst s) s.
Proof. intros p Hne. apply lookup_delete_ne. congruence. Qed.

(** ** [atomic_link] *)



(** C9: when the source does not exist, [atomic_link] returns [False]
    without raising and leaves the file system, the destination included,
    as it was. *)
Theorem atomic_link_missing_source (src dst : path) (w : @world E) :
  Fs.exists_ (fs w) src = false →
  atomic_link src dst w
  = (Ret false,
     World (fs w) (ext w) (out w ++ [Print (LinkSourceMissing src)])).
Proof.
  intros Hsrc. unfold atomic_link. unfold_M. cbn [fs]. rewrite Hsrc.
  reflexivity.
Qed.

(** ** [load_pairs_from_file] *)


(** ** [run_with_retry] *)

Lemma outcomes_S cmd cwd k s x :
  outcomes shell cmd cwd (S k) s x
  = let '(o, s1, x1) := shell cmd cwd s x in
    let '(os, s2, x2) := outcomes shell cmd cwd k s1 x1 in
    (o :: os, s2, x2).
Proof. reflexivity. Qed.

Lemma retry_loop_spec cmd cwd retries delay k :
  ∀ attempt w os s' x',
    retries = (attempt + Z.of_nat k)%Z →
    outcomes shell cmd cwd (S k) (fs w) (ext w) = (os, s', x') →
    forallb failed (take k os) = true →
    ∃ evs,
      filter is_run_or_sleep evs = runs_with_sleeps cmd cwd delay (S k) ∧
      match os !! k with
      | Some None =>
          retry_loop shell cmd cwd retries delay (S k) attempt w
          = (Ret (Some true), World s' x' (out w ++ evs))
      | Some (Some e) =>
          retry_loop shell cmd cwd retries delay (S k) attempt w
          = (Raise e, World s' x' (out w ++ evs))
      | None => False
      end.
Proof.
  induction k as [|k IH]; intros attempt w os s' x' Hr Hos Hfail.
  - rewrite outcomes_S in Hos.
    destruct (shell cmd cwd (fs w) (ext w)) as [[o s1] x1] eqn:Hsh.
    cbn [outcomes] in Hos. injection Hos as <- <- <-.
    exists [Run cmd cwd]. split; [reflexivity|].
    cbn [retry_loop lookup list_lookup]. unfold_M. unfold subprocess_run.
    rewrite Hsh. destruct o as [e|]; [|reflexivity].
    replace (attempt <? retries)%Z with false by (symmetry; apply Z.ltb_ge; lia).
    destruct (is_CalledProcessError e); reflexivity.
  - rewrite outcomes_S in Hos.
    destruct (shell cmd cwd (fs w) (ext w)) as [[o s1] x1] eqn:Hsh.
    destruct (outcomes shell cmd cwd (S k) s1 x1) as [[os1 s2] x2] eqn:Hrest.
    injection Hos as <- <- <-.
    cbn [take forallb] in Hfail. apply andb_prop in Hfail as [Ho Hfail].
    destruct o as [e|]; [|discriminate]. cbn [failed] in Ho.
    destruct (IH (attempt + 1)%Z
                (World s1 x1 (out w ++ [Run cmd cwd]
                                ++ [LogRetry attempt retries cmd] ++ [Sleep delay])%list)
                os1 s2 x2) as (evs & Hevs & Hrun); [lia|exact Hrest|exact Hfail|].
    exists ([Run cmd cwd; LogRetry attempt retries cmd; Sleep delay] ++ evs)%list.
    split.
    + cbn [app]. rewrite !filter_cons. cbn [is_run_or_sleep].
      rewrite !decide_True by done. rewrite decide_False by (cbn; congruence).
      rewrite Hevs. reflexivity.
    + change ((Some e :: os1) !! S k) with (os1 !! k).
      assert (Hstep :
        retry_loop shell cmd cwd retries delay (S (S k)) attempt w
        = retry_loop shell cmd cwd retries delay (S k) (attempt + 1)
            (World s1 x1 (out w ++ [Run cmd cwd]
                            ++ [LogRetry attempt retries cmd] ++ [Sleep delay])%list)).
      { cbn [retry_loop]. unfold_M. unfold subprocess_run. rewrite Hsh, Ho.
        replace (attempt <? retries)%Z with true by (symmetry; apply Z.ltb_lt; lia).
        cbn [fs ext out]. rewrite <- !app_assoc. reflexivity. }
      rewrite Hstep. cbn [out] in Hrun.
      rewrite <- !app_assoc in Hrun. cbn [app] in Hrun |- *.
      destruct (os1 !! k) as [[e'|]|]; exact Hrun.
Qed.

Lemma count_runs_filter evs :
  count_runs (filter is_run_or_sleep evs) = count_runs evs.
Proof.
  unfold count_runs. induction evs as [|ev evs IH]; [reflexivity|].
  rewrite (filter_cons is_run_or_sleep), (filter_cons is_run ev).
  destruct ev; cbn [is_run is_run_or_sleep];
    repeat (rewrite decide_True by exact I);
    repeat (rewrite decide_False by (intros []));
    rewrite ?filter_cons; cbn [is_run];
    repeat (rewrite decide_True by exact I);
    repeat (rewrite decide_False by (intros []));
    cbn [length]; rewrite IH; reflexivity.
Qed.

Lemma count_runs_with_sleeps cmd cwd delay n :
  count_runs (runs_with_sleeps cmd cwd delay n) = n.
Proof.
  destruct n as [|m]; [reflexivity|].
  unfold count_runs. cbn [runs_with_sleeps].
  rewrite filter_cons_True by exact I. cbn [length]. f_equal.
  induction m as [|m IH]; [reflexivity|].
  cbn [replicate concat app].
  rewrite filter_cons_False by (intros []).
  rewrite filter_cons_True by exact I. cbn [length]. f_equal. exact IH.
Qed.

(** C6: with [retries >= 1], when the first [retries - 1] runs of the command
    exit with a failure, [run_with_retry] runs the command exactly [retries]
    times with one sleep of [delay] between two consecutive runs; it returns
    [True] when the last run succeeds and raises the exception of the last
    run when that one fails too. *)
Theorem run_with_retry_attempts cmd cwd retries delay w os s' x' :
  (1 ≤ retries)%Z →
  outcomes shell cmd cwd (Z.to_nat retries) (fs w) (ext w) = (os, s', x') →
  forallb failed (take (Z.to_nat retries - 1) os) = true →
  ∃ evs,
    filter is_run_or_sleep evs
    = runs_with_sleeps cmd cwd delay (Z.to_nat retries)
    ∧ count_runs evs = Z.to_nat retries
    ∧ (os !! (Z.to_nat retries - 1) = Some None →
       run_with_retry shell cmd cwd retries delay w
       = (Ret (Some true), World s' x' (out w ++ evs)))
    ∧ (∀ e, os !! (Z.to_nat retries - 1) = Some (Some e) →
       run_with_retry shell cmd cwd retries delay w
       = (Raise e, World s' x' (out w ++ evs))).
Proof.
  intros Hn Hos Hfail. unfold run_with_retry.
  destruct (Z.to_nat retries) as [|k] eqn:Hk; [lia|].
  replace (S k - 1) with k in * by lia.
  destruct (retry_loop_spec cmd cwd retries delay k 1%Z w os s' x')
    as (evs & Hevs & Hrun); [lia|exact Hos|exact Hfail|].
  exists evs. split; [exact Hevs|]. split.
  { rewrite <- count_runs_filter, Hevs. apply count_runs_with_sleeps. }
  split.
  - intros Hlast. rewrite Hlast in Hrun. exact Hrun.
  - intros e Hlast. rewrite Hlast in Hrun. exact Hrun.
Qed.

(** ** [prepare_shared_resources] *)

(** With the terrain model and its sidecars in place the function returns
    at once: part 2, the orbit files, is not reached. *)
Lemma prepare_returns_at_existing_dem (cfg : @config F) custom_name w :
  let target_dem := Fs.join (DEM_DIR cfg) (custom_name +:+ ".wgs84") in
  Fs.exists_ (fs w) target_dem
  && Fs.exists_ (fs w) (Fs.add_ext target_dem ".xml")
  && Fs.exists_ (fs w) (Fs.add_ext target_dem ".vrt") = true →
  prepare_shared_resources download_dem download_orbit cfg custom_name w
  = (Ret target_dem,
     World (fs w) (ext w)
       (out w ++ [Print CheckDem; Print (DemExists target_dem)])).
Proof.
  intros target_dem Hdem. unfold prepare_shared_resources. unfold_M.
  cbn [fs ext out]. fold target_dem. rewrite Hdem. cbn [fs ext out].
  rewrite <- app_assoc. reflexivity.
Qed.

(** Without a bound [ROI] the test of the download branch raises. *)
Lemma prepare_raises_without_roi (cfg : @config F) custom_name w :
  let target_dem := Fs.join (DEM_DIR cfg) (custom_name +:+ ".wgs84") in
  ROI cfg = None →
  Fs.exists_ (fs w) target_dem
  && Fs.exists_ (fs w) (Fs.add_ext target_dem ".xml")
  && Fs.exists_ (fs w) (Fs.add_ext target_dem ".vrt") = false →
  prepare_shared_resources download_dem download_orbit cfg custom_name w
  = (Raise (NameError "ROI"),
     World (fs w) (ext w)
       (out w ++ [Print CheckDem; Print (DemDownloading custom_name)])).
Proof.
  intros target_dem Hroi Hdem. unfold prepare_shared_resources. unfold_M.
  cbn [fs ext out]. fold target_dem. rewrite Hdem, Hroi. cbn [fs ext out].
  rewrite <- app_assoc. reflexivity.
Qed.

Lemma for_each_print {A} (l : list A) (f : A → message) (w : @world E) :
  for_each l (λ x, print (f x)) w
  = (Ret (), World (fs w) (ext w) (out w ++ ((λ x, Print (f x)) <$> l))).
Proof.
  revert w. induction l as [|x l IH]; intros w.
  - cbn. rewrite app_nil_r. destruct w; reflexivity.
  - cbn [for_each fmap list_fmap]. unfold_M. rewrite IH. cbn [fs ext out].
    rewrite <- app_assoc. reflexivity.
Qed.

(** The exception raised for the missing sidecars does not leave the
    function: the [except] clause of the [try] it is raised in prints it,
    and the function goes on with part 2 and the downloaded path. *)
Lemma prepare_swallows_metadata_error (cfg : @config F) custom_name w roi
  downloaded s' x' :
  let target_dem := Fs.join (DEM_DIR cfg) (custom_name +:+ ".wgs84") in
  Fs.exists_ (fs w) target_dem
  && Fs.exists_ (fs w) (Fs.add_ext target_dem ".xml")
  && Fs.exists_ (fs w) (Fs.add_ext target_dem ".vrt") = false →
  ROI cfg = Some roi →
  truthy (API_KEY cfg) = true →
  download_dem roi (DEM_DIR cfg) (API_KEY cfg) (fs w) (ext w)
  = (Ret downloaded, s', x') →
  negb (Fs.exists_ s' (Fs.add_ext downloaded ".xml"))
  || negb (Fs.exists_ s' (Fs.add_ext downloaded ".vrt")) = true →
  Fs.isdir s' (DEM_DIR cfg) = true →
  prepare_shared_resources download_dem download_orbit cfg custom_name w
  = (prepare_orbits download_orbit cfg;; mret downloaded)
      (World s' x'
         (out w
          ++ [ Print CheckDem; Print (DemDownloading custom_name);
               Print DemUsingRoi; CallDownloadDem (DEM_DIR cfg);
               Print (DemReady downloaded); Print DemMetadataMissing ]
          ++ ((λ fn, Print (DemDirEntry fn))
                <$> merge_sort Str.le (Fs.listdir s' (DEM_DIR cfg)))
          ++ [ Print (WarnDemDownloadFailed dem_metadata_error) ])).
Proof.
  intros target_dem Hdem Hroi Hkey Hdl Hmeta Hdir.
  unfold prepare_shared_resources. fold target_dem.
  unfold mbind at 1. unfold M_bind at 1. unfold print at 1, emit at 1.
  unfold mbind at 1. unfold M_bind at 1. unfold get_fs at 1. cbn [fs ext out].
  rewrite Hdem.
  unfold mbind at 1. unfold M_bind at 1. unfold print at 1, emit at 1.
  cbn [fs ext out].
  unfold mbind at 1. unfold M_bind at 1.
  rewrite Hroi, Hkey. cbn [roi_truthy andb].
  unfold mbind at 1. unfold M_bind at 1.
  unfold try_except at 1.
  unfold mbind at 1. unfold M_bind at 1. unfold print at 1, emit at 1.
  cbn [fs ext out].
  unfold mbind at 1. unfold M_bind at 1. unfold call_download_dem at 1.
  cbn [fs ext out]. rewrite Hdl. cbn [mret M_ret].
  unfold mbind at 1. unfold M_bind at 1.
  unfold try_except at 1.
  unfold mbind at 1. unfold M_bind at 1. unfold print at 1, emit at 1.
  cbn [fs ext out].
  unfold verify_dem_metadata.
  unfold mbind at 1. unfold M_bind at 1. unfold get_fs at 1. cbn [fs ext out].
  rewrite Hmeta.
  unfold mbind at 1. unfold M_bind at 1. unfold print at 1, emit at 1.
  cbn [fs ext out].
  unfold mbind at 1. unfold M_bind at 1. unfold os_listdir at 1.
  unfold mbind at 1. unfold M_bind at 1. unfold get_fs at 1. cbn [fs ext out].
  rewrite Hdir. cbn [mret M_ret].
  unfold mbind at 1. unfold M_bind at 1.
  rewrite for_each_print. cbn [fs ext out].
  unfold raise at 1, print at 1, emit at 1. cbn [fs ext out].
  unfold mret at 1, M_ret at 1.
  rewrite <- !app_assoc. cbn [app]. reflexivity.
Qed.

(** ** [worker_task] *)

Lemma for_each_app {A} (l1 l2 : list A) (body : A → M unit) (w : @world E) :
  for_each (l1 ++ l2) body w = (for_each l1 body;; for_each l2 body) w.
Proof.
  revert w. induction l1 as [|x l1 IH]; intros w; [reflexivity|].
  cbn [app for_each]. unfold mbind, M_bind in *.
  destruct (body x w) as [[[]|e] w']; [apply IH|reflexivity].
Qed.

Lemma for_each_raises_at {A} (done rest : list A) (x : A) (body : A → M unit)
  (w wa wb : @world E) (e : exn) :
  for_each done body w = (Ret (), wa) →
  body x wa = (Raise e, wb) →
  for_each (done ++ x :: rest) body w = (Raise e, wb).
Proof.
  intros Hdone Hx. rewrite for_each_app. unfold mbind, M_bind.
  rewrite Hdone. cbn [for_each]. unfold mbind, M_bind. rewrite Hx.
  reflexivity.
Qed.

(** A step of phase 1 whose command fails on both attempts *)
Lemma phase1_step_exhausted folder run_dir step wa e1 e2 s' x' :
  outcomes shell (steps_cmd step step) run_dir 2 (fs wa) (ext wa)
  = ([Some e1; Some e2], s', x') →
  is_CalledProcessError e1 = true →
  phase1_step shell folder run_dir step wa
  = (Raise e2,
     World s' x'
       (out wa ++ [ Print (StepStart folder step);
                    Run (steps_cmd step step) run_dir;
                    LogRetry 1 2 (steps_cmd step step);
                    Sleep 3;
                    Run (steps_cmd step step) run_dir ])).
Proof.
  intros Hout He1. rewrite outcomes_S in Hout.
  destruct (shell _ run_dir (fs wa) (ext wa)) as [[o1 s1] x1] eqn:H1.
  rewrite outcomes_S in Hout.
  destruct (shell _ run_dir s1 x1) as [[o2 s2] x2] eqn:H2.
  cbn [outcomes] in Hout. simplify_eq.
  unfold phase1_step, run_with_retry.
  change (Z.to_nat 2) with 2. cbn [retry_loop].
  unfold_M. unfold subprocess_run. cbn [fs ext out].
  rewrite H1, He1. cbn [fs ext out Z.ltb Z.compare Pos.compare Pos.compare_cont].
  rewrite H2. cbn [fs ext out].
  change (1 + 1 <? 2)%Z with false. cbn beta iota.
  rewrite <- !app_assoc. cbn [app].
  destruct (is_CalledProcessError e2); reflexivity.
Qed.

(** Phase 2 makes one attempt *)
Lemma phase2_fails folder run_dir wa e s' x' :
  shell (steps_cmd PHASE_2_START PHASE_2_END) run_dir (fs wa) (ext wa)
  = (Some e, s', x') →
  phase2 shell folder run_dir wa
  = (Raise e,
     World s' x'
       (out wa ++ [ Print (Phase2Start folder);
                    Run (steps_cmd PHASE_2_START PHASE_2_END) run_dir ])).
Proof.
  intros Hsh. unfold phase2, run_with_retry.
  change (Z.to_nat 1) with 1. cbn [retry_loop].
  unfold_M. unfold subprocess_run. cbn [fs ext out].
  rewrite Hsh. cbn [fs ext out]. change (1 <? 1)%Z with false.
  rewrite <- !app_assoc. cbn [app].
  destruct (is_CalledProcessError e); reflexivity.
Qed.

Lemma worker_task_staged (cfg : @config F) ref_name sec_name dem_path w w1 :
  stage_sandbox cfg (folder_name_of ref_name sec_name) ref_name sec_name
    dem_path w = (Ret (), w1) →
  worker_task shell cfg (ref_name, sec_name, dem_path) w
  = match run_phases shell (folder_name_of ref_name sec_name)
            (Fs.join (RUNS_DIR cfg) (folder_name_of ref_name sec_name)) w1 with
    | (Ret r, w2) => (Ret r, w2)
    | (Raise e, w2) => (Ret (Failure (folder_name_of ref_name sec_name) e), w2)
    end.
Proof.
  intros Hstage. unfold worker_task. unfold mbind at 1. unfold M_bind at 1.
  rewrite Hstage. reflexivity.
Qed.

(** Once the sandbox of a unit is staged without an exception, the unit
    returns a result and raises nothing.  Every exception of the two phases
    is caught and becomes a [Failure] that carries it; in particular a step
    of phase 1 whose command fails on both attempts, and the single attempt
    of phase 2, give the [Failure] of the last exception, and nothing is run
    afterwards. *)
Lemma worker_task_unit_boundary (cfg : @config F) ref_name sec_name dem_path w w1 :
  let folder := folder_name_of ref_name sec_name in
  let run_dir := Fs.join (RUNS_DIR cfg) folder in
  stage_sandbox cfg folder ref_name sec_name dem_path w = (Ret (), w1) →
  worker_task shell cfg (ref_name, sec_name, dem_path) w
  = match run_phases shell folder run_dir w1 with
    | (Ret r, w2) => (Ret r, w2)
    | (Raise e, w2) => (Ret (Failure folder e), w2)
    end
  ∧ (∀ done step rest wa e1 e2 s' x',
       PHASE_1 = done ++ step :: rest →
       for_each done (phase1_step shell folder run_dir) w1 = (Ret (), wa) →
       outcomes shell (steps_cmd step step) run_dir 2 (fs wa) (ext wa)
       = ([Some e1; Some e2], s', x') →
       is_CalledProcessError e1 = true →
       worker_task shell cfg (ref_name, sec_name, dem_path) w
       = (Ret (Failure folder e2),
          World s' x'
            (out wa ++ [ Print (StepStart folder step);
                         Run (steps_cmd step step) run_dir;
                         LogRetry 1 2 (steps_cmd step step);
                         Sleep 3;
                         Run (steps_cmd step step) run_dir ])))
  ∧ (∀ wa e s' x',
       for_each PHASE_1 (phase1_step shell folder run_dir) w1 = (Ret (), wa) →
       shell (steps_cmd PHASE_2_START PHASE_2_END) run_dir (fs wa) (ext wa)
       = (Some e, s', x') →
       worker_task shell cfg (ref_name, sec_name, dem_path) w
       = (Ret (Failure folder e),
          World s' x'
            (out wa ++ [ Print (Phase2Start folder);
                         Run (steps_cmd PHASE_2_START PHASE_2_END) run_dir ]))).
Proof.
  intros folder run_dir Hstage.
  pose proof (worker_task_staged _ _ _ _ _ _ Hstage) as Hworker.
  fold folder in Hworker. fold run_dir in Hworker.
  split; [exact Hworker|]. split.
  - intros done step rest wa e1 e2 s' x' Hsteps Hdone Hout He1.
    rewrite Hworker. unfold run_phases.
    change (steps_from START_STEP PHASE_1) with PHASE_1. rewrite Hsteps.
    unfold mbind at 1. unfold M_bind at 1.
    rewrite (for_each_raises_at done rest step _ w1 wa _ e2 Hdone
               (phase1_step_exhausted folder run_dir step wa e1 e2 s' x' Hout He1)).
    reflexivity.
  - intros wa e s' x' Hdone Hsh.
    rewrite Hworker. unfold run_phases.
    change (steps_from START_STEP PHASE_1) with PHASE_1.
    unfold mbind at 1. unfold M_bind at 1. rewrite Hdone.
    unfold mbind at 1. unfold M_bind at 1.
    rewrite (phase2_fails folder run_dir wa e s' x' Hsh).
    reflexivity.
Qed.

End Properties.

(** * Further properties *)

Section MoreProperties.

Context {E F : Type}.
Context (shell : string → path → Fs.state → E → option exn * Fs.state * E).
Context
  (download_dem :
     F * F * F * F → path → option string → Fs.state → E →
     result path * Fs.state * E)
  (download_orbit :
     string → string → path → Fs.state → E → result path * Fs.state * E).

#[local] Existing Instance str_le_refl.
#[local] Existing Instance str_le_trans.
#[local] Existing Instance str_le_total.

Ltac run_M :=
  unfold mbind, M_bind, mret, M_ret, try_except, raise, print, emit, get_fs,
    set_fs in *.

(** ** [atomic_link], case by case *)

(** What [atomic_link] returns and leaves, by the state it starts in. *)
Lemma atomic_link_outcome (src dst : path) (w : @world E) :
  atomic_link src dst w
  = let target := Fs.relpath src (Fs.dirname dst) in
    if negb (Fs.exists_ (fs w) src)
    then (Ret false,
          World (fs w) (ext w) (out w ++ [Print (LinkSourceMissing src)]))
    else
      match fs w !! dst with
      | Some Dir => (Raise (OSError "EISDIR"), w)
      | _ =>
          match delete dst (fs w) !! Fs.dirname dst with
          | Some Dir =>
              (Ret true,
               World (<[dst := Link target.1 target.2]> (fs w)) (ext w)
                 (out w ++ [Print (LinkCreated dst target.1 target.2)]))
          | Some _ =>
              (Ret false,
               World (delete dst (fs w)) (ext w)
                 (out w ++ [Print (LinkException (OSError "ENOTDIR"))]))
          | None =>
              (Ret false,
               World (delete dst (fs w)) (ext w)
                 (out w ++ [Print (LinkException (OSError "ENOENT"))]))
          end
      end.
Proof.
  destruct w as [s x o]. cbn zeta. cbn [fs ext out].
  unfold atomic_link. run_M. cbn [fs ext out].
  destruct (Fs.exists_ s src); cbn [negb]; [|reflexivity].
  destruct (Fs.relpath src (Fs.dirname dst)) as [up down] eqn:Hrel.
  cbn [fst snd].
  unfold Fs.lexists, os_remove, os_symlink, Fs.islink. run_M. cbn beta iota.
  cbn [fs ext out].
  destruct (s !! dst) as [[c| |up' down']|] eqn:Hd.
  - rewrite bool_decide_eq_true_2 by eauto. cbn [fs ext out].
    rewrite Hd. cbn [fs ext out]. rewrite lookup_delete_eq.
    destruct (delete dst s !! Fs.dirname dst) as [[| |]|]; cbn [fs ext out];
      rewrite ?lookup_insert_eq, ?insert_delete_eq; reflexivity.
  - rewrite bool_decide_eq_true_2 by eauto. cbn [fs ext out].
    rewrite Hd. reflexivity.
  - rewrite bool_decide_eq_true_2 by eauto. cbn [fs ext out].
    rewrite Hd. cbn [fs ext out]. rewrite lookup_delete_eq.
    destruct (delete dst s !! Fs.dirname dst) as [[| |]|]; cbn [fs ext out];
      rewrite ?lookup_insert_eq, ?insert_delete_eq; reflexivity.
  - rewrite bool_decide_eq_false_2 by (intros [? ?]; discriminate).
    cbn [fs ext out]. rewrite Hd.
    rewrite (delete_id s dst Hd).
    destruct (s !! Fs.dirname dst) as [[| |]|]; cbn [fs ext out];
      rewrite ?lookup_insert_eq; reflexivity.
Qed.





(** X3: [atomic_link] raises in one case only: the source exists and the
    destination is a directory.  The exception is the one of [os.remove],
    and the world is left as it was. *)
Theorem atomic_link_raises_iff (src dst : path) (w : @world E) :
  ((∃ e, (atomic_link src dst w).1 = Raise e)
   ↔ Fs.exists_ (fs w) src = true ∧ fs w !! dst = Some Dir)
  ∧ (∀ e, (atomic_link src dst w).1 = Raise e →
          atomic_link src dst w = (Raise (OSError "EISDIR"), w)).
Proof.
  rewrite atomic_link_outcome. cbn zeta.
  destruct (Fs.exists_ (fs w) src); cbn [negb fst].
  2: { split; [|intros ? ?; discriminate].
       split; [intros [? ?]; discriminate | intros [? _]; discriminate]. }
  destruct (fs w !! dst) as [[| |]|] eqn:Hd.
  2: { cbn [fst]. split; [|intros e _; reflexivity].
       split; [intros _; split; reflexivity | intros _; eauto]. }
  all: destruct (delete dst (fs w) !! Fs.dirname dst) as [[| |]|]; cbn [fst];
    (split; [|intros ? ?; discriminate]);
    (split; [intros [? ?]; discriminate | intros [_ ?]; discriminate]).
Qed.

(** ** [run_with_retry], whatever the command does *)

Lemma runs_with_sleeps_S cmd cwd delay n :
  Run cmd cwd :: Sleep delay :: runs_with_sleeps cmd cwd delay (S n)
  = runs_with_sleeps cmd cwd delay (S (S n)).
Proof. reflexivity. Qed.

Lemma filter_run_sleep_retry cmd cwd attempt retries delay evs :
  filter is_run_or_sleep
    ([Run cmd cwd; LogRetry attempt retries cmd; Sleep delay] ++ evs)
  = Run cmd cwd :: Sleep delay :: filter is_run_or_sleep evs.
Proof.
  cbn [app]. rewrite filter_cons_True by exact I.
  rewrite filter_cons_False by (intros []).
  rewrite filter_cons_True by exact I. reflexivity.
Qed.

Lemma count_runs_retry cmd cwd attempt retries delay evs :
  count_runs ([Run cmd cwd; LogRetry attempt retries cmd; Sleep delay] ++ evs)
  = S (count_runs evs).
Proof.
  unfold count_runs. cbn [app]. rewrite filter_cons_True by exact I.
  rewrite !filter_cons_False by (intros []). reflexivity.
Qed.

(** The loop after [k] failed attempts: it stops at the first run that
    succeeds, at the first exception that is no [CalledProcessError], and at
    the last attempt. *)
Lemma retry_loop_upto cmd cwd retries delay k :
  ∀ attempt todo (w : @world E) os s' x',
    k < todo →
    (attempt + Z.of_nat k ≤ retries)%Z →
    outcomes shell cmd cwd (S k) (fs w) (ext w) = (os, s', x') →
    forallb failed (take k os) = true →
    ∃ evs,
      filter is_run_or_sleep evs = runs_with_sleeps cmd cwd delay (S k) ∧
      match os !! k with
      | Some None =>
          retry_loop shell cmd cwd retries delay todo attempt w
          = (Ret (Some true), World s' x' (out w ++ evs))
      | Some (Some e) =>
          is_CalledProcessError e = false
          ∨ (attempt + Z.of_nat k = retries)%Z →
          retry_loop shell cmd cwd retries delay todo attempt w
          = (Raise e, World s' x' (out w ++ evs))
      | None => False
      end.
Proof.
  induction k as [|k IH]; intros attempt [|todo] w os s' x' Hk Hr Hos Hfail;
    try lia.
  - rewrite outcomes_S in Hos.
    destruct (shell cmd cwd (fs w) (ext w)) as [[o s1] x1] eqn:Hsh.
    cbn [outcomes] in Hos. injection Hos as <- <- <-.
    exists [Run cmd cwd]. split; [reflexivity|].
    cbn [retry_loop lookup list_lookup]. run_M. unfold subprocess_run.
    rewrite Hsh. destruct o as [e|]; [|reflexivity].
    intros [He|He].
    + rewrite He. reflexivity.
    + replace (attempt <? retries)%Z with false
        by (symmetry; apply Z.ltb_ge; lia).
      destruct (is_CalledProcessError e); reflexivity.
  - rewrite outcomes_S in Hos.
    destruct (shell cmd cwd (fs w) (ext w)) as [[o s1] x1] eqn:Hsh.
    destruct (outcomes shell cmd cwd (S k) s1 x1) as [[os1 s2] x2] eqn:Hrest.
    injection Hos as <- <- <-.
    cbn [take forallb] in Hfail. apply andb_prop in Hfail as [Ho Hfail].
    destruct o as [e|]; [|discriminate]. cbn [failed] in Ho.
    destruct (IH (attempt + 1)%Z todo
                (World s1 x1 (out w ++ [Run cmd cwd]
                                ++ [LogRetry attempt retries cmd] ++ [Sleep delay]))
                os1 s2 x2) as (evs & Hevs & Hrun);
      [lia|lia|exact Hrest|exact Hfail|].
    exists ([Run cmd cwd; LogRetry attempt retries cmd; Sleep delay] ++ evs).
    split.
    + rewrite filter_run_sleep_retry, Hevs. reflexivity.
    + change ((Some e :: os1) !! S k) with (os1 !! k).
      assert (Hstep :
        retry_loop shell cmd cwd retries delay (S todo) attempt w
        = retry_loop shell cmd cwd retries delay todo (attempt + 1)
            (World s1 x1 (out w ++ [Run cmd cwd]
                            ++ [LogRetry attempt retries cmd] ++ [Sleep delay]))).
      { cbn [retry_loop]. run_M. unfold subprocess_run. rewrite Hsh, Ho.
        replace (attempt <? retries)%Z with true
          by (symmetry; apply Z.ltb_lt; lia).
        cbn [fs ext out]. rewrite <- !app_assoc. reflexivity. }
      rewrite Hstep. cbn [out] in Hrun.
      rewrite <- !app_assoc in Hrun. cbn [app] in Hrun |- *.
      destruct (os1 !! k) as [[e'|]|]; [|exact Hrun|exact Hrun].
      intros Hlast. apply Hrun. destruct Hlast; [left; assumption|right; lia].
Qed.

(** X4: [run_with_retry] stops at the first success: after [k] failed runs,
    with [k] below [retries], a run that succeeds ends the loop with [True];
    the command has been run [k + 1] times with one sleep between two
    runs. *)
Theorem run_with_retry_first_success cmd cwd retries delay k
  (w : @world E) os s' x' :
  (Z.of_nat k < retries)%Z →
  outcomes shell cmd cwd (S k) (fs w) (ext w) = (os, s', x') →
  forallb failed (take k os) = true →
  os !! k = Some None →
  ∃ evs,
    run_with_retry shell cmd cwd retries delay w
    = (Ret (Some true), World s' x' (out w ++ evs))
    ∧ filter is_run_or_sleep evs = runs_with_sleeps cmd cwd delay (S k)
    ∧ count_runs evs = S k.
Proof.
  intros Hk Hos Hfail Hlast. unfold run_with_retry.
  destruct (retry_loop_upto cmd cwd retries delay k 1%Z (Z.to_nat retries)
              w os s' x') as (evs & Hevs & Hrun);
    [lia|lia|exact Hos|exact Hfail|].
  rewrite Hlast in Hrun. exists evs. split_and!; [exact Hrun|exact Hevs|].
  rewrite <- count_runs_filter, Hevs. apply count_runs_with_sleeps.
Qed.

(** X5: An exception of the command that is no [CalledProcessError] is not
    retried: it leaves [run_with_retry] at once, whatever attempts are
    left and without a sleep after it. *)
Theorem run_with_retry_other_exception cmd cwd retries delay k
  (w : @world E) os s' x' e :
  (Z.of_nat k < retries)%Z →
  outcomes shell cmd cwd (S k) (fs w) (ext w) = (os, s', x') →
  forallb failed (take k os) = true →
  os !! k = Some (Some e) →
  is_CalledProcessError e = false →
  ∃ evs,
    run_with_retry shell cmd cwd retries delay w
    = (Raise e, World s' x' (out w ++ evs))
    ∧ filter is_run_or_sleep evs = runs_with_sleeps cmd cwd delay (S k)
    ∧ count_runs evs = S k.
Proof.
  intros Hk Hos Hfail Hlast He. unfold run_with_retry.
  destruct (retry_loop_upto cmd cwd retries delay k 1%Z (Z.to_nat retries)
              w os s' x') as (evs & Hevs & Hrun);
    [lia|lia|exact Hos|exact Hfail|].
  rewrite Hlast in Hrun. exists evs.
  split_and!; [apply Hrun; left; exact He|exact Hevs|].
  rewrite <- count_runs_filter, Hevs. apply count_runs_with_sleeps.
Qed.

Lemma retry_loop_S cmd cwd retries delay todo attempt (w : @world E) :
  retry_loop shell cmd cwd retries delay (S todo) attempt w
  = let '(o, s1, x1) := shell cmd cwd (fs w) (ext w) in
    match o with
    | None => (Ret (Some true), World s1 x1 (out w ++ [Run cmd cwd]))
    | Some e =>
        if is_CalledProcessError e && (attempt <? retries)%Z
        then retry_loop shell cmd cwd retries delay todo (attempt + 1)
               (World s1 x1
                  (out w ++ [Run cmd cwd; LogRetry attempt retries cmd;
                             Sleep delay]))
        else (Raise e, World s1 x1 (out w ++ [Run cmd cwd]))
    end.
Proof.
  cbn [retry_loop]. run_M. unfold subprocess_run.
  destruct (shell cmd cwd (fs w) (ext w)) as [[[e|] s1] x1]; [|reflexivity].
  destruct (is_CalledProcessError e); [|reflexivity].
  destruct (attempt <? retries)%Z; [|reflexivity].
  cbn [andb fs ext out]. rewrite <- !app_assoc. reflexivity.
Qed.

Lemma count_runs_single cmd cwd : count_runs [Run cmd cwd] = 1.
Proof. reflexivity. Qed.

(** The loop for any command: at least one run and at most [todo], sleeps
    only between two runs, and never a fall out of the loop. *)
Lemma retry_loop_bounded cmd cwd retries delay todo :
  ∀ attempt (w : @world E),
    retries = (attempt + Z.of_nat todo)%Z →
    ∃ evs,
      out (retry_loop shell cmd cwd retries delay (S todo) attempt w).2
      = out w ++ evs
      ∧ (1 ≤ count_runs evs ≤ S todo)%nat
      ∧ filter is_run_or_sleep evs
        = runs_with_sleeps cmd cwd delay (count_runs evs)
      ∧ (retry_loop shell cmd cwd retries delay (S todo) attempt w).1
        ≠ Ret None.
Proof.
  induction todo as [|todo IH]; intros attempt w Hr.
  - rewrite retry_loop_S.
    destruct (shell cmd cwd (fs w) (ext w)) as [[o s1] x1] eqn:Hsh.
    exists [Run cmd cwd].
    replace (attempt <? retries)%Z with false
      by (symmetry; apply Z.ltb_ge; lia).
    destruct o as [e|]; rewrite ?andb_false_r; cbn [fst snd out];
      rewrite count_runs_single;
      (split_and!; [reflexivity|lia|lia|reflexivity|discriminate]).
  - rewrite retry_loop_S.
    destruct (shell cmd cwd (fs w) (ext w)) as [[o s1] x1] eqn:Hsh.
    destruct o as [e|].
    2: { exists [Run cmd cwd]. cbn [fst snd out]. rewrite count_runs_single.
         split_and!; [reflexivity|lia|lia|reflexivity|discriminate]. }
    destruct (is_CalledProcessError e); cbn [andb].
    2: { exists [Run cmd cwd]. cbn [fst snd out]. rewrite count_runs_single.
         split_and!; [reflexivity|lia|lia|reflexivity|discriminate]. }
    replace (attempt <? retries)%Z with true
      by (symmetry; apply Z.ltb_lt; lia).
    match goal with
    | |- context [retry_loop shell cmd cwd retries delay (S todo) ?a ?w0] =>
        destruct (IH a w0) as (evs & Hout & Hcount & Hevs & Hnone); [lia|]
    end.
    exists ([Run cmd cwd; LogRetry attempt retries cmd; Sleep delay] ++ evs).
    cbn [out] in Hout.
    rewrite count_runs_retry. split_and!.
    + rewrite Hout. rewrite <- !app_assoc. reflexivity.
    + lia.
    + lia.
    + rewrite filter_run_sleep_retry, Hevs.
      destruct (count_runs evs) as [|n]; [lia|]. apply runs_with_sleeps_S.
    + exact Hnone.
Qed.

(** X6: Whatever the command does, [run_with_retry] runs it at most [retries]
    times and sleeps only between two runs; with [retries] below 1 it runs
    nothing and returns [None], otherwise it runs the command at least once
    and does not fall out of the loop. *)
Theorem run_with_retry_bounded cmd cwd retries delay (w : @world E) :
  ∃ evs,
    out (run_with_retry shell cmd cwd retries delay w).2 = out w ++ evs
    ∧ (count_runs evs ≤ Z.to_nat retries)%nat
    ∧ filter is_run_or_sleep evs
      = runs_with_sleeps cmd cwd delay (count_runs evs)
    ∧ ((retries ≤ 0)%Z →
       run_with_retry shell cmd cwd retries delay w = (Ret None, w))
    ∧ ((1 ≤ retries)%Z →
       (1 ≤ count_runs evs)%nat
       ∧ (run_with_retry shell cmd cwd retries delay w).1 ≠ Ret None).
Proof.
  unfold run_with_retry.
  destruct (Z.to_nat retries) as [|todo] eqn:Htodo.
  - exists []. cbn [retry_loop]. run_M. cbn [snd out].
    change (count_runs []) with 0.
    split_and!; [rewrite app_nil_r; reflexivity|lia|reflexivity
                |reflexivity|lia].
  - destruct (retry_loop_bounded cmd cwd retries delay todo 1%Z w)
      as (evs & Hout & Hcount & Hevs & Hnone); [lia|].
    exists evs. split_and!; [exact Hout|lia|exact Hevs|lia|].
    intros _. split; [lia|exact Hnone].
Qed.

(** ** Dates in scene names *)

Lemma digits_spec n : ∀ s d rest,
  Str.digits n s = Some (d, rest) →
  String.length d = n ∧ all_digits d = true ∧ s = d +:+ rest.
Proof.
  induction n as [|n IH]; intros s d rest Hd; cbn [Str.digits] in Hd.
  - injection Hd as <- <-. split_and!; reflexivity.
  - destruct s as [|c s]; [discriminate|].
    destruct (Str.is_digit c) eqn:Hc; [|discriminate].
    destruct (Str.digits n s) as [[d' rest']|] eqn:Hn; [|discriminate].
    injection Hd as <- <-. destruct (IH _ _ _ Hn) as (Hlen & Hall & ->).
    split_and!.
    + cbn [String.length]. rewrite Hlen. reflexivity.
    + unfold all_digits in *. cbn [list_ascii_of_string forallb].
      apply andb_true_intro. split; assumption.
    + reflexivity.
Qed.

Lemma digits_app d rest :
  all_digits d = true →
  Str.digits (String.length d) (d +:+ rest) = Some (d, rest).
Proof.
  unfold all_digits. induction d as [|c d IH]; intros Hall; [reflexivity|].
  cbn [list_ascii_of_string forallb] in Hall.
  apply andb_prop in Hall as [Hc Hall].
  change (Str.digits (String.length (String c d)) (String c d +:+ rest))
    with (if Str.is_digit c
          then match Str.digits (String.length d) (d +:+ rest) with
               | Some (d0, r) => Some (String c d0, r)
               | None => None
               end
          else None).
  rewrite Hc, (IH Hall). reflexivity.
Qed.

Lemma search_date_spec s d :
  search_date s = Some d →
  String.length d = 8 ∧ all_digits d = true
  ∧ ∃ pre time post,
      s = pre +:+ d +:+ String "T" (time +:+ post)
      ∧ String.length time = 6 ∧ all_digits time = true.
Proof.
  induction s as [|c s IH]; cbn [search_date]; unfold match_date_at.
  - cbn. discriminate.
  - destruct (Str.digits 8 (String c s)) as [[d' rest]|] eqn:Hd.
    + destruct rest as [|t rest].
      { intros Hs. destruct (IH Hs) as (? & ? & pre & time & post & -> & ? & ?).
        split_and!; try assumption. exists (String c pre), time, post. eauto. }
      destruct (Ascii.eqb_spec t "T") as [->|Hne].
      * destruct (Str.digits 6 rest) as [[time post]|] eqn:Ht.
        -- intros [= <-].
           destruct (digits_spec _ _ _ _ Hd) as (Hlen & Hall & Heq).
           destruct (digits_spec _ _ _ _ Ht) as (Hlen' & Hall' & ->).
           split_and!; try assumption.
           exists EmptyString, time, post. rewrite Heq. eauto.
        -- intros Hs.
           destruct (IH Hs) as (? & ? & pre & time & post & -> & ? & ?).
           split_and!; try assumption. exists (String c pre), time, post. eauto.
      * assert (Hskip :
          match t with
          | "T"%char =>
              match Str.digits 6 rest with
              | Some _ => Some d'
              | None => None
              end
          | _ => None
          end = None).
        { destruct t as [[] [] [] [] [] [] [] []]; try reflexivity.
          contradiction. }
        rewrite Hskip. intros Hs.
        destruct (IH Hs) as (? & ? & pre & time & post & -> & ? & ?).
        split_and!; try assumption. exists (String c pre), time, post. eauto.
    + intros Hs. destruct (IH Hs) as (? & ? & pre & time & post & -> & ? & ?).
      split_and!; try assumption. exists (String c pre), time, post. eauto.
Qed.

Lemma match_date_at_here d time post :
  String.length d = 8 → all_digits d = true →
  String.length time = 6 → all_digits time = true →
  match_date_at (d +:+ String "T" (time +:+ post)) = Some d.
Proof.
  intros Hlen Hall Hlen' Hall'. unfold match_date_at.
  rewrite <- Hlen, (digits_app d _ Hall).
  rewrite <- Hlen', (digits_app time _ Hall'). reflexivity.
Qed.

Lemma search_date_cons c s :
  search_date (String c s)
  = match match_date_at (String c s) with
    | Some d => Some d
    | None => search_date s
    end.
Proof. reflexivity. Qed.

Lemma search_date_here s d :
  match_date_at s = Some d → search_date s = Some d.
Proof.
  intros Hm. destruct s; unfold search_date; fold search_date; rewrite Hm;
    reflexivity.
Qed.

Lemma search_date_finds pre d time post :
  String.length d = 8 → all_digits d = true →
  String.length time = 6 → all_digits time = true →
  is_Some (search_date (pre +:+ d +:+ String "T" (time +:+ post))).
Proof.
  intros Hlen Hall Hlen' Hall'. induction pre as [|c pre IH].
  - cbn [String.append].
    rewrite (search_date_here _ d); [eauto|].
    apply match_date_at_here; assumption.
  - change (String c pre +:+ d +:+ String "T" (time +:+ post))
      with (String c (pre +:+ d +:+ String "T" (time +:+ post))).
    rewrite search_date_cons.
    match goal with
    | |- context [match_date_at ?s] => destruct (match_date_at s)
    end; [eauto|exact IH].
Qed.

(** X7: [get_s1_date] returns the placeholder or a date of eight digits that
    stands in the name before a [T] and six digits. *)
Theorem get_s1_date_sound (safe_name : string) :
  get_s1_date safe_name = "UnknownDate"
  ∨ (String.length (get_s1_date safe_name) = 8
     ∧ all_digits (get_s1_date safe_name) = true
     ∧ ∃ pre time post,
         safe_name
         = pre +:+ get_s1_date safe_name +:+ String "T" (time +:+ post)
         ∧ String.length time = 6 ∧ all_digits time = true).
Proof.
  unfold get_s1_date.
  destruct (search_date safe_name) as [d|] eqn:Hs; [right|left; reflexivity].
  exact (search_date_spec _ _ Hs).
Qed.

(** X8: A name that holds eight digits, a [T] and six digits anywhere never
    gets the placeholder: [get_s1_date] returns a date of eight digits. *)
Theorem get_s1_date_complete (pre d time post : string) :
  String.length d = 8 → all_digits d = true →
  String.length time = 6 → all_digits time = true →
  let name := pre +:+ d +:+ String "T" (time +:+ post) in
  get_s1_date name ≠ "UnknownDate"
  ∧ String.length (get_s1_date name) = 8
  ∧ all_digits (get_s1_date name) = true.
Proof.
  intros Hlen Hall Hlen' Hall' name. unfold get_s1_date.
  destruct (search_date_finds pre d time post Hlen Hall Hlen' Hall')
    as [found Hfound].
  fold name in Hfound. rewrite Hfound.
  destruct (search_date_spec _ _ Hfound) as (Hl & Ha & _).
  split_and!; [|exact Hl|exact Ha].
  intros ->. discriminate.
Qed.

(** ** The two date rules on canonical names *)

Lemma append_cons c a b : String c a +:+ b = String c (a +:+ b).
Proof. reflexivity. Qed.

Lemma split_by_cons_sep f c s :
  f c = true → Str.split_by f (String c s) = EmptyString :: Str.split_by f s.
Proof. intros Hc. cbn [Str.split_by]. rewrite Hc. reflexivity. Qed.

Lemma split_by_cons_other f c s :
  f c = false →
  Str.split_by f (String c s)
  = match Str.split_by f s with
    | h :: t => String c h :: t
    | [] => [String c EmptyString]
    end.
Proof. intros Hc. cbn [Str.split_by]. rewrite Hc. reflexivity. Qed.

Lemma split_by_field f a c b :
  forallb (λ x, negb (f x)) (list_ascii_of_string a) = true →
  f c = true →
  Str.split_by f (a +:+ String c b) = a :: Str.split_by f b.
Proof.
  intros Ha Hc. induction a as [|x a IH].
  - apply split_by_cons_sep. exact Hc.
  - cbn [list_ascii_of_string forallb] in Ha.
    apply andb_prop in Ha as [Hx Ha]. apply negb_true_iff in Hx.
    rewrite append_cons, (split_by_cons_other _ _ _ Hx), (IH Ha).
    reflexivity.
Qed.

Lemma split_by_first_field f a b :
  forallb (λ x, negb (f x)) (list_ascii_of_string a) = true →
  ∃ h t, Str.split_by f (a +:+ b) = (a +:+ h) :: t.
Proof.
  intros Ha. induction a as [|x a IH].
  - change (EmptyString +:+ b) with b.
    destruct b as [|c b]; [exists EmptyString, []; reflexivity|].
    destruct (f c) eqn:Hc.
    + rewrite (split_by_cons_sep _ _ _ Hc). eauto.
    + rewrite (split_by_cons_other _ _ _ Hc).
      destruct (Str.split_by f b) as [|h t]; eauto.
  - cbn [list_ascii_of_string forallb] in Ha.
    apply andb_prop in Ha as [Hx Ha]. apply negb_true_iff in Hx.
    destruct (IH Ha) as (h & t & Heq).
    rewrite append_cons, (split_by_cons_other _ _ _ Hx), Heq.
    exists h, t. reflexivity.
Qed.

Lemma take_app d h : Str.take (String.length d) (d +:+ h) = d.
Proof.
  unfold Str.take. induction d as [|c d IH].
  - destruct h; reflexivity.
  - rewrite append_cons. cbn [String.length substring]. rewrite IH.
    reflexivity.
Qed.

Lemma digit_is_no_underscore c :
  Str.is_digit c = true → negb (Ascii.eqb c "_") = true.
Proof.
  destruct c as [[] [] [] [] [] [] [] []]; intros H;
    first [reflexivity | discriminate H].
Qed.

Lemma digits_free_of_underscore d :
  all_digits d = true → free_of "_" d = true.
Proof.
  unfold all_digits, free_of. induction d as [|c d IH]; [reflexivity|].
  cbn [list_ascii_of_string forallb]. intros H.
  apply andb_prop in H as [Hc H]. apply andb_true_intro.
  split; [apply digit_is_no_underscore; exact Hc|apply IH; exact H].
Qed.

Lemma match_date_at_no_digits s :
  Str.digits 8 s = None → match_date_at s = None.
Proof. intros H. unfold match_date_at. rewrite H. reflexivity. Qed.

Lemma search_date_skip a s :
  Str.digits 8 (String a s) = None →
  search_date (String a s) = search_date s.
Proof.
  intros H. rewrite search_date_cons, (match_date_at_no_digits _ H).
  reflexivity.
Qed.

Lemma digits_not_digit n a s :
  Str.is_digit a = false → Str.digits (S n) (String a s) = None.
Proof. intros H. cbn [Str.digits]. rewrite H. reflexivity. Qed.

Lemma digits_short n : ∀ a s,
  String.length a < n → Str.digits n (a +:+ String "_" s) = None.
Proof.
  induction n as [|n IH]; intros a s Hlen; [lia|].
  destruct a as [|c a].
  - apply digits_not_digit. reflexivity.
  - rewrite append_cons. cbn [Str.digits String.length] in *.
    destruct (Str.is_digit c); [|reflexivity].
    rewrite IH by lia. reflexivity.
Qed.

Lemma search_date_skip_short m s :
  (String.length m ≤ 7)%nat →
  search_date (m +:+ String "_" s) = search_date s.
Proof.
  induction m as [|c m IH]; intros Hlen.
  - apply search_date_skip, digits_not_digit. reflexivity.
  - rewrite append_cons, search_date_skip.
    + apply IH. cbn [String.length] in Hlen. lia.
    + rewrite <- append_cons. apply digits_short. lia.
Qed.

Lemma canonical_date_field (c : ascii) (m d time post : string) :
  c ≠ "_"%char → free_of "_" m = true →
  String.length d = 8 → all_digits d = true →
  date_field (canonical_name c m d time post) = Some d.
Proof.
  intros Hc Hm Hd Hdall.
  unfold date_field, Str.split_on, canonical_name.
  set (sep := λ x : ascii, Ascii.eqb x "_").
  assert (Hcsep : sep c = false) by (apply Ascii.eqb_neq; exact Hc).
  destruct (split_by_first_field sep d (String "T" (time +:+ post)))
    as (h & t & Hlast).
  { apply digits_free_of_underscore. exact Hdall. }
  change (String "S" (String "1" (String c
            ("_IW_SLC__" +:+ m +:+ String "_"
               (d +:+ String "T" (time +:+ post))))))
    with (String "S" (String "1" (String c EmptyString))
          +:+ String "_"
                ("IW" +:+ String "_"
                   ("SLC" +:+ String "_"
                      (EmptyString +:+ String "_"
                         (m +:+ String "_"
                            (d +:+ String "T" (time +:+ post))))))).
  rewrite (split_by_field sep);
    [|cbn [list_ascii_of_string forallb]; rewrite Hcsep; reflexivity
     |reflexivity].
  rewrite (split_by_field sep) by reflexivity.
  rewrite (split_by_field sep) by reflexivity.
  rewrite (split_by_field sep) by reflexivity.
  rewrite (split_by_field sep) by (exact Hm || reflexivity).
  rewrite Hlast. cbn [lookup list_lookup fmap option_fmap option_map].
  rewrite <- Hd, take_app. reflexivity.
Qed.

Lemma canonical_get_s1_date (c : ascii) (m d time post : string) :
  (String.length m ≤ 7)%nat →
  String.length d = 8 → all_digits d = true →
  String.length time = 6 → all_digits time = true →
  get_s1_date (canonical_name c m d time post) = d.
Proof.
  intros Hmlen Hd Hdall Ht Htall. unfold get_s1_date, canonical_name.
  rewrite search_date_skip by (apply digits_not_digit; reflexivity).
  rewrite search_date_skip.
  2: { cbn [Str.digits]. change (Str.is_digit "1") with true. cbn iota.
       destruct (Str.is_digit c); reflexivity. }
  rewrite search_date_skip.
  2: { cbn [Str.digits]. destruct (Str.is_digit c); reflexivity. }
  change ("_IW_SLC__" +:+ m +:+ String "_" (d +:+ String "T" (time +:+ post)))
    with (String "_" (String "I" (String "W" (String "_" (String "S"
            (String "L" (String "C" (String "_" (String "_"
               (m +:+ String "_" (d +:+ String "T" (time +:+ post)))))))))))).
  do 9 (rewrite search_date_skip by (apply digits_not_digit; reflexivity)).
  rewrite (search_date_skip_short m _ Hmlen).
  rewrite (search_date_here _ d); [reflexivity|].
  apply match_date_at_here; assumption.
Qed.

(** X9: On a canonical scene name the positional rule used for the date range
    and for the name of the sandbox gives the same date as the pattern of
    [get_s1_date]: the eight digits before the [T]. *)
Theorem canonical_name_date (c : ascii) (m d time post : string) :
  c ≠ "_"%char →
  free_of "_" m = true → (String.length m ≤ 7)%nat →
  String.length d = 8 → all_digits d = true →
  String.length time = 6 → all_digits time = true →
  date_field (canonical_name c m d time post) = Some d
  ∧ get_s1_date (canonical_name c m d time post) = d.
Proof.
  intros. split.
  - apply canonical_date_field; assumption.
  - apply canonical_get_s1_date; assumption.
Qed.

(** X10: The sandbox of a pair of canonical names is named after the two
    dates, reference first. *)
Theorem folder_name_canonical
    (c1 c2 : ascii) (m1 m2 d1 d2 t1 t2 p1 p2 : string) :
  c1 ≠ "_"%char → c2 ≠ "_"%char →
  free_of "_" m1 = true → free_of "_" m2 = true →
  String.length d1 = 8 → String.length d2 = 8 →
  all_digits d1 = true → all_digits d2 = true →
  folder_name_of (canonical_name c1 m1 d1 t1 p1) (canonical_name c2 m2 d2 t2 p2)
  = "run_" +:+ d1 +:+ "_" +:+ d2.
Proof.
  intros. unfold folder_name_of.
  rewrite !canonical_date_field by assumption. reflexivity.
Qed.

(** ** The date range does not depend on the order of the pairs *)

#[local] Instance str_le_antisym : AntiSymm (=) Str.le.
Proof.
  intros a b Hab Hba. apply str_le_lt_eq in Hab, Hba.
  destruct Hab as [Hab|Hab]; [|exact Hab].
  destruct Hba as [Hba|Hba]; [|symmetry; exact Hba].
  exfalso. exact (irreflexivity String_as_OT.lt _ (transitivity Hab Hba)).
Qed.

Lemma positional_dates_Permutation pairs pairs' :
  pairs ≡ₚ pairs' → positional_dates pairs ≡ₚ positional_dates pairs'.
Proof.
  unfold positional_dates. induction 1 as [|p l l' _ IH|p q l|l l' l'' _ IH1 _ IH2].
  - reflexivity.
  - cbn [flat_map]. rewrite IH. reflexivity.
  - cbn [flat_map]. rewrite !app_assoc. f_equiv. apply Permutation_app_comm.
  - etransitivity; eassumption.
Qed.

Lemma merge_sort_of_Permutation (l l' : list string) :
  l ≡ₚ l' → merge_sort Str.le l = merge_sort Str.le l'.
Proof.
  intros Hperm. apply (Sorted_unique Str.le).
  - apply Sorted_merge_sort. apply _.
  - apply Sorted_merge_sort. apply _.
  - rewrite !merge_sort_Permutation. exact Hperm.
Qed.

Lemma hd_default (l : list string) d d' : l ≠ [] → List.hd d l = List.hd d' l.
Proof. destruct l; [done|reflexivity]. Qed.

Lemma last_default (l : list string) d d' :
  l ≠ [] → List.last l d = List.last l d'.
Proof.
  induction l as [|x l IH]; [done|]. intros _.
  destruct l as [|y l]; [reflexivity|].
  change (List.last (x :: y :: l) d) with (List.last (y :: l) d).
  change (List.last (x :: y :: l) d') with (List.last (y :: l) d').
  apply IH. discriminate.
Qed.

(** X11: The date range depends on the pairs as a collection only: listing the
    same pairs in another order gives the same range. *)
Theorem date_range_order_irrelevant (pairs pairs' : list (string * string)) :
  pairs ≡ₚ pairs' →
  get_date_range_from_pairs pairs = get_date_range_from_pairs pairs'.
Proof.
  intros Hperm. unfold get_date_range_from_pairs.
  rewrite !collect_dates_positional. cbn [app].
  pose proof (positional_dates_Permutation _ _ Hperm) as Hdates.
  destruct (positional_dates pairs) as [|d ds] eqn:H1;
    destruct (positional_dates pairs') as [|d' ds'] eqn:H2.
  - reflexivity.
  - apply Permutation_nil_l in Hdates. discriminate.
  - apply Permutation_nil_r in Hdates. discriminate.
  - cbv zeta. rewrite (merge_sort_of_Permutation _ _ Hdates).
    assert (Hne : merge_sort Str.le (d' :: ds') ≠ []).
    { intros Hnil. pose proof (merge_sort_Permutation Str.le (d' :: ds')) as Hp.
      rewrite Hnil in Hp. apply Permutation_nil_l in Hp. discriminate. }
    rewrite (hd_default _ d d' Hne), (last_default _ d d' Hne). reflexivity.
Qed.

(** ** [load_pairs_from_file] and [main] *)

Lemma load_pairs_loop_spec lines : ∀ acc (w : @world E),
  load_pairs_loop lines acc w
  = (Ret (acc ++ parsed_pairs lines),
     World (fs w) (ext w)
       (out w ++ ((λ l, Print (WarnMalformedLine l)) <$> malformed_lines lines))).
Proof.
  induction lines as [|raw lines IH]; intros acc w.
  - cbn. rewrite !app_nil_r. destruct w; reflexivity.
  - cbn [load_pairs_loop parsed_pairs malformed_lines omap list_omap].
    destruct (read_line raw) as [|ref sec|line].
    + apply IH.
    + rewrite IH. fold (parsed_pairs lines). rewrite <- app_assoc. reflexivity.
    + run_M. rewrite IH. cbn [fs ext out fmap list_fmap].
      fold (malformed_lines lines). rewrite <- app_assoc. reflexivity.
Qed.

(** X12: What [load_pairs_from_file] does, by what the path leads to: nothing
    gives the empty list, a directory raises, and a file gives the pairs of
    its well-formed lines in the order of the lines, prints one warning for
    every malformed line, and leaves the file system as it was. *)
Theorem load_pairs_by_kind (file_path : path) (w : @world E) :
  load_pairs_from_file file_path w
  = match Fs.stat (fs w) file_path with
    | None => (Ret [], w)
    | Some (File content) =>
        (Ret (parsed_pairs (Str.lines content)),
         World (fs w) (ext w)
           (out w ++ ((λ l, Print (WarnMalformedLine l))
                        <$> malformed_lines (Str.lines content))))
    | Some _ => (Raise (OSError "EISDIR"), w)
    end.
Proof.
  unfold load_pairs_from_file, read_text, Fs.exists_. run_M.
  destruct (Fs.stat (fs w) file_path) as [[content| |up down]|] eqn:Hstat.
  - rewrite bool_decide_true by eauto. cbn [negb]. rewrite Hstat.
    rewrite load_pairs_loop_spec. reflexivity.
  - rewrite bool_decide_true by eauto. cbn [negb]. rewrite Hstat. reflexivity.
  - rewrite bool_decide_true by eauto. cbn [negb]. rewrite Hstat. reflexivity.
  - rewrite bool_decide_false by (intros [? ?]; discriminate). reflexivity.
Qed.

Lemma print_tasks_spec pairs : ∀ i (w : @world E),
  print_tasks i pairs w
  = (Ret (), World (fs w) (ext w) (out w ++ task_lines i pairs)).
Proof.
  unfold task_lines.
  induction pairs as [|[m s] pairs IH]; intros i w.
  - cbn. rewrite app_nil_r. destruct w; reflexivity.
  - cbn [print_tasks imap]. run_M. rewrite IH. cbn [fs ext out fst snd].
    rewrite <- app_assoc. cbn [app].
    replace (i + 0 + 1) with (i + 1) by lia.
    erewrite imap_ext; [reflexivity|].
    intros j p _. cbn. do 2 f_equal. lia.
Qed.


(** ** A unit whose commands all succeed *)

Lemma run_all_cons cmd cmds cwd s x :
  run_all shell (cmd :: cmds) cwd s x
  = let '(o, s1, x1) := shell cmd cwd s x in
    let '(os, s2, x2) := run_all shell cmds cwd s1 x1 in
    (o :: os, s2, x2).
Proof. reflexivity. Qed.

Lemma phase1_step_ok folder run_dir step (w : @world E) s' x' :
  shell (steps_cmd step step) run_dir (fs w) (ext w) = (None, s', x') →
  phase1_step shell folder run_dir step w
  = (Ret (),
     World s' x'
       (out w ++ [ Print (StepStart folder step);
                   Run (steps_cmd step step) run_dir;
                   Print (StepDone folder step) ])).
Proof.
  intros Hsh. unfold phase1_step, run_with_retry.
  change (Z.to_nat 2) with 2. cbn [retry_loop].
  run_M. unfold subprocess_run. cbn [fs ext out]. rewrite Hsh.
  cbn [fs ext out]. rewrite <- !app_assoc. reflexivity.
Qed.

Lemma phase2_ok folder run_dir (w : @world E) s' x' :
  shell (steps_cmd PHASE_2_START PHASE_2_END) run_dir (fs w) (ext w)
  = (None, s', x') →
  phase2 shell folder run_dir w
  = (Ret (),
     World s' x'
       (out w ++ [ Print (Phase2Start folder);
                   Run (steps_cmd PHASE_2_START PHASE_2_END) run_dir;
                   Print (Phase2Done folder) ])).
Proof.
  intros Hsh. unfold phase2, run_with_retry.
  change (Z.to_nat 1) with 1. cbn [retry_loop].
  run_M. unfold subprocess_run. cbn [fs ext out]. rewrite Hsh.
  cbn [fs ext out]. rewrite <- !app_assoc. reflexivity.
Qed.

Lemma run_phases_ok folder run_dir steps last_cmd :
  ∀ (w : @world E) os s' x',
    run_all shell (((λ step, steps_cmd step step) <$> steps) ++ [last_cmd])
      run_dir (fs w) (ext w) = (os, s', x') →
    forallb succeeded os = true →
    ∃ wa evs,
      for_each steps (phase1_step shell folder run_dir) w
      = (Ret (), World (fs wa) (ext wa) (out w ++ evs))
      ∧ filter is_run_or_sleep evs
        = (λ cmd, Run cmd run_dir) <$> ((λ step, steps_cmd step step) <$> steps)
      ∧ shell last_cmd run_dir (fs wa) (ext wa) = (None, s', x').
Proof.
  induction steps as [|step steps IH]; intros w os s' x' Hrun Hok.
  - cbn [fmap list_fmap app] in Hrun. rewrite run_all_cons in Hrun.
    destruct (shell last_cmd run_dir (fs w) (ext w)) as [[o s1] x1] eqn:Hsh.
    cbn [run_all] in Hrun. simplify_eq. cbn [forallb] in Hok.
    destruct o; [discriminate|].
    exists w, []. cbn [for_each]. rewrite app_nil_r.
    split_and!; [destruct w; reflexivity|reflexivity|exact Hsh].
  - cbn [fmap list_fmap app] in Hrun. rewrite run_all_cons in Hrun.
    destruct (shell (steps_cmd step step) run_dir (fs w) (ext w))
      as [[o s1] x1] eqn:Hsh.
    match type of Hrun with
    | context [run_all shell ?cs run_dir s1 x1] =>
        destruct (run_all shell cs run_dir s1 x1) as [[os1 s2] x2] eqn:Hrest
    end.
    simplify_eq. cbn [forallb] in Hok. apply andb_prop in Hok as [Ho Hok].
    destruct o; [discriminate|].
    destruct (IH (World s1 x1
                    (out w ++ [ Print (StepStart folder step);
                                Run (steps_cmd step step) run_dir;
                                Print (StepDone folder step) ]))
                os1 s' x' Hrest Hok) as (wa & evs & Hfor & Hevs & Hlast).
    exists wa,
      ([ Print (StepStart folder step); Run (steps_cmd step step) run_dir;
         Print (StepDone folder step) ] ++ evs).
    split_and!.
    + cbn [for_each]. unfold mbind, M_bind.
      rewrite (phase1_step_ok _ _ _ _ _ _ Hsh), Hfor. cbn [out].
      rewrite <- !app_assoc. reflexivity.
    + cbn [app fmap list_fmap].
      rewrite filter_cons_False by (intros []).
      rewrite filter_cons_True by exact I.
      rewrite filter_cons_False by (intros []).
      rewrite Hevs. reflexivity.
    + exact Hlast.
Qed.

(** X14: When the sandbox is staged and each of the fourteen commands of the
    unit exits with status 0, the unit returns its success: every command
    was run once, in the order of the steps, with no pause between them. *)
Theorem worker_task_all_steps_succeed (cfg : @config F)
    ref_name sec_name dem_path (w w1 : @world E) os s' x' :
  let folder := folder_name_of ref_name sec_name in
  let run_dir := Fs.join (RUNS_DIR cfg) folder in
  stage_sandbox cfg folder ref_name sec_name dem_path w = (Ret (), w1) →
  run_all shell unit_commands run_dir (fs w1) (ext w1) = (os, s', x') →
  forallb succeeded os = true →
  ∃ evs,
    worker_task shell cfg (ref_name, sec_name, dem_path) w
    = (Ret (Success folder), World s' x' (out w1 ++ evs))
    ∧ filter is_run_or_sleep evs = (λ cmd, Run cmd run_dir) <$> unit_commands.
Proof.
  intros folder run_dir Hstage Hrun Hok.
  rewrite (worker_task_staged shell cfg _ _ _ _ _ Hstage).
  fold folder. fold run_dir. unfold run_phases.
  change (steps_from START_STEP PHASE_1) with PHASE_1.
  destruct (run_phases_ok folder run_dir PHASE_1
              (steps_cmd PHASE_2_START PHASE_2_END) w1 os s' x' Hrun Hok)
    as (wa & evs & Hfor & Hevs & Hlast).
  exists (evs ++ [ Print (Phase2Start folder);
                   Run (steps_cmd PHASE_2_START PHASE_2_END) run_dir;
                   Print (Phase2Done folder) ]).
  split.
  - unfold mbind, M_bind. rewrite Hfor.
    rewrite (phase2_ok folder run_dir (World (fs wa) (ext wa) (out w1 ++ evs))
               s' x' Hlast).
    cbn [out mret M_ret]. rewrite <- !app_assoc. reflexivity.
  - rewrite filter_app, Hevs. unfold unit_commands. rewrite fmap_app.
    f_equal.
Qed.

(** ** [cleanup_pickles] *)

Lemma resolve_not_link (s : Fs.state) (p : path) :
  (∀ up down, s !! p ≠ Some (Link up down)) → Fs.resolve s p = Some p.
Proof.
  intros Hp. unfold Fs.resolve, Fs.MAXSYMLINKS. cbn [Fs.resolve_fuel].
  destruct (s !! p) as [[| |up down]|] eqn:Hs; try reflexivity.
  exfalso. exact (Hp up down eq_refl).
Qed.

Lemma stat_not_link (s : Fs.state) (p : path) :
  (∀ up down, s !! p ≠ Some (Link up down)) → Fs.stat s p = s !! p.
Proof. intros Hp. unfold Fs.stat. rewrite (resolve_not_link s p Hp). reflexivity. Qed.

Lemma exists_dir (s : Fs.state) (p : path) :
  s !! p = Some Dir → Fs.exists_ s p = true.
Proof.
  intros Hp. unfold Fs.exists_. rewrite stat_not_link, Hp.
  - apply bool_decide_eq_true. eauto.
  - intros up down. rewrite Hp. discriminate.
Qed.

(** X15: [cleanup_pickles] never raises, prints nothing and leaves everything
    outside [target_dir/pickle] alone.  It removes that directory with all it
    holds when the entry is a directory; an entry of another kind, a link to
    a directory included, stays, and the file system is as it was. *)
Theorem cleanup_pickles_safe (target_dir : path) (w : @world E) :
  ∃ s',
    cleanup_pickles target_dir w = (Ret (), World s' (ext w) (out w))
    ∧ (∀ p : path, ¬ Fs.join target_dir "pickle" `prefix_of` p →
                   s' !! p = fs w !! p)
    ∧ (fs w !! Fs.join target_dir "pickle" = Some Dir
       ∧ (∀ p : path, Fs.join target_dir "pickle" `prefix_of` p → s' !! p = None)
       ∨ fs w !! Fs.join target_dir "pickle" ≠ Some Dir ∧ s' = fs w).
Proof.
  set (pickle := Fs.join target_dir "pickle").
  unfold cleanup_pickles, shutil_rmtree. fold pickle. run_M.
  destruct (fs w !! pickle) as [[content| |up down]|] eqn:Hp.
  2: { rewrite (exists_dir _ _ Hp). rewrite Hp.
       eexists. split; [reflexivity|]. split.
       - intros p Hno. destruct (fs w !! p) as [n|] eqn:Hq.
         + apply map_lookup_filter_Some. split; [exact Hq|exact Hno].
         + apply map_lookup_filter_None. left. exact Hq.
       - left. split; [reflexivity|]. intros p Hpre.
         apply map_lookup_filter_None. right. intros n _ Hno.
         exact (Hno Hpre). }
  all: exists (fs w); split;
    [destruct (Fs.exists_ (fs w) pickle); rewrite ?Hp; destruct w; reflexivity|];
    split; [reflexivity|right; split; [discriminate|reflexivity]].
Qed.

(** ** The orbit part of [prepare_shared_resources] *)

Lemma filter_orbit_call_prints {A} (f : A → message) (l : list A) :
  filter is_orbit_call ((λ x, Print (f x)) <$> l) = [].
Proof.
  induction l as [|x l IH]; [reflexivity|].
  cbn [fmap list_fmap]. rewrite filter_cons_False by (intros []). exact IH.
Qed.

(** X16: The orbit download is asked for exactly when the least of the dates of
    the pair list is a non-empty text, and then once, for the range of the
    dates and the orbit directory.  Otherwise, also when the dates are all
    empty, the function only prints: it returns, and the file system and the
    outside are as the reading of the pair list left them. *)
Theorem prepare_orbits_download (cfg : @config F) (w w1 : @world E) pairs :
  load_pairs_from_file (DEFAULT_PAIRS_FILE cfg)
    (World (fs w) (ext w) (out w ++ [Print CheckOrbits])) = (Ret pairs, w1) →
  let '(r, w') := prepare_orbits download_orbit cfg w in
  match get_date_range_from_pairs pairs with
  | Some (String a s, end_date) =>
      filter is_orbit_call (out w')
      = filter is_orbit_call (out w1)
        ++ [CallDownloadOrbit (String a s) end_date (ORBIT_DIR cfg)]
  | _ =>
      filter is_orbit_call (out w') = filter is_orbit_call (out w1)
      ∧ r = Ret () ∧ fs w' = fs w1 ∧ ext w' = ext w1
  end.
Proof.
  intros Hload. unfold prepare_orbits.
  unfold mbind at 1. unfold M_bind at 1. unfold print at 1, emit at 1.
  unfold mbind at 1. unfold M_bind at 1. rewrite Hload.
  unfold mbind at 1. unfold M_bind at 1. rewrite for_each_print.
  cbn [fs ext out].
  unfold mbind at 1. unfold M_bind at 1.
  destruct (get_date_range_from_pairs pairs) as [[[|a s] end_date]|].
  - run_M. cbn [fs ext out].
    destruct (length _ <? 2)%nat; cbn [fs ext out];
      rewrite !filter_app, filter_orbit_call_prints, !app_nil_r;
      split_and!; reflexivity.
  - unfold mbind at 1. unfold M_bind at 1. unfold print at 1, emit at 1.
    cbn [fs ext out].
    unfold mbind at 1. unfold M_bind at 1. unfold call_download_orbit at 1.
    cbn [fs ext out].
    destruct (download_orbit (String a s) end_date (ORBIT_DIR cfg)
                (fs w1) (ext w1)) as [[[got|e] s'] x'].
    + run_M. cbn [fs ext out].
      destruct (length _ <? 2)%nat; cbn [fs ext out];
        rewrite !filter_app, filter_orbit_call_prints, !app_nil_r;
        reflexivity.
    + cbn [out]. rewrite !filter_app, filter_orbit_call_prints, !app_nil_r.
      reflexivity.
  - run_M. cbn [fs ext out].
    destruct (length _ <? 2)%nat; cbn [fs ext out];
      rewrite !filter_app, filter_orbit_call_prints, !app_nil_r;
      split_and!; reflexivity.
Qed.

(** ** The links of the sandbox *)








(** ** [generate_xml] *)

Lemma resolve_fuel_end (s : Fs.state) (fuel : nat) : ∀ p q : path,
  Fs.resolve_fuel fuel s p = Some q →
  ∀ up down, s !! q ≠ Some (Link up down).
Proof.
  induction fuel as [|fuel IH]; intros p q Hres up down;
    cbn [Fs.resolve_fuel] in Hres;
    destruct (s !! p) as [[| |up' down']|] eqn:Hp; simplify_eq;
    rewrite ?Hp; try discriminate.
  eapply IH. exact Hres.
Qed.

Lemma resolve_fuel_insert_end (s : Fs.state) (n : node) (fuel : nat) :
  (∀ up down, n ≠ Link up down) →
  ∀ p q : path,
    Fs.resolve_fuel fuel s p = Some q →
    Fs.resolve_fuel fuel (<[q := n]> s) p = Some q.
Proof.
  intros Hn. induction fuel as [|fuel IH]; intros p q Hres.
  - pose proof (resolve_fuel_end s 0 p q Hres) as Hq.
    cbn [Fs.resolve_fuel] in *.
    destruct (s !! p) as [[| |up' down']|] eqn:Hp; simplify_eq;
      rewrite lookup_insert_eq; destruct n; try reflexivity;
      exfalso; eapply Hn; reflexivity.
  - pose proof (resolve_fuel_end s (S fuel) p q Hres) as Hq.
    cbn [Fs.resolve_fuel] in *.
    destruct (s !! p) as [[| |up' down']|] eqn:Hp; simplify_eq;
      try (rewrite lookup_insert_eq; destruct n; try reflexivity;
           exfalso; eapply Hn; reflexivity).
    assert (Hne : q ≠ p) by (intros ->; eapply Hq; exact Hp).
    rewrite lookup_insert_ne, Hp by exact Hne.
    apply IH. exact Hres.
Qed.

Lemma write_text_outcome (p : path) (content : string) (w w' : @world E) :
  write_text p content w = (Ret (), w') →
  ∃ q, Fs.resolve (fs w) p = Some q
       ∧ w' = World (<[q := File content]> (fs w)) (ext w) (out w).
Proof.
  unfold write_text. run_M.
  destruct (Fs.resolve (fs w) p) as [q|]; [|discriminate].
  destruct (fs w !! q) as [[| |]|];
    [| discriminate | |destruct (fs w !! Fs.dirname q) as [[| |]|]];
    try discriminate; intros Heq; simplify_eq; eauto.
Qed.

(** X18: What [generate_xml] writes can be read back: when it returns, reading
    [topsApp.xml] in the sandbox gives the text for the two scenes and the
    name of the terrain model.  The write goes to where that path leads, so
    through a link if one is there, and changes no other entry. *)
Theorem generate_xml_read_back (run_dir : path) (ref_name sec_name : string)
    (dem_full_path : path) (w w' : @world E) :
  generate_xml run_dir ref_name sec_name dem_full_path w = (Ret (), w') →
  read_text (Fs.join run_dir "topsApp.xml") w'
  = (Ret (topsApp_xml (Fs.basename dem_full_path) ref_name sec_name), w')
  ∧ ext w' = ext w ∧ out w' = out w
  ∧ ∀ p : path, Fs.resolve (fs w) (Fs.join run_dir "topsApp.xml") ≠ Some p →
                fs w' !! p = fs w !! p.
Proof.
  unfold generate_xml. intros Hw.
  destruct (write_text_outcome _ _ _ _ Hw) as (q & Hres & ->).
  cbn [fs ext out]. split_and!; try reflexivity.
  - unfold read_text, Fs.stat, Fs.resolve. run_M. cbn [fs].
    rewrite (resolve_fuel_insert_end (fs w) _ Fs.MAXSYMLINKS) by (done || exact Hres).
    rewrite lookup_insert_eq. reflexivity.
  - intros p Hp. apply lookup_insert_ne. intros ->. exact (Hp Hres).
Qed.

(** ** A failed download of the terrain model *)

(** X19: An exception of the download of the terrain model does not leave
    [prepare_shared_resources]: the function prints it, goes on with the
    orbit files and returns the name it looked for, although nothing is
    there. *)
Theorem prepare_survives_failed_download (cfg : @config F) custom_name
    (w : @world E) roi e s' x' :
  let target_dem := Fs.join (DEM_DIR cfg) (custom_name +:+ ".wgs84") in
  Fs.exists_ (fs w) target_dem
  && Fs.exists_ (fs w) (Fs.add_ext target_dem ".xml")
  && Fs.exists_ (fs w) (Fs.add_ext target_dem ".vrt") = false →
  ROI cfg = Some roi →
  truthy (API_KEY cfg) = true →
  download_dem roi (DEM_DIR cfg) (API_KEY cfg) (fs w) (ext w)
  = (Raise e, s', x') →
  prepare_shared_resources download_dem download_orbit cfg custom_name w
  = (prepare_orbits download_orbit cfg;; mret target_dem)
      (World s' x'
         (out w
          ++ [ Print CheckDem; Print (DemDownloading custom_name);
               Print DemUsingRoi; CallDownloadDem (DEM_DIR cfg);
               Print (WarnDemDownloadFailed e) ])).
Proof.
  intros target_dem Hdem Hroi Hkey Hdl.
  unfold prepare_shared_resources. fold target_dem.
  unfold mbind at 1. unfold M_bind at 1. unfold print at 1, emit at 1.
  unfold mbind at 1. unfold M_bind at 1. unfold get_fs at 1. cbn [fs ext out].
  rewrite Hdem.
  unfold mbind at 1. unfold M_bind at 1. unfold print at 1, emit at 1.
  cbn [fs ext out].
  unfold mbind at 1. unfold M_bind at 1.
  rewrite Hroi, Hkey. cbn [roi_truthy andb].
  unfold mbind at 1. unfold M_bind at 1.
  unfold try_except at 1.
  unfold mbind at 1. unfold M_bind at 1. unfold print at 1, emit at 1.
  cbn [fs ext out].
  unfold mbind at 1. unfold M_bind at 1. unfold call_download_dem at 1.
  cbn [fs ext out]. rewrite Hdl.
  unfold mbind at 1. unfold M_bind at 1. unfold print at 1, emit at 1.
  cbn [fs ext out mret M_ret].
  rewrite <- !app_assoc. cbn [app]. reflexivity.
Qed.

(** ** The warnings of the skipped download *)

Lemma adds_only_refl P (w : @world E) : adds_only P w w.
Proof. exists []. split; [symmetry; apply app_nil_r|constructor]. Qed.

Lemma adds_only_trans P (w1 w2 w3 : @world E) :
  adds_only P w1 w2 → adds_only P w2 w3 → adds_only P w1 w3.
Proof.
  intros (e1 & H1 & F1) (e2 & H2 & F2). exists (e1 ++ e2). split.
  - rewrite H2, H1, app_assoc. reflexivity.
  - apply Forall_app. split; assumption.
Qed.

Lemma adds_bind P {A B} (m : M A) (f : A → M B) (w : @world E) :
  adds_only P w (m w).2 →
  (∀ a w1, adds_only P w1 (f a w1).2) →
  adds_only P w ((m ≫= f) w).2.
Proof.
  intros Hm Hf. unfold mbind, M_bind.
  destruct (m w) as [[a|e] w1]; cbn [snd] in *; [|exact Hm].
  eapply adds_only_trans; [exact Hm|apply Hf].
Qed.

Lemma adds_try P {A} (body : M A) (handler : exn → M A) (w : @world E) :
  adds_only P w (body w).2 →
  (∀ e w1, adds_only P w1 (handler e w1).2) →
  adds_only P w (try_except body handler w).2.
Proof.
  intros Hm Hf. unfold try_except.
  destruct (body w) as [[a|e] w1]; cbn [snd] in *; [exact Hm|].
  eapply adds_only_trans; [exact Hm|apply Hf].
Qed.

Lemma adds_emit (P : event → Prop) ev (w : @world E) :
  P ev → adds_only P w (emit ev w).2.
Proof. intros Hev. exists [ev]. split; [reflexivity|repeat constructor; exact Hev]. Qed.

Lemma adds_print (P : event → Prop) m (w : @world E) :
  P (Print m) → adds_only P w (print m w).2.
Proof. apply adds_emit. Qed.

Lemma adds_for_each P {A} (l : list A) (body : A → M unit) :
  (∀ x (w : @world E), adds_only P w (body x w).2) →
  ∀ w, adds_only P w (for_each l body w).2.
Proof.
  intros Hbody. induction l as [|x l IH]; intros w.
  - apply adds_only_refl.
  - cbn [for_each]. apply adds_bind; [apply Hbody|intros _ w1; apply IH].
Qed.

Lemma adds_load_pairs (file_path : path) (w : @world E) :
  adds_only no_skip_warning w (load_pairs_from_file file_path w).2.
Proof.
  unfold load_pairs_from_file, read_text.
  unfold mbind, M_bind, mret, M_ret, raise, get_fs.
  destruct (Fs.exists_ (fs w) file_path); cbn [negb snd];
    [|apply adds_only_refl].
  destruct (Fs.stat (fs w) file_path) as [[content| |up down]|];
    cbn [snd]; try apply adds_only_refl.
  rewrite load_pairs_loop_spec. eexists. split; [reflexivity|].
  apply Forall_fmap, Forall_true. intros l. split; discriminate.
Qed.

Lemma adds_prepare_orbits (cfg : @config F) (w : @world E) :
  adds_only no_skip_warning w (prepare_orbits download_orbit cfg w).2.
Proof.
  unfold prepare_orbits.
  apply adds_bind; [apply adds_print; split; discriminate|intros _ w1].
  apply adds_bind; [apply adds_load_pairs|intros pairs w2].
  apply adds_bind.
  { rewrite for_each_print. eexists. split; [reflexivity|].
    apply Forall_fmap, Forall_true. intros p. split; discriminate. }
  intros _ w3. apply adds_bind.
  { destruct (get_date_range_from_pairs pairs) as [[[|a s] end_date]|];
      try (apply adds_print; split; discriminate).
    apply adds_bind; [apply adds_print; split; discriminate|intros _ w4].
    apply adds_bind; [|intros; apply adds_only_refl].
    unfold call_download_orbit.
    destruct (download_orbit _ _ _ _ _) as [[r s'] x']. cbn [snd].
    eexists. split; [reflexivity|]. repeat constructor; discriminate. }
  intros _ w4. unfold get_fs. unfold mbind, M_bind.
  destruct (_ <? _)%nat; apply adds_print; split; discriminate.
Qed.

Lemma adds_prepare (cfg : @config F) custom_name (w : @world E) :
  truthy (API_KEY cfg) = true →
  adds_only no_skip_warning w
    (prepare_shared_resources download_dem download_orbit cfg custom_name w).2.
Proof.
  intros Hkey. unfold prepare_shared_resources.
  apply adds_bind; [apply adds_print; split; discriminate|intros _ w1].
  unfold get_fs at 1. unfold mbind at 1, M_bind at 1.
  destruct (_ && _ && _).
  { apply adds_bind; [apply adds_print; split; discriminate|].
    intros; apply adds_only_refl. }
  apply adds_bind; [apply adds_print; split; discriminate|intros _ w2].
  apply adds_bind.
  2: { intros dem w3. apply adds_bind; [apply adds_prepare_orbits|].
       intros; apply adds_only_refl. }
  destruct (ROI cfg) as [roi|]; [|apply adds_only_refl].
  rewrite Hkey. cbn [roi_truthy andb].
  apply adds_bind.
  { apply adds_try.
    - apply adds_bind; [apply adds_print; split; discriminate|intros _ w3].
      apply adds_bind; [|intros; apply adds_only_refl].
      unfold call_download_dem.
      destruct (download_dem _ _ _ _ _) as [[r s'] x']. cbn [snd].
      eexists. split; [reflexivity|]. repeat constructor; discriminate.
    - intros e w3.
      apply adds_bind; [apply adds_print; split; discriminate|].
      intros; apply adds_only_refl. }
  intros [downloaded|] w3; [|apply adds_only_refl].
  apply adds_bind; [|intros; apply adds_only_refl].
  apply adds_try.
  - apply adds_bind; [apply adds_print; split; discriminate|intros _ w4].
    unfold verify_dem_metadata. unfold get_fs at 1.
    unfold mbind at 1, M_bind at 1.
    destruct (_ || _); [|apply adds_only_refl].
    apply adds_bind; [apply adds_print; split; discriminate|intros _ w5].
    apply adds_bind.
    { unfold os_listdir, get_fs, mbind, M_bind.
      destruct (Fs.isdir _ _); apply adds_only_refl. }
    intros names w6.
    apply adds_bind; [|intros; apply adds_only_refl].
    rewrite for_each_print. eexists. split; [reflexivity|].
    apply Forall_fmap, Forall_true. intros fn. split; discriminate.
  - intros e w4. apply adds_print. split; discriminate.
Qed.

(** X28: the two warnings of the branch that skips the download of the
    terrain model are never printed in a run of [main]: without a key [main]
    exits before the provisioning, and a bounding box that is bound is a
    tuple of four values, which counts as true. *)
Theorem main_never_prints_skip_warnings (cfg : @config F) (w : @world E) :
  adds_only no_skip_warning w (main download_dem download_orbit cfg w).2.
Proof.
  unfold main. destruct (truthy (API_KEY cfg)) eqn:Hkey; cbn [negb].
  2: { apply adds_bind; [apply adds_print; split; discriminate|].
       intros; apply adds_only_refl. }
  apply adds_bind; [apply adds_load_pairs|intros pairs w1].
  apply adds_bind; [apply adds_print; split; discriminate|intros _ w2].
  apply adds_bind.
  { rewrite print_tasks_spec. eexists. split; [reflexivity|].
    unfold task_lines. apply Forall_forall. intros ev Hev.
    apply elem_of_lookup_imap in Hev as (i & p & -> & _).
    split; discriminate. }
  intros _ w3. apply adds_bind.
  { apply adds_try.
    - apply adds_bind; [apply adds_print; split; discriminate|intros _ w4].
      apply adds_bind; [apply adds_prepare; exact Hkey|].
      intros; apply adds_only_refl.
    - intros e w4.
      apply adds_bind; [apply adds_print; split; discriminate|].
      intros; apply adds_only_refl. }
  intros [dem_path|] w4; [|apply adds_only_refl].
  apply adds_bind; [apply adds_print; split; discriminate|].
  intros; apply adds_only_refl.
Qed.

End MoreProperties.
(** * Properties of [get_orbit.py] *)

Section OrbitProperties.

Context {E F : Type}.
Context (locate : string → option path).
Context (which : string → Fs.state → E → option string).
Context (run_shell : string → Fs.state → E → option exn * Fs.state * E).
Context (sys_executable : string).

Ltac run_MM :=
  unfold mbind, MM_bind, mret, MM_ret, mtry, mraise, GetOrbit.print, memit,
    mget_fs, mget_ext in *.




Lemma orbit_runs_app (a b : list GetOrbit.event) :
  orbit_runs (a ++ b) = orbit_runs a ++ orbit_runs b.
Proof. apply omap_app. Qed.

(** X20: [download_orbit] returns the orbit directory or raises.  When it
    raises, either the directory did not exist at the start, so that
    [os.makedirs] was called, or the exception is no [CalledProcessError]: a
    command that exits with a failure never makes the function raise.  At
    most one command is run. *)
Theorem download_orbit_outcome env start_date end_date (output_dir : path)
    (w : mworld E GetOrbit.event) :
  let '(r, w') :=
    GetOrbit.download_orbit locate which run_shell sys_executable env
      start_date end_date output_dir w in
  (r = Ret output_dir
   ∨ ∃ e, r = Raise e
          ∧ (Fs.exists_ (mfs w) output_dir = false
             ∨ is_CalledProcessError e = false))
  ∧ (length (orbit_runs (mout w')) ≤ length (orbit_runs (mout w)) + 1)%nat.
Proof.
  unfold GetOrbit.download_orbit, run_checked, shell_outcome, os_call. run_MM.
  destruct (Fs.exists_ (mfs w) output_dir) eqn:Hex; cbn [negb].
  2: destruct (os_makedirs output_dir (World (mfs w) (mext w) []))
       as [[[]|e0] w0]; cbn [mfs mext mout];
       [|split; [right; eauto|lia]].
  all: destruct env as [[|c env_path]|];
    repeat first
    [ progress cbn [mfs mext mout]
    | match goal with
      | |- context [if ?b then _ else _] => destruct b eqn:?
      | |- context [GetOrbit.find_executable ?a ?b ?c ?d ?e] =>
          destruct (GetOrbit.find_executable a b c d e) eqn:?
      | |- context [run_shell ?a ?b ?c] =>
          destruct (run_shell a b c) as [[[?|] ?] ?] eqn:?
      end ];
    rewrite ?orbit_runs_app; cbn [orbit_runs omap list_omap app];
    rewrite ?app_nil_r, ?length_app; cbn [length];
    (split; [first [left; reflexivity | right; eauto]|lia]).
Qed.




End OrbitProperties.

(** * Properties of [get_dem.py] *)

Section DemProperties.

Context {E F R : Type}.
Context (run_shell : string → Fs.state → E → option exn * Fs.state * E).
Context (http_get : string → F * F * F * F → string → E → GetDem.response * E).
Context (gdal_open : path → Fs.state → E → option R).
Context (int_text : F → result string).
Context (isce_xml : string → R → string).
Context (str_exn : exn → string).
Context (dir_size : Z).

Ltac run_MM :=
  unfold mbind, MM_bind, mret, MM_ret, mtry, mraise, GetDem.print, memit,
    mget_fs, mget_ext in *.

(** ** The attempts of the download *)

Lemma attempt_download_net demtype roi api_key (tif_path : path) attempt
    (w : mworld E GetDem.event) :
  ∃ evs,
    mout (GetDem.attempt_download http_get dir_size demtype roi api_key
            tif_path attempt w).2 = mout w ++ evs
    ∧ filter is_request_or_sleep evs = [GetDem.Get demtype].
Proof.
  unfold GetDem.attempt_download, GetDem.fetch, GetDem.os_path_getsize, os_call.
  run_MM. cbn [mfs mext mout].
  destruct (http_get demtype roi api_key (mext w)) as [[e|content broken] x'];
    cbn [mfs mext mout snd].
  { eexists. rewrite <- app_assoc. split; reflexivity. }
  destruct (write_text tif_path content _) as [[[]|e] w1];
    cbn [mfs mext mout snd].
  2: { eexists. rewrite <- app_assoc. split; reflexivity. }
  destruct broken as [e|]; cbn [mfs mext mout snd].
  { eexists. rewrite <- app_assoc. split; reflexivity. }
  destruct (GetDem.getsize dir_size (fs w1) tif_path) as [size|];
    cbn [mfs mext mout snd].
  2: { eexists. rewrite <- app_assoc. split; reflexivity. }
  destruct (size <? 5000)%Z; cbn [mfs mext mout snd];
    eexists; rewrite <- !app_assoc; split; reflexivity.
Qed.

Lemma download_loop_S demtype roi api_key (tif_path : path) (todo : nat)
    attempt (w : mworld E GetDem.event) :
  GetDem.download_loop http_get dir_size demtype roi api_key tif_path
    (S todo) attempt w
  = match GetDem.attempt_download http_get dir_size demtype roi api_key
            tif_path attempt w with
    | (Ret _, w1) => (Ret true, w1)
    | (Raise e, w1) =>
        let w2 :=
          MWorld (mfs w1) (mext w1)
            (mout w1 ++ [GetDem.Print (GetDem.AttemptFailed attempt e)]) in
        if (attempt <? GetDem.MAX_RETRIES)%Z
        then
          GetDem.download_loop http_get dir_size demtype roi api_key tif_path
            todo (attempt + 1)
            (MWorld (mfs w1) (mext w1)
               (mout w2
                ++ [ GetDem.Print (GetDem.Waiting (attempt * GetDem.RETRY_DELAY));
                     GetDem.Sleep (attempt * GetDem.RETRY_DELAY) ]))
        else
          GetDem.download_loop http_get dir_size demtype roi api_key tif_path
            todo (attempt + 1) w2
    end.
Proof.
  cbn [GetDem.download_loop]. run_MM.
  destruct (GetDem.attempt_download _ _ _ _ _ _ _ w) as [[[]|e] w1];
    [reflexivity|].
  cbv zeta. destruct (attempt <? GetDem.MAX_RETRIES)%Z; cbn [mfs mext mout];
    rewrite <- ?app_assoc; reflexivity.
Qed.

Lemma download_loop_spec demtype roi api_key (tif_path : path) (todo : nat) :
  ∀ attempt (w : mworld E GetDem.event),
    (attempt + Z.of_nat todo = GetDem.MAX_RETRIES)%Z →
    ∃ evs k,
      mout (GetDem.download_loop http_get dir_size demtype roi api_key tif_path
              (S todo) attempt w).2 = mout w ++ evs
      ∧ (k ≤ todo)%nat
      ∧ filter is_request_or_sleep evs
        = backoff demtype k attempt ++ [GetDem.Get demtype]
      ∧ ((GetDem.download_loop http_get dir_size demtype roi api_key tif_path
            (S todo) attempt w).1 = Ret true
         ∨ (GetDem.download_loop http_get dir_size demtype roi api_key tif_path
              (S todo) attempt w).1 = Ret false ∧ k = todo).
Proof.
  induction todo as [|todo IH]; intros attempt w Hatt.
  - rewrite download_loop_S.
    destruct (attempt_download_net demtype roi api_key tif_path attempt w)
      as (evs1 & Hout & Hnet).
    destruct (GetDem.attempt_download _ _ _ _ _ _ _ w) as [[[]|e] w1];
      cbn [snd] in Hout.
    + exists evs1, 0%nat. cbn [fst snd].
      split_and!; [exact Hout|lia|rewrite Hnet; reflexivity|left; reflexivity].
    + replace (attempt <? GetDem.MAX_RETRIES)%Z with false
        by (symmetry; apply Z.ltb_ge; lia).
      cbv zeta. cbn [GetDem.download_loop mret MM_ret fst snd mout].
      rewrite Hout.
      exists (evs1 ++ [GetDem.Print (GetDem.AttemptFailed attempt e)]), 0%nat.
      split_and!.
      * rewrite app_assoc. reflexivity.
      * lia.
      * rewrite filter_app, Hnet. reflexivity.
      * right. split; reflexivity.
  - rewrite download_loop_S.
    destruct (attempt_download_net demtype roi api_key tif_path attempt w)
      as (evs1 & Hout & Hnet).
    destruct (GetDem.attempt_download _ _ _ _ _ _ _ w) as [[[]|e] w1];
      cbn [snd] in Hout.
    + exists evs1, 0%nat. cbn [fst snd].
      split_and!; [exact Hout|lia|rewrite Hnet; reflexivity|left; reflexivity].
    + replace (attempt <? GetDem.MAX_RETRIES)%Z with true
        by (symmetry; apply Z.ltb_lt; lia).
      cbv zeta. cbn [mout].
      match goal with
      | |- context [GetDem.download_loop _ _ _ _ _ _ (S todo) _ ?w2] =>
          destruct (IH (attempt + 1)%Z w2) as (evs2 & k & Hout2 & Hk & Hnet2 & Hr);
          [unfold GetDem.MAX_RETRIES in *; lia|];
          destruct (GetDem.download_loop http_get dir_size demtype roi api_key
                      tif_path (S todo) (attempt + 1) w2) as [r w3]
      end.
      cbn [fst snd mout] in *.
      exists (evs1
              ++ [ GetDem.Print (GetDem.AttemptFailed attempt e);
                   GetDem.Print (GetDem.Waiting (attempt * GetDem.RETRY_DELAY));
                   GetDem.Sleep (attempt * GetDem.RETRY_DELAY) ]
              ++ evs2), (S k).
      split_and!.
      * rewrite Hout2, Hout, <- !app_assoc. reflexivity.
      * lia.
      * rewrite !filter_app, Hnet, Hnet2. reflexivity.
      * destruct Hr as [Hr|[Hr ->]]; [left|right; split]; done.
Qed.

Lemma download_tif_bounded roi source (c : ascii) (key : string)
    (tif_path : path) (w : mworld E GetDem.event) :
  let '(r, w') :=
    GetDem.download_tif http_get dir_size roi source (Some (String c key))
      tif_path w in
  let demtype := if (source =? 1)%Z then "SRTMGL1" else "SRTMGL3" in
  ∃ evs k,
    mout w' = mout w ++ evs
    ∧ (k ≤ 4)%nat
    ∧ filter is_request_or_sleep evs
      = backoff demtype k 1 ++ [GetDem.Get demtype]
    ∧ (r = Ret () ∨ r = Raise GetDem.download_failed_error ∧ k = 4%nat).
Proof.
  unfold GetDem.download_tif. cbv zeta.
  set (demtype := if (source =? 1)%Z then "SRTMGL1" else "SRTMGL3").
  change (Z.to_nat GetDem.MAX_RETRIES) with 5%nat.
  unfold mbind, MM_bind.
  destruct (download_loop_spec demtype roi (String c key) tif_path 4 1%Z w)
    as (evs & k & Hout & Hk & Hnet & Hr); [reflexivity|].
  destruct (GetDem.download_loop _ _ _ _ _ _ 5 1 w) as [r w1].
  cbn [fst snd] in *.
  destruct Hr as [->|[-> ->]]; cbn [mret MM_ret mraise];
    [exists evs, k|exists evs, 4%nat]; split_and!; auto.
Qed.

(** An attempt does not look at its number nor at what was printed before
    it. *)
Lemma attempt_download_result demtype roi api_key (tif_path : path) attempt
    (w : mworld E GetDem.event) :
  ∃ evs,
    GetDem.attempt_download http_get dir_size demtype roi api_key tif_path
      attempt w
    = (let '(r, s', x') :=
         attempt_result http_get dir_size demtype roi api_key tif_path
           (mfs w) (mext w) in
       (r, MWorld s' x' (mout w ++ evs)))
    ∧ filter is_request_or_sleep evs = [GetDem.Get demtype].
Proof.
  unfold attempt_result.
  unfold GetDem.attempt_download, GetDem.fetch, GetDem.os_path_getsize, os_call.
  run_MM. cbn [mfs mext mout].
  destruct (http_get demtype roi api_key (mext w)) as [[e|content broken] x'];
    cbn [mfs mext mout snd].
  { eexists. rewrite <- app_assoc. split; reflexivity. }
  destruct (write_text tif_path content _) as [[[]|e] w1];
    cbn [mfs mext mout snd].
  2: { eexists. rewrite <- app_assoc. split; reflexivity. }
  destruct broken as [e|]; cbn [mfs mext mout snd].
  { eexists. rewrite <- app_assoc. split; reflexivity. }
  destruct (GetDem.getsize dir_size (fs w1) tif_path) as [size|];
    cbn [mfs mext mout snd].
  2: { eexists. rewrite <- app_assoc. split; reflexivity. }
  destruct (size <? 5000)%Z; cbn [mfs mext mout snd];
    eexists; rewrite <- !app_assoc; split; reflexivity.
Qed.

Lemma attempt_results_S demtype roi api_key (tif_path : path) k s x :
  attempt_results http_get dir_size demtype roi api_key tif_path (S k) s x
  = let '(r, s1, x1) :=
      attempt_result http_get dir_size demtype roi api_key tif_path s x in
    let '(rs, s2, x2) :=
      attempt_results http_get dir_size demtype roi api_key tif_path k s1 x1 in
    (r :: rs, s2, x2).
Proof. reflexivity. Qed.

Lemma download_loop_retries demtype roi api_key (tif_path : path) (k : nat) :
  ∀ todo attempt (w : mworld E GetDem.event) rs s' x',
    (k < todo)%nat →
    (attempt + Z.of_nat todo = GetDem.MAX_RETRIES + 1)%Z →
    attempt_results http_get dir_size demtype roi api_key tif_path (S k)
      (mfs w) (mext w) = (rs, s', x') →
    forallb raised (take k rs) = true →
    ∃ evs,
      filter is_request_or_sleep evs
      = backoff demtype k attempt ++ [GetDem.Get demtype]
      ∧ match rs !! k with
        | Some (Ret _) =>
            GetDem.download_loop http_get dir_size demtype roi api_key
              tif_path todo attempt w
            = (Ret true, MWorld s' x' (mout w ++ evs))
        | Some (Raise _) =>
            todo = S k →
            GetDem.download_loop http_get dir_size demtype roi api_key
              tif_path todo attempt w
            = (Ret false, MWorld s' x' (mout w ++ evs))
        | None => False
        end.
Proof.
  induction k as [|k IH]; intros todo attempt w rs s' x' Hk Hatt Hrs Hfail.
  - destruct todo as [|todo]; [lia|].
    rewrite attempt_results_S in Hrs.
    destruct (attempt_download_result demtype roi api_key tif_path attempt w)
      as (evs1 & Hrun & Hnet).
    destruct (attempt_result _ _ _ _ _ _ (mfs w) (mext w)) as [[r s1] x1].
    cbn [attempt_results] in Hrs. simplify_eq.
    cbn [lookup list_lookup backoff app].
    rewrite download_loop_S, Hrun.
    destruct r as [[]|e].
    + exists evs1. split; [exact Hnet|reflexivity].
    + exists (evs1 ++ [GetDem.Print (GetDem.AttemptFailed attempt e)]).
      split; [rewrite filter_app, Hnet; reflexivity|].
      intros Htodo. injection Htodo as ->.
      replace (attempt <? GetDem.MAX_RETRIES)%Z with false
        by (symmetry; apply Z.ltb_ge; unfold GetDem.MAX_RETRIES in *; lia).
      cbv zeta. cbn [GetDem.download_loop mret MM_ret mfs mext mout].
      rewrite <- app_assoc. reflexivity.
  - destruct todo as [|todo]; [lia|].
    rewrite attempt_results_S in Hrs.
    destruct (attempt_download_result demtype roi api_key tif_path attempt w)
      as (evs1 & Hrun & Hnet).
    destruct (attempt_result _ _ _ _ _ _ (mfs w) (mext w)) as [[r s1] x1].
    destruct (attempt_results http_get dir_size demtype roi api_key tif_path
                (S k) s1 x1) as [[rs1 s2] x2] eqn:Hrest.
    simplify_eq. cbn [take forallb] in Hfail.
    apply andb_prop in Hfail as [Hr Hfail].
    destruct r as [[]|e]; [discriminate|].
    change ((Raise e :: rs1) !! S k) with (rs1 !! k).
    rewrite download_loop_S, Hrun.
    replace (attempt <? GetDem.MAX_RETRIES)%Z with true
      by (symmetry; apply Z.ltb_lt; unfold GetDem.MAX_RETRIES in *; lia).
    cbv zeta. cbn [mfs mext mout].
    match goal with
    | |- context [GetDem.download_loop _ _ _ _ _ _ todo _ ?w2] =>
        destruct (IH todo (attempt + 1)%Z w2 rs1 s' x')
          as (evs2 & Hnet2 & Hloop);
        [lia|lia|exact Hrest|exact Hfail|]
    end.
    exists (evs1
            ++ [ GetDem.Print (GetDem.AttemptFailed attempt e);
                 GetDem.Print (GetDem.Waiting (attempt * GetDem.RETRY_DELAY));
                 GetDem.Sleep (attempt * GetDem.RETRY_DELAY) ]
            ++ evs2).
    split.
    + rewrite !filter_app, Hnet, Hnet2. reflexivity.
    + cbn [mfs mext mout] in Hloop.
      destruct (rs1 !! k) as [[[]|e']|]; [| |exact Hloop].
      * rewrite Hloop, <- !app_assoc. reflexivity.
      * intros Htodo. rewrite Hloop by lia. rewrite <- !app_assoc.
        reflexivity.
Qed.

(** X23: the download asks again after every failed attempt.  When the
    first [k] attempts fail, for [k] below five, it has made [k + 1]
    requests, with a pause of ten seconds times its number after each of
    the [k] failures and none after the last request.  It returns when
    request [k + 1] succeeds, with the state that attempt left, and when
    that was the fifth request and it failed too it raises its own
    exception; the exception of an attempt never leaves the function. *)
Theorem download_tif_retries roi source (c : ascii) (key : string)
    (tif_path : path) (w : mworld E GetDem.event) (k : nat) rs s' x' :
  let demtype := if (source =? 1)%Z then "SRTMGL1" else "SRTMGL3" in
  (k < 5)%nat →
  attempt_results http_get dir_size demtype roi (String c key) tif_path
    (S k) (mfs w) (mext w) = (rs, s', x') →
  forallb raised (take k rs) = true →
  ∃ evs,
    filter is_request_or_sleep evs
    = backoff demtype k 1 ++ [GetDem.Get demtype]
    ∧ (rs !! k = Some (Ret ()) →
       GetDem.download_tif http_get dir_size roi source (Some (String c key))
         tif_path w
       = (Ret (), MWorld s' x' (mout w ++ evs)))
    ∧ (∀ e, rs !! k = Some (Raise e) → k = 4%nat →
       GetDem.download_tif http_get dir_size roi source (Some (String c key))
         tif_path w
       = (Raise GetDem.download_failed_error, MWorld s' x' (mout w ++ evs))).
Proof.
  intros demtype Hk Hrs Hfail. unfold GetDem.download_tif.
  fold demtype. change (Z.to_nat GetDem.MAX_RETRIES) with 5%nat.
  destruct (download_loop_retries demtype roi (String c key) tif_path k
              5%nat 1%Z w rs s' x') as (evs & Hnet & Hloop);
    [exact Hk|reflexivity|exact Hrs|exact Hfail|].
  exists evs. split; [exact Hnet|].
  unfold mbind, MM_bind. split.
  - intros Hlast. rewrite Hlast in Hloop. rewrite Hloop. reflexivity.
  - intros e Hlast ->. rewrite Hlast in Hloop. rewrite Hloop by reflexivity.
    reflexivity.
Qed.

(** ** The conversion and what it leaves behind *)

Lemma exists_lookup_None (s : Fs.state) (p : path) :
  s !! p = None → Fs.exists_ s p = false.
Proof.
  intros Hp. unfold Fs.exists_, Fs.stat, Fs.resolve, Fs.MAXSYMLINKS.
  cbn [Fs.resolve_fuel]. rewrite Hp. rewrite Hp.
  apply bool_decide_eq_false. intros [? ?]. discriminate.
Qed.

Lemma exists_delete_false (s : Fs.state) (p q : path) :
  Fs.exists_ s p = false → Fs.exists_ (delete q s) p = false.
Proof.
  intros Hp. destruct (Fs.exists_ (delete q s) p) eqn:Hd; [|reflexivity].
  rewrite (exists_avoid q s s p (agree_off_delete q s) Hd) in Hp.
  discriminate.
Qed.

Lemma remove_if_exists_spec (p : path) (w : mworld E GetDem.event) :
  (∃ s', GetDem.remove_if_exists p w = (Ret (), MWorld s' (mext w) (mout w))
         ∧ Fs.exists_ s' p = false
         ∧ (s' = mfs w ∨ s' = delete p (mfs w)))
  ∨ (GetDem.remove_if_exists p w = (Raise (OSError "EISDIR"), w)
     ∧ mfs w !! p = Some Dir).
Proof.
  unfold GetDem.remove_if_exists, os_call, os_remove. run_MM.
  unfold mbind, M_bind, get_fs, set_fs, raise. cbn [fs ext out].
  destruct (Fs.exists_ (mfs w) p) eqn:Hex.
  - destruct (mfs w !! p) as [[content| |up down]|] eqn:Hp; cbn [fs ext out].
    + left. eexists. split_and!; [reflexivity| |right; reflexivity].
      apply exists_lookup_None, lookup_delete_eq.
    + right. split; [destruct w; reflexivity|reflexivity].
    + left. eexists. split_and!; [reflexivity| |right; reflexivity].
      apply exists_lookup_None, lookup_delete_eq.
    + rewrite (exists_lookup_None _ _ Hp) in Hex. discriminate.
  - left. exists (mfs w). split_and!; [destruct w; reflexivity|exact Hex|].
    left. reflexivity.
Qed.

Lemma exists_false_after (s s' : Fs.state) (p q : path) :
  Fs.exists_ s p = false → s' = s ∨ s' = delete q s →
  Fs.exists_ s' p = false.
Proof.
  intros Hp [->| ->]; [exact Hp|apply exists_delete_false; exact Hp].
Qed.

(** X24: However the conversion ends, its [finally] clause has run: the
    downloaded file and the header file of the raster do not exist
    afterwards, unless one of them is a directory, which [os.remove] refuses.
    And when the conversion raises the exception of its [except] clause, no
    terrain file is left at the path of the model. *)
Theorem convert_cleans_up (tif_path dem_path vrt_path : path)
    (w : mworld E GetDem.event) :
  let '(r, w') :=
    GetDem.convert run_shell gdal_open isce_xml str_exn
      tif_path dem_path vrt_path w in
  (Fs.exists_ (mfs w') tif_path = false
   ∧ Fs.exists_ (mfs w') (Fs.add_ext dem_path ".hdr") = false
   ∨ r = Raise (OSError "EISDIR")
     ∧ (mfs w' !! tif_path = Some Dir
        ∨ mfs w' !! Fs.add_ext dem_path ".hdr" = Some Dir))
  ∧ (∀ msg, r = Raise (PyException msg) →
            Fs.exists_ (mfs w') dem_path = false).
Proof.
  unfold GetDem.convert, mfinally.
  match goal with
  | |- context [mtry ?body ?handler w] =>
      assert (Hbody : ∀ msg, (mtry body handler w).1 = Raise (PyException msg) →
                Fs.exists_ (mfs (mtry body handler w).2) dem_path = false);
      [|destruct (mtry body handler w) as [rb wb]]
  end.
  { intros msg. unfold mtry.
    match goal with
    | |- context [match ?b w with _ => _ end] => destruct (b w) as [[[]|e] w1]
    end; [discriminate|].
    unfold mbind, MM_bind.
    destruct (remove_if_exists_spec dem_path w1)
      as [(s' & -> & Hgone & _)|[-> _]]; cbn [fst snd mfs mraise];
      [intros _; exact Hgone|discriminate]. }
  cbn [fst snd] in Hbody. unfold mbind, MM_bind.
  destruct (remove_if_exists_spec tif_path wb)
    as [(s1 & -> & Htif & Hs1)|[-> Htif]].
  2: { split; [right; split; [reflexivity|left; exact Htif]|discriminate]. }
  destruct (remove_if_exists_spec (Fs.add_ext dem_path ".hdr")
              (MWorld s1 (mext wb) (mout wb)))
    as [(s2 & -> & Hhdr & Hs2)|[-> Hhdr]]; cbn [mfs mext mout] in *.
  2: { split; [right; split; [reflexivity|right; exact Hhdr]|discriminate]. }
  split.
  - left. split; [|exact Hhdr]. eapply exists_false_after; eassumption.
  - intros msg Hr. eapply exists_false_after; [|exact Hs2].
    eapply exists_false_after; [|exact Hs1]. exact (Hbody msg Hr).
Qed.

(** ** Requests to the server *)

Lemma same_requests_refl (w : mworld E GetDem.event) : same_requests w w.
Proof. reflexivity. Qed.

Lemma same_requests_trans (w1 w2 w3 : mworld E GetDem.event) :
  same_requests w1 w2 → same_requests w2 w3 → same_requests w1 w3.
Proof. unfold same_requests. congruence. Qed.

Lemma quiet_bind {A B} (m : MM E GetDem.event A) (f : A → MM E GetDem.event B)
    (w : mworld E GetDem.event) :
  same_requests w (m w).2 →
  (∀ a w1, same_requests w1 (f a w1).2) →
  same_requests w ((m ≫= f) w).2.
Proof.
  intros Hm Hf. unfold mbind, MM_bind.
  destruct (m w) as [[a|e] w1]; cbn [snd] in *; [|exact Hm].
  eapply same_requests_trans; [exact Hm|apply Hf].
Qed.

Lemma quiet_try {A} (body : MM E GetDem.event A) handler
    (w : mworld E GetDem.event) :
  same_requests w (body w).2 →
  (∀ e w1, same_requests w1 (handler e w1).2) →
  same_requests w (mtry body handler w).2.
Proof.
  intros Hm Hf. unfold mtry.
  destruct (body w) as [[a|e] w1]; cbn [snd] in *; [exact Hm|].
  eapply same_requests_trans; [exact Hm|apply Hf].
Qed.

Lemma quiet_finally {A} (body : MM E GetDem.event A) final
    (w : mworld E GetDem.event) :
  same_requests w (body w).2 →
  (∀ w1, same_requests w1 (final w1).2) →
  same_requests w (mfinally body final w).2.
Proof.
  intros Hm Hf. unfold mfinally.
  destruct (body w) as [r w1]; cbn [snd] in *.
  pose proof (Hf w1) as Hf1.
  destruct (final w1) as [[[]|e] w2]; cbn [snd] in *;
    eapply same_requests_trans; eassumption.
Qed.

Lemma quiet_print m (w : mworld E GetDem.event) :
  same_requests w (GetDem.print m w).2.
Proof.
  unfold same_requests, GetDem.print, memit. cbn [snd mout].
  rewrite filter_app. cbn. apply app_nil_r.
Qed.

Lemma quiet_os_call {A} (m : @M E A) (w : mworld E GetDem.event) :
  same_requests w (os_call m w).2.
Proof.
  unfold same_requests, os_call.
  destruct (m _) as [r w1]. reflexivity.
Qed.

Lemma quiet_run_checked cmd (w : mworld E GetDem.event) :
  same_requests w (run_checked run_shell GetDem.Run cmd w).2.
Proof.
  unfold same_requests, run_checked, shell_outcome. run_MM.
  destruct (run_shell cmd (mfs w) (mext w)) as [[[e|] s'] x'];
    cbn [snd mout]; rewrite filter_app; cbn; apply app_nil_r.
Qed.

Lemma quiet_run_unchecked cmd (w : mworld E GetDem.event) :
  same_requests w (run_unchecked run_shell GetDem.Run cmd w).2.
Proof.
  unfold same_requests, run_unchecked, shell_outcome. run_MM.
  destruct (run_shell cmd (mfs w) (mext w)) as [[[e|] s'] x'];
    [destruct (is_CalledProcessError e)|];
    cbn [snd mout]; rewrite filter_app; cbn; apply app_nil_r.
Qed.

Lemma quiet_remove_if_exists (p : path) (w : mworld E GetDem.event) :
  same_requests w (GetDem.remove_if_exists p w).2.
Proof.
  destruct (remove_if_exists_spec p w) as [(s' & -> & _)|[-> _]]; reflexivity.
Qed.

Lemma quiet_getsize (p : path) (w : mworld E GetDem.event) :
  same_requests w (GetDem.os_path_getsize dir_size p w).2.
Proof.
  unfold GetDem.os_path_getsize. run_MM.
  destruct (GetDem.getsize dir_size (mfs w) p); reflexivity.
Qed.

Lemma quiet_convert (tif_path dem_path vrt_path : path)
    (w : mworld E GetDem.event) :
  same_requests w
    (GetDem.convert run_shell gdal_open isce_xml str_exn
       tif_path dem_path vrt_path w).2.
Proof.
  unfold GetDem.convert. apply quiet_finally.
  - apply quiet_try.
    + apply quiet_bind; [apply quiet_run_checked|intros _ w1].
      apply quiet_bind; [apply quiet_run_checked|intros _ w2].
      unfold GetDem.generate_xml_metadata, GetDem.write_isce_xml.
      unfold mget_fs, mget_ext. unfold mbind at 1 2, MM_bind at 1 2.
      destruct (gdal_open dem_path (mfs w2) (mext w2)); [|reflexivity].
      apply quiet_bind; [apply quiet_print|intros _ w3].
      apply quiet_bind; [apply quiet_os_call|intros _ w4].
      apply quiet_print.
    + intros e w1.
      apply quiet_bind; [apply quiet_remove_if_exists|intros _ w2].
      reflexivity.
  - intros w1.
    apply quiet_bind; [apply quiet_remove_if_exists|intros _ w2].
    apply quiet_remove_if_exists.
Qed.

(** X25: Without a key nothing is asked of the server, whatever is on the disk
    and however the call ends. *)
Theorem download_dem_no_request_without_key roi (output_dir : path) source
    api_key (w : mworld E GetDem.event) :
  truthy api_key = false →
  same_requests w
    (GetDem.download_dem run_shell http_get gdal_open int_text isce_xml
       str_exn dir_size roi output_dir source api_key w).2.
Proof.
  intros Hkey. unfold GetDem.download_dem.
  destruct roi as [[[south north] west] east].
  unfold mget_fs. unfold mbind at 1, MM_bind at 1.
  apply quiet_bind.
  { destruct (negb _); [apply quiet_os_call|reflexivity]. }
  intros _ w1. unfold GetDem.lift_result.
  unfold mbind at 1, MM_bind at 1.
  destruct (int_text north) as [n|e]; [|reflexivity].
  unfold mbind at 1, MM_bind at 1.
  destruct (int_text south) as [s_|e]; [|reflexivity].
  unfold mbind at 1, MM_bind at 1.
  destruct (int_text west) as [w_|e]; [|reflexivity].
  unfold mbind at 1, MM_bind at 1.
  destruct (int_text east) as [e_|e]; [|reflexivity].
  cbv zeta. unfold mget_fs. unfold mbind at 1, MM_bind at 1.
  apply quiet_bind.
  { destruct (Fs.exists_ _ _); [|reflexivity].
    apply quiet_bind; [apply quiet_getsize|intros size w2].
    destruct (size <? 1024 * 1024)%Z; [|reflexivity].
    apply quiet_bind; [apply quiet_print|intros _ w3]. apply quiet_os_call. }
  intros _ w2. unfold mbind at 1, MM_bind at 1.
  destruct (_ && _).
  - apply quiet_bind; [apply quiet_print|intros _ w3].
    apply quiet_bind; [|reflexivity].
    destruct (negb _); [apply quiet_run_unchecked|reflexivity].
  - apply quiet_bind.
    { destruct (negb _); [|reflexivity].
      unfold GetDem.download_tif.
      destruct api_key as [[|c key]|]; try discriminate; reflexivity. }
    intros _ w3.
    apply quiet_bind; [apply quiet_print|intros _ w4].
    apply quiet_bind; [apply quiet_convert|intros _ w5].
    apply quiet_bind; [apply quiet_print|reflexivity].
Qed.

(** ** The name of the result *)

Lemma bind_Ret_inv {A B} (m : MM E GetDem.event A)
    (f : A → MM E GetDem.event B) (w : mworld E GetDem.event) (b : B) :
  ((m ≫= f) w).1 = Ret b →
  ∃ a w1, m w = (Ret a, w1) ∧ (f a w1).1 = Ret b.
Proof.
  unfold mbind, MM_bind. destruct (m w) as [[a|e] w1]; [eauto|discriminate].
Qed.

(** X26: A path that [download_dem] returns is built from the output directory
    and the whole parts of the four bounds, north first; nothing else takes
    part in the name. *)
Theorem download_dem_result_name (south north west east : F)
    (output_dir : path) source api_key (w : mworld E GetDem.event) (p : path) :
  (GetDem.download_dem run_shell http_get gdal_open int_text isce_xml
     str_exn dir_size (south, north, west, east) output_dir source api_key
     w).1 = Ret p →
  ∃ n s_ w_ e_,
    int_text north = Ret n ∧ int_text south = Ret s_
    ∧ int_text west = Ret w_ ∧ int_text east = Ret e_
    ∧ p = Fs.join output_dir
            (("demLat_N" +:+ n +:+ "_S" +:+ s_ +:+ "_W" +:+ w_ +:+ "_E" +:+ e_)
             +:+ ".wgs84").
Proof.
  unfold GetDem.download_dem. intros H.
  apply bind_Ret_inv in H as (s0 & w0 & _ & H).
  apply bind_Ret_inv in H as (_ & w1 & _ & H).
  apply bind_Ret_inv in H as (n & w2 & Hn & H).
  apply bind_Ret_inv in H as (s_ & w3 & Hs & H).
  apply bind_Ret_inv in H as (w_ & w4 & Hw & H).
  apply bind_Ret_inv in H as (e_ & w5 & He & H).
  unfold GetDem.lift_result in *. simplify_eq.
  exists n, s_, w_, e_.
  repeat match goal with
         | Hx : (int_text _, _) = _ |- _ => injection Hx as Hx _
         end.
  split_and!; try assumption.
  cbv zeta in H.
  apply bind_Ret_inv in H as (s1 & w6 & _ & H).
  apply bind_Ret_inv in H as (_ & w7 & _ & H).
  apply bind_Ret_inv in H as (s2 & w8 & _ & H).
  destruct (_ && _).
  - apply bind_Ret_inv in H as (_ & w9 & _ & H).
    apply bind_Ret_inv in H as (_ & w10 & _ & H).
    cbn in H. congruence.
  - apply bind_Ret_inv in H as (_ & w9 & _ & H).
    apply bind_Ret_inv in H as (_ & w10 & _ & H).
    apply bind_Ret_inv in H as (_ & w11 & _ & H).
    apply bind_Ret_inv in H as (_ & w12 & _ & H).
    cbn in H. congruence.
Qed.

(** ** A terrain model that is already there *)

(** X27: With the model and its XML in place and no leftover download, the call
    asks nothing of the server and needs no key.  When the VRT is there too
    it only prints; otherwise it runs the one command that makes the VRT and
    returns the path whatever the exit status of the command. *)
Theorem download_dem_existing (south north west east : F) (output_dir : path)
    source api_key (w : mworld E GetDem.event) (n s_ w_ e_ : string) :
  let base_name :=
    "demLat_N" +:+ n +:+ "_S" +:+ s_ +:+ "_W" +:+ w_ +:+ "_E" +:+ e_ in
  let dem_path := Fs.join output_dir (base_name +:+ ".wgs84") in
  let vrt_path := Fs.add_ext dem_path ".vrt" in
  let cmd :=
    "gdal_translate -of VRT " +:+ path_text dem_path +:+ " "
    +:+ path_text vrt_path in
  int_text north = Ret n → int_text south = Ret s_ →
  int_text west = Ret w_ → int_text east = Ret e_ →
  Fs.exists_ (mfs w) output_dir = true →
  Fs.exists_ (mfs w) (Fs.join output_dir "temp_download.tif") = false →
  Fs.exists_ (mfs w) dem_path = true →
  Fs.exists_ (mfs w) (Fs.add_ext dem_path ".xml") = true →
  GetDem.download_dem run_shell http_get gdal_open int_text isce_xml
    str_exn dir_size (south, north, west, east) output_dir source api_key w
  = if Fs.exists_ (mfs w) vrt_path
    then (Ret dem_path,
          MWorld (mfs w) (mext w)
            (mout w ++ [GetDem.Print (GetDem.DemExists base_name)]))
    else
      let '(o, s', x') := run_shell cmd (mfs w) (mext w) in
      (match o with
       | Some e => if is_CalledProcessError e then Ret dem_path else Raise e
       | None => Ret dem_path
       end,
       MWorld s' x'
         (mout w ++ [GetDem.Print (GetDem.DemExists base_name); GetDem.Run cmd])).
Proof.
  intros base_name dem_path vrt_path cmd Hn Hs Hw He Hdir Htif Hdem Hxml.
  unfold GetDem.download_dem, GetDem.lift_result, run_unchecked, shell_outcome.
  run_MM. cbn [mfs mext mout]. rewrite Hdir. cbn [negb mfs mext mout].
  rewrite Hn, Hs, Hw, He. cbn [mfs mext mout]. rewrite Htif.
  cbn [mfs mext mout]. fold base_name. fold dem_path. fold vrt_path.
  rewrite Hdem, Hxml. cbn [andb negb mfs mext mout].
  destruct (Fs.exists_ (mfs w) vrt_path); cbn [negb mfs mext mout];
    [reflexivity|].
  fold cmd.
  destruct (run_shell cmd (mfs w) (mext w)) as [[[e|] s'] x'];
    [destruct (is_CalledProcessError e)|];
    cbn [mfs mext mout]; rewrite <- app_assoc; reflexivity.
Qed.

End DemProperties.

(** * The properties on concrete inputs *)

(** ** The embedding on small inputs *)

Example split_on_underscores :
  Str.split_on "_" "_a__b_" = [""; "a"; ""; "b"; ""].
Proof. reflexivity. Qed.

Example read_line_canonical :
  read_line (ref_scene +:+ "  " +:+ sec_scene) = Parsed ref_scene sec_scene.
Proof. vm_compute. reflexivity. Qed.

Example read_line_fallback_comma :
  read_line "  (a, 'b')  " = Parsed "a" "b".
Proof. vm_compute. reflexivity. Qed.

Example read_line_one_canonical_name :
  read_line "xS1A_IW_SLC__1SDV.SAFE,S1A_IW_SLC__.SAFE"
  = Parsed "xS1A_IW_SLC__1SDV.SAFE" "S1A_IW_SLC__.SAFE".
Proof. vm_compute. reflexivity. Qed.

Example read_line_three_tokens :
  read_line "a  b c" = Malformed "a  b c".
Proof. vm_compute. reflexivity. Qed.

Example read_line_comment : read_line "  # a b" = Ignored.
Proof. vm_compute. reflexivity. Qed.

Example get_s1_date_canonical : get_s1_date ref_scene = "20230203".
Proof. vm_compute. reflexivity. Qed.

Example get_s1_date_unknown : get_s1_date "12345678t123456" = "UnknownDate".
Proof. vm_compute. reflexivity. Qed.

Example date_range_canonical :
  get_date_range_from_pairs [(sec_scene, ref_scene)]
  = Some ("20230203", "20230215").
Proof. vm_compute. reflexivity. Qed.

Example relpath_into_sandbox :
  Fs.relpath ["srv"; "data"; "orbit_data"; "x.EOF"]
    ["srv"; "data"; "runs"; "run_a_b"]
  = (2, ["orbit_data"; "x.EOF"]).
Proof. vm_compute. reflexivity. Qed.

Example glob_is_case_sensitive_and_skips_hidden :
  Fs.glob_suffix
    (list_to_map
       [ (["o"], Dir); (["o"; "a.EOF"], File ""); (["o"; "b.eof"], File "");
         (["o"; ".EOF"], File ""); (["o"; ".h.EOF"], File "");
         (["o"; "c.EOFx"], File ""); (["o"; "d.EOF"], Link 0 ["nowhere"]) ])
    ["o"] ".EOF"
  = [["o"; "d.EOF"]; ["o"; "a.EOF"]].
Proof. vm_compute. reflexivity. Qed.

(** ** The specification on concrete inputs *)

(** C7 as stated fails: two identifiers whose date the pattern of
    [get_s1_date] extracts, but which have fewer than six fields, give
    [(None, None)]; and what the function returns need not be a date of
    eight digits. *)
Lemma date_range_misses_pattern_dates :
  get_s1_date "S1A_20230203T034221" = "20230203"
  ∧ get_s1_date "S1A_20230215T034221" = "20230215"
  ∧ get_date_range_from_pairs [("S1A_20230203T034221", "S1A_20230215T034221")]
    = None
  ∧ get_date_range_from_pairs [("a_b_c_d_e_f", "a_b_c_d_e_g")]
    = Some ("f", "g").
Proof. cbv zeta. split_and!; vm_compute; reflexivity. Qed.

(** C1: the download leaves the raster without its sidecars; the exception
    raised for it is caught by the [except] clause of the same [try], the
    function returns the path and [main] goes on to the pool. *)
Theorem missing_dem_metadata_does_not_abort :
  let w := World project_fs () [] in
  let run := main dem_without_metadata orbit_noop cfg_full w in
  let raster := ["srv"; "data"; "dem"; "demLat_N1_S0_W0_E1.wgs84"] in
  Fs.exists_ (fs run.2) (Fs.add_ext raster ".xml") = false
  ∧ Fs.exists_ (fs run.2) (Fs.add_ext raster ".vrt") = false
  ∧ run.1 = Ret (PoolMap [(ref_scene, sec_scene, raster)])
  ∧ out run.2
    = [ Print TaskList; Print (TaskLine 1 "20230203" "20230215");
        Print PreparingResources; Print CheckDem;
        Print (DemDownloading "dem_standard"); Print DemUsingRoi;
        CallDownloadDem ["srv"; "data"; "dem"];
        Print (DemReady raster);
        Print DemMetadataMissing;
        Print (DemDirEntry "demLat_N1_S0_W0_E1.wgs84");
        Print (WarnDemDownloadFailed dem_metadata_error);
        Print CheckOrbits; Print (DateRange "20230203" "20230215");
        CallDownloadOrbit "20230203" "20230215" ["srv"; "data"; "orbit_data"];
        Print (OrbitsReady 2); Print StartingPool ].
Proof. cbv zeta. split_and!; vm_compute; reflexivity. Qed.

(** C2: with the credential set, no terrain model and no bounding box in
    the environment, reading the unbound name [ROI] raises [NameError];
    [main] catches it and exits with status 1 before the pool. *)
Theorem missing_roi_aborts_the_run :
  let w := World project_fs () [] in
  let run := main dem_without_metadata orbit_noop cfg_no_roi w in
  ROI (load_config no_float ["srv"] {[ "OPENTOPO_API_KEY" := "key" ]}) = None
  ∧ load_config no_float ["srv"] {[ "OPENTOPO_API_KEY" := "key" ]} = cfg_no_roi
  ∧ run.1 = Ret (Exit 1)
  ∧ out run.2
    = [ Print TaskList; Print (TaskLine 1 "20230203" "20230215");
        Print PreparingResources; Print CheckDem;
        Print (DemDownloading "dem_standard");
        Print (ErrResourcePrep (NameError "ROI")) ].
Proof. cbv zeta. split_and!; vm_compute; reflexivity. Qed.

(** C3: with the terrain model and its sidecars in place the function
    returns before part 2: no date range, no call of the orbit download and
    no count of the orbit files, although the orbit directory is empty; the
    pool is reached. *)
Theorem existing_dem_skips_orbit_provisioning :
  let w := World project_fs_no_orbits () [] in
  let run := main dem_without_metadata orbit_noop cfg_full w in
  eof_files cfg_full project_fs_no_orbits = []
  ∧ get_date_range_from_pairs [(ref_scene, sec_scene)]
    = Some ("20230203", "20230215")
  ∧ run.1 = Ret (PoolMap [(ref_scene, sec_scene, dem_standard_path)])
  ∧ out run.2
    = [ Print TaskList; Print (TaskLine 1 "20230203" "20230215");
        Print PreparingResources; Print CheckDem;
        Print (DemExists dem_standard_path);
        Print StartingPool ].
Proof. cbv zeta. split_and!; vm_compute; reflexivity. Qed.

(** C5: the orbit file with the lower-case suffix, which the provisioning
    counts, is not staged by the worker. *)
Theorem worker_skips_lower_case_orbit_file :
  let w := World project_fs_mixed_case () [] in
  let run :=
    worker_task always_ok cfg_full (ref_scene, sec_scene, dem_standard_path) w in
  eof_files cfg_full project_fs_mixed_case
  = [ ["srv"; "data"; "orbit_data"; "S1A_POEORB_20230202.EOF"];
      ["srv"; "data"; "orbit_data"; "S1A_POEORB_20230214.eof"] ]
  ∧ run.1 = Ret (Success "run_20230203_20230215")
  ∧ fs run.2 !! (cfg_run_dir ++ ["S1A_POEORB_20230202.EOF"])
    = Some (Link 2 ["orbit_data"; "S1A_POEORB_20230202.EOF"])
  ∧ fs run.2 !! (cfg_run_dir ++ ["S1A_POEORB_20230214.eof"]) = None.
Proof. cbv zeta. split_and!; vm_compute; reflexivity. Qed.

(** C4: an error of the staging leaves the unit.  The sandbox of the unit
    already holds a directory under the name of the reference scene, a
    product copied there instead of linked; [os.remove] refuses it inside
    [atomic_link], outside every [try], and the exception leaves
    [worker_task] for the pool instead of becoming a [Failure].  The same
    exception at the link of the terrain model, which is staged inside a
    [try], is caught and printed, and the unit goes on. *)
Theorem staging_error_leaves_the_unit :
  let unit := (ref_scene, sec_scene, dem_standard_path) in
  let sandbox := <[cfg_run_dir := Dir]> project_fs_with_dem in
  let scene_in_the_way := <[cfg_run_dir ++ [ref_scene] := Dir]> sandbox in
  let model_in_the_way :=
    <[cfg_run_dir ++ ["dem_standard.wgs84"] := Dir]> sandbox in
  (worker_task always_ok cfg_full unit (World scene_in_the_way () [])).1
  = Raise (OSError "EISDIR")
  ∧ (worker_task always_ok cfg_full unit (World model_in_the_way () [])).1
    = Ret (Success "run_20230203_20230215")
  ∧ bool_decide
      (Print (WarnDemLinkError (OSError "EISDIR"))
       ∈ out (worker_task always_ok cfg_full unit
                (World model_in_the_way () [])).2)
    = true.
Proof. cbv zeta. split_and!; vm_compute; reflexivity. Qed.

(** The same in a project of two scenes named [a] and [b]. *)
Lemma worker_task_raises_on_directory_in_sandbox :
  (worker_task always_ok cfg_tiny (("a", "b"), ["data"; "dem"; "dem.wgs84"])
     (World (<[["data"; "runs"; "run_a_b"] := Dir]>
               (<[["data"; "runs"; "run_a_b"; "a"] := Dir]> tiny_fs)) () [])).1
  = Raise (OSError "EISDIR").
Proof. vm_compute. reflexivity. Qed.

Lemma worker_task_unit_boundary_witness :
  (worker_task fails_at_verifyDEM cfg_tiny (("a", "b"), ["data"; "dem"; "dem.wgs84"])
     (World tiny_fs () [])).1
  = Ret (Failure "run_a_b" (CalledProcessError step_cmd_verifyDEM)).
Proof.
  set (w := World tiny_fs () []).
  set (dem := ["data"; "dem"; "dem.wgs84"]).
  set (w1 := (stage_sandbox cfg_tiny "run_a_b" "a" "b" dem w).2).
  set (wa := (for_each ["startup"; "preprocess"; "computeBaselines"]
                (phase1_step fails_at_verifyDEM "run_a_b"
                   ["data"; "runs"; "run_a_b"]) w1).2).
  destruct (worker_task_unit_boundary fails_at_verifyDEM cfg_tiny "a" "b" dem
              w w1) as (_ & Hstep & _).
  { compute_done. }
  rewrite (Hstep ["startup"; "preprocess"; "computeBaselines"] "verifyDEM"
             [ "topo"; "subsetoverlaps"; "coarseoffsets"; "coarseresamp";
               "overlapifg"; "prepesd"; "esd"; "rangecoreg"; "fineoffsets" ]
             wa (CalledProcessError step_cmd_verifyDEM)
             (CalledProcessError step_cmd_verifyDEM) (fs wa) ()).
  - reflexivity.
  - compute_done.
  - compute_done.
  - compute_done.
  - compute_done.
Defined.





Lemma atomic_link_missing_source_witness :
  Fs.exists_ small_fs ["data"; "raw"; "other.SAFE"] = false
  ∧ atomic_link ["data"; "raw"; "other.SAFE"]
      ["data"; "runs"; "run_a_b"; "other.SAFE"] small_world
    = (Ret false,
       World small_fs ()
         [Print (LinkSourceMissing ["data"; "raw"; "other.SAFE"])]).
Proof.
  split; [reflexivity|].
  apply (atomic_link_missing_source ["data"; "raw"; "other.SAFE"]
           ["data"; "runs"; "run_a_b"; "other.SAFE"] small_world).
  compute_done.
Defined.

Lemma run_with_retry_attempts_witness :
  ∃ evs,
    filter is_run_or_sleep evs = [Run "step" []; Sleep 3; Run "step" []]
    ∧ count_runs evs = 2
    ∧ (([Some (CalledProcessError "step"); None] : list (option exn)) !! 1 = Some None →
       run_with_retry flaky_shell "step" [] 2 3 (World ∅ 1 [])
       = (Ret (Some true), World ∅ 0 ([] ++ evs)))
    ∧ (∀ e, ([Some (CalledProcessError "step"); None] : list (option exn)) !! 1
            = Some (Some e) →
       run_with_retry flaky_shell "step" [] 2 3 (World ∅ 1 [])
       = (Raise e, World ∅ 0 ([] ++ evs))).
Proof.
  apply (run_with_retry_attempts flaky_shell "step" [] 2 3 (World ∅ 1 [])
           [Some (CalledProcessError "step"); None] ∅ 0);
    [lia | compute_done | compute_done].
Defined.

(** * The further properties at concrete inputs *)




Lemma run_with_retry_first_success_witness :
  ∃ evs,
    run_with_retry flaky_shell "step" [] 3 3 (World ∅ 1%nat [])
    = (Ret (Some true), World ∅ 0%nat (out (World ∅ 1%nat []) ++ evs))
    ∧ filter is_run_or_sleep evs = runs_with_sleeps "step" [] 3 2
    ∧ count_runs evs = 2%nat.
Proof.
  apply (run_with_retry_first_success flaky_shell "step" [] 3 3 1
           (World ∅ 1%nat []) [Some (CalledProcessError "step"); None] ∅ 0%nat);
    [lia | compute_done | compute_done | compute_done].
Defined.

Lemma run_with_retry_other_exception_witness :
  ∃ evs,
    run_with_retry broken_shell "step" [] 2 3 (World ∅ () [])
    = (Raise (OSError "ENOENT"), World ∅ () (out (World ∅ () []) ++ evs))
    ∧ filter is_run_or_sleep evs = runs_with_sleeps "step" [] 3 1
    ∧ count_runs evs = 1%nat.
Proof.
  apply (run_with_retry_other_exception broken_shell "step" [] 2 3 0
           (World ∅ () []) [Some (OSError "ENOENT")] ∅ ());
    [lia | compute_done | compute_done | compute_done | compute_done].
Defined.

Lemma get_s1_date_complete_witness :
  let name :=
    "S1A_IW_SLC__1SDV_" +:+ "20230203" +:+ String "T" ("034221" +:+ "_x.SAFE") in
  get_s1_date name ≠ "UnknownDate"
  ∧ String.length (get_s1_date name) = 8%nat
  ∧ all_digits (get_s1_date name) = true.
Proof.
  apply (get_s1_date_complete "S1A_IW_SLC__1SDV_" "20230203" "034221" "_x.SAFE");
    compute_done.
Defined.

Lemma canonical_name_date_witness :
  date_field (canonical_name "A" "1SDV" "20230203" "034221" "_x.SAFE")
  = Some "20230203"
  ∧ get_s1_date (canonical_name "A" "1SDV" "20230203" "034221" "_x.SAFE")
    = "20230203".
Proof.
  apply (canonical_name_date "A" "1SDV" "20230203" "034221" "_x.SAFE");
    compute_done.
Defined.

Lemma folder_name_canonical_witness :
  folder_name_of (canonical_name "A" "1SDV" "20230203" "034221" "_x.SAFE")
    (canonical_name "B" "1SSV" "20230215" "034222" "_y.SAFE")
  = "run_" +:+ "20230203" +:+ "_" +:+ "20230215".
Proof.
  apply (folder_name_canonical "A" "B" "1SDV" "1SSV" "20230203" "20230215"
           "034221" "034222" "_x.SAFE" "_y.SAFE");
    compute_done.
Defined.

Lemma date_range_order_irrelevant_witness :
  get_date_range_from_pairs [(ref_scene, sec_scene); (sec_scene, ref_scene)]
  = get_date_range_from_pairs [(sec_scene, ref_scene); (ref_scene, sec_scene)].
Proof.
  apply (date_range_order_irrelevant
           [(ref_scene, sec_scene); (sec_scene, ref_scene)]
           [(sec_scene, ref_scene); (ref_scene, sec_scene)]).
  apply perm_swap.
Defined.


Lemma worker_task_all_steps_succeed_witness :
  let dem := ["data"; "dem"; "dem.wgs84"] in
  let w := World tiny_fs () [] in
  let folder := folder_name_of "a" "b" in
  let run_dir := Fs.join (RUNS_DIR cfg_tiny) folder in
  let w1 := (stage_sandbox cfg_tiny folder "a" "b" dem w).2 in
  ∃ evs,
    worker_task always_ok cfg_tiny ("a", "b", dem) w
    = (Ret (Success folder), World (fs w1) () (out w1 ++ evs))
    ∧ filter is_run_or_sleep evs = (λ cmd, Run cmd run_dir) <$> unit_commands.
Proof.
  apply (worker_task_all_steps_succeed always_ok cfg_tiny "a" "b"
           ["data"; "dem"; "dem.wgs84"] (World tiny_fs () [])
           (stage_sandbox cfg_tiny (folder_name_of "a" "b") "a" "b"
              ["data"; "dem"; "dem.wgs84"] (World tiny_fs () [])).2
           (replicate 14 None));
    compute_done.
Defined.

Lemma prepare_orbits_download_witness :
  let w := World project_fs_with_dem () [] in
  let '(r, w') := prepare_orbits orbit_noop cfg_full w in
  match get_date_range_from_pairs [(ref_scene, sec_scene)] with
  | Some (String a s, end_date) =>
      filter is_orbit_call (out w')
      = filter is_orbit_call
          (out (World project_fs_with_dem () [Print CheckOrbits]))
        ++ [CallDownloadOrbit (String a s) end_date (ORBIT_DIR cfg_full)]
  | _ =>
      filter is_orbit_call (out w')
      = filter is_orbit_call
          (out (World project_fs_with_dem () [Print CheckOrbits]))
      ∧ r = Ret ()
      ∧ fs w' = fs (World project_fs_with_dem () [Print CheckOrbits])
      ∧ ext w' = ext (World project_fs_with_dem () [Print CheckOrbits])
  end.
Proof.
  apply (prepare_orbits_download orbit_noop cfg_full
           (World project_fs_with_dem () [])
           (World project_fs_with_dem () [Print CheckOrbits])
           [(ref_scene, sec_scene)]).
  compute_done.
Defined.

Lemma generate_xml_read_back_witness :
  let run_dir := ["data"; "runs"; "run_a_b"] in
  let dem := ["data"; "dem"; "dem.wgs84"] in
  let w' := (generate_xml run_dir "a" "b" dem small_world).2 in
  read_text (Fs.join run_dir "topsApp.xml") w'
  = (Ret (topsApp_xml (Fs.basename dem) "a" "b"), w')
  ∧ ext w' = ext small_world ∧ out w' = out small_world
  ∧ ∀ p : path,
      Fs.resolve (fs small_world) (Fs.join run_dir "topsApp.xml") ≠ Some p →
      fs w' !! p = fs small_world !! p.
Proof.
  apply (generate_xml_read_back ["data"; "runs"; "run_a_b"] "a" "b"
           ["data"; "dem"; "dem.wgs84"] small_world).
  compute_done.
Defined.

Lemma prepare_survives_failed_download_witness :
  let w := World project_fs () [] in
  let target_dem := Fs.join (DEM_DIR cfg_full) ("dem_standard" +:+ ".wgs84") in
  prepare_shared_resources dem_unreachable orbit_noop cfg_full "dem_standard" w
  = (prepare_orbits orbit_noop cfg_full;; mret target_dem)
      (World project_fs ()
         (out w
          ++ [ Print CheckDem; Print (DemDownloading "dem_standard");
               Print DemUsingRoi; CallDownloadDem (DEM_DIR cfg_full);
               Print (WarnDemDownloadFailed (PyException "timeout")) ])).
Proof.
  apply (prepare_survives_failed_download dem_unreachable orbit_noop cfg_full
           "dem_standard" (World project_fs () []) (0, 1, 0, 1)%Z
           (PyException "timeout") project_fs ());
    [vm_compute; reflexivity | reflexivity | reflexivity | reflexivity].
Defined.



Lemma download_tif_retries_witness :
  let w : mworld nat GetDem.event := MWorld download_fs 2%nat [] in
  let tif_path := ["dem"; "temp_download.tif"] in
  let rs : list (result unit) :=
    [ Raise (PyException "connection refused");
      Raise (PyException "connection refused"); Ret () ] in
  ∃ evs,
    filter is_request_or_sleep evs
    = backoff "SRTMGL1" 2 1 ++ [GetDem.Get "SRTMGL1"]
    ∧ (rs !! 2%nat = Some (Ret ()) →
       GetDem.download_tif server_flaky 4096 (0, 1, 0, 1)%Z 1
         (Some (String "k" "ey")) tif_path w
       = (Ret (),
          MWorld (<[tif_path := File big_body]> download_fs) 0%nat
            (mout w ++ evs)))
    ∧ (∀ e, rs !! 2%nat = Some (Raise e) → 2%nat = 4%nat →
       GetDem.download_tif server_flaky 4096 (0, 1, 0, 1)%Z 1
         (Some (String "k" "ey")) tif_path w
       = (Raise GetDem.download_failed_error,
          MWorld (<[tif_path := File big_body]> download_fs) 0%nat
            (mout w ++ evs))).
Proof.
  apply (download_tif_retries server_flaky 4096 (0, 1, 0, 1)%Z 1 "k" "ey"
           ["dem"; "temp_download.tif"] (MWorld download_fs 2%nat []) 2
           [ Raise (PyException "connection refused");
             Raise (PyException "connection refused"); Ret () ]
           (<[["dem"; "temp_download.tif"] := File big_body]> download_fs)
           0%nat);
    [lia | compute_done | reflexivity].
Defined.

Lemma download_dem_no_request_without_key_witness :
  same_requests dem_world
    (GetDem.download_dem shell_ok server_down gdal_nothing int_text_01 no_xml
       exn_name 4096 (0, 1, 0, 1)%Z ["dem"] 1 None dem_world).2.
Proof.
  apply (download_dem_no_request_without_key shell_ok server_down gdal_nothing
           int_text_01 no_xml exn_name 4096 (0, 1, 0, 1)%Z ["dem"] 1 None
           dem_world).
  reflexivity.
Defined.

Lemma download_dem_result_name_witness :
  ∃ n s_ w_ e_,
    int_text_01 1 = Ret n ∧ int_text_01 0 = Ret s_
    ∧ int_text_01 0 = Ret w_ ∧ int_text_01 1 = Ret e_
    ∧ ["dem"; "demLat_N1_S0_W0_E1.wgs84"]
      = Fs.join ["dem"]
          (("demLat_N" +:+ n +:+ "_S" +:+ s_ +:+ "_W" +:+ w_ +:+ "_E" +:+ e_)
           +:+ ".wgs84").
Proof.
  apply (download_dem_result_name shell_ok server_down gdal_nothing
           int_text_01 no_xml exn_name 4096 0%Z 1%Z 0%Z 1%Z ["dem"] 1
           (Some "key") dem_world).
  vm_compute. reflexivity.
Defined.

Lemma download_dem_existing_witness :
  let base_name :=
    "demLat_N" +:+ "1" +:+ "_S" +:+ "0" +:+ "_W" +:+ "0" +:+ "_E" +:+ "1" in
  let dem_path := Fs.join ["dem"] (base_name +:+ ".wgs84") in
  let vrt_path := Fs.add_ext dem_path ".vrt" in
  let cmd :=
    "gdal_translate -of VRT " +:+ path_text dem_path +:+ " "
    +:+ path_text vrt_path in
  GetDem.download_dem shell_ok server_down gdal_nothing int_text_01 no_xml
    exn_name 4096 (0, 1, 0, 1)%Z ["dem"] 1 None dem_world
  = if Fs.exists_ (mfs dem_world) vrt_path
    then (Ret dem_path,
          MWorld (mfs dem_world) (mext dem_world)
            (mout dem_world ++ [GetDem.Print (GetDem.DemExists base_name)]))
    else
      let '(o, s', x') := shell_ok cmd (mfs dem_world) (mext dem_world) in
      (match o with
       | Some e => if is_CalledProcessError e then Ret dem_path else Raise e
       | None => Ret dem_path
       end,
       MWorld s' x'
         (mout dem_world
          ++ [GetDem.Print (GetDem.DemExists base_name); GetDem.Run cmd])).
Proof.
  apply (download_dem_existing shell_ok server_down gdal_nothing int_text_01
           no_xml exn_name 4096 0%Z 1%Z 0%Z 1%Z ["dem"] 1 None dem_world
           "1" "0" "0" "1");
    vm_compute; reflexivity.
Defined.
